(** * Ax core: optimization configurations and linear parameter constraints

    A shallow embedding of [ax/core/optimization_config.py] and
    [ax/core/parameter_constraint.py].

    - Python [float] is IEEE binary64, modelled by Rocq's primitive floats
      ([PrimFloat]); comparisons and products are the machine's.
    - A raised exception is the [Raise] branch of [result]; an f-string is the
      list of its pieces, so that no number has to be printed.
    - A method that assigns to [self] is a function from the object to an
      outcome and the object afterwards ([method]).
    - A [dict] that is only looked up is a [gmap]; one that is iterated is an
      association list in insertion order ([pydict]); a [set] is a [gset]. *)

From Stdlib Require Import ZArith Lia Bool List String Ascii Floats Sorted.
From Stdlib Require Import OrderedTypeEx.
From stdpp Require Import base option list gmap strings.

Set Warnings "-inexact-float".
Local Open Scope string_scope.
Local Open Scope list_scope.

(** ** Exceptions and outcomes *)

(** Modelled from the spec: [ax.core.types.ComparisonOp] is not among the
    sources; "a comparison operator (<=/>=)". *)
Inductive ComparisonOp := GEQ | LEQ.

#[export] Instance ComparisonOp_eq_dec : EqDecision ComparisonOp.
Proof. solve_decision. Defined.

Module Metric.
(** Modelled from the spec: [ax.core.metric] is not among the sources; a
    metric is a "named observable with a lower_is_better polarity flag". *)
Record t := mk { name : string; lower_is_better : option bool }.
End Metric.

Module ObjectiveThreshold.
(** Modelled from the spec: [ax.core.outcome_constraint] is not among the
    sources; an objective threshold is "a Metric, bound, operator, relative
    flag". *)
Record t := mk { metric : Metric.t; bound : float; op : ComparisonOp; relative : bool }.
End ObjectiveThreshold.

(** One piece of a formatted message: literal text, a number, or the [repr]
    of a threshold. *)
Inductive piece :=
| Lit (s : string)
| Num (x : float)
| Repr (t : ObjectiveThreshold.t).

Definition message := list piece.

Inductive exn :=
| ValueError (msg : message)
| TypeError (msg : message)
| UserInputError (msg : message)
| KeyError (key : string)
| OverflowError (msg : message)
| SearchSpaceExhausted.

Inductive result (A : Type) :=
| Ok (a : A)
| Raise (e : exn).
Arguments Ok {A} a.
Arguments Raise {A} e.

#[export] Instance result_ret : MRet result := fun A a => Ok a.
#[export] Instance result_bind : MBind result := fun A B f m =>
  match m with Ok a => f a | Raise e => Raise e end.

(** [for x in xs: body], where the body may update a local [acc] or raise. *)
Fixpoint for_acc {A S : Type} (body : S -> A -> result S) (acc : S) (xs : list A) : result S :=
  match xs with
  | [] => Ok acc
  | x :: xs' => acc' ← body acc x; for_acc body acc' xs'
  end.

Definition for_each {A : Type} (xs : list A) (body : A -> result unit) : result unit :=
  for_acc (fun _ x => body x) tt xs.

(** A list comprehension whose element expression may raise: the elements
    are evaluated from the left and the first exception ends it. *)
Fixpoint for_map {A B : Type} (f : A -> result B) (xs : list A) : result (list B) :=
  match xs with
  | [] => Ok []
  | x :: xs' => y ← f x; ys ← for_map f xs'; Ok (y :: ys)
  end.

(** [d[key]] on a dict that is only looked up. *)
Definition getitem {V : Type} (d : gmap string V) (key : string) : result V :=
  match d !! key with
  | Some v => Ok v
  | None => Raise (KeyError key)
  end.

(** A method on a mutable object: the outcome, and the object afterwards.
    An exception leaves the object as it was when it was raised. *)
Definition method (S A : Type) : Type := S -> result A * S.

Definition m_ret {S A : Type} (a : A) : method S A := fun self => (Ok a, self).
Definition m_bind {S A B : Type} (m : method S A) (k : A -> method S B) : method S B :=
  fun self => match m self with
              | (Ok a, self') => k a self'
              | (Raise e, self') => (Raise e, self')
              end.
Definition m_read {S A : Type} (f : S -> A) : method S A := fun self => (Ok (f self), self).
Definition m_assign {S : Type} (f : S -> S) : method S unit := fun self => (Ok tt, f self).
Definition m_call {S A : Type} (r : result A) : method S A := fun self => (r, self).

#[export] Instance method_ret {S : Type} : MRet (method S) := fun A a => m_ret a.
#[export] Instance method_bind {S : Type} : MBind (method S) := fun A B k m => m_bind m k.

(** ** Python built-ins used by the validators *)

(** [sorted(xs, key=key)] on string keys: a stable sort by code-point order
    (insertion from the right keeps equal keys in their original order). *)
Fixpoint insert_by {A : Type} (key : A -> string) (x : A) (l : list A) : list A :=
  match l with
  | [] => [x]
  | y :: l' => if String.leb (key x) (key y) then x :: y :: l' else y :: insert_by key x l'
  end.

Definition sorted {A : Type} (key : A -> string) (l : list A) : list A :=
  foldr (insert_by key) [] l.

(** [itertools.groupby(xs, key)]: maximal runs of consecutive elements with
    the same key, each with its key. *)
Fixpoint groupby {A : Type} (key : A -> string) (l : list A) : list (string * list A) :=
  match l with
  | [] => []
  | x :: l' =>
      match groupby key l' with
      | (k, g) :: gs => if String.eqb (key x) k then (k, x :: g) :: gs
                        else (key x, [x]) :: (k, g) :: gs
      | [] => [(key x, [x])]
      end
  end.

(** A [dict] in insertion order: assigning an existing key keeps its place. *)
Definition pydict (V : Type) := list (string * V).

Fixpoint dict_set {V : Type} (k : string) (v : V) (d : pydict V) : pydict V :=
  match d with
  | [] => [(k, v)]
  | (k', v') :: d' => if String.eqb k' k then (k', v) :: d' else (k', v') :: dict_set k v d'
  end.

(** ** Objectives and outcome constraints *)

Module Objective.
(** Modelled from the spec: [ax.core.objective] is not among the sources. An
    objective "wraps a Metric plus a minimize flag (single-objective), or a
    list of (Metric, minimize) pairs (MultiObjective), or a weighted linear
    combination of Metrics (ScalarizedObjective)". *)
Record single := mk { metric : Metric.t; minimize : bool }.

Inductive t :=
| Objective (o : single)
| MultiObjective (objectives : list single)
| ScalarizedObjective (metrics : list Metric.t) (weights : list float) (minimize : bool).

Definition metrics (self : t) : list Metric.t :=
  match self with
  | Objective o => [metric o]
  | MultiObjective objectives => map metric objectives
  | ScalarizedObjective ms _ _ => ms
  end.

(** Modelled from the spec: "Collect metric names referenced by the objective
    (unconstrainable set)". *)
Definition get_unconstrainable_metrics (self : t) : list Metric.t := metrics self.

(** [type(objective) is MultiObjective]. *)
Definition is_exactly_MultiObjective (self : t) : bool :=
  match self with MultiObjective _ => true | _ => false end.

(** [isinstance(objective, (MultiObjective, ScalarizedObjective))]. *)
Definition is_multi_or_scalarized (self : t) : bool :=
  match self with Objective _ => false | _ => true end.
End Objective.

Module OutcomeConstraint.
(** Modelled from the spec: an outcome constraint is "a Metric, a comparison
    operator, a bound, and a relative flag". *)
Record t := mk { metric : Metric.t; op : ComparisonOp; bound : float; relative : bool }.
End OutcomeConstraint.

Module ScalarizedOutcomeConstraint.
(** Modelled from the spec: the "scalarized variant constrains a weighted
    combination of metrics"; it has no single metric. *)
Record t := mk { metrics : list Metric.t; weights : list float;
                 op : ComparisonOp; bound : float; relative : bool }.
End ScalarizedOutcomeConstraint.

(** An element of an [outcome_constraints] list, by its class. *)
Inductive Constraint :=
| Plain (c : OutcomeConstraint.t)
| Scalarized (c : ScalarizedOutcomeConstraint.t).

Module RiskMeasure.
(** Modelled from the spec: [ax.core.risk_measures] is not among the sources;
    the "optional risk measure" is carried, never inspected: a name with its
    options. *)
Record t := mk { risk_measure : string; options : list (string * float) }.
End RiskMeasure.

(** ** [optimization_config.py] *)

Definition get_metric_name (oc : OutcomeConstraint.t) : string :=
  Metric.name (OutcomeConstraint.metric oc).

(** [check_objective_thresholds_match_objectives]: the body of the loop, with
    the set [obj_thresh_metrics] as the loop's local state. *)
Definition check_threshold (objectives_by_name : gmap string Objective.single)
    (obj_thresh_metrics : gset string) (threshold : ObjectiveThreshold.t)
    : result (gset string) :=
  let metric_name := Metric.name (ObjectiveThreshold.metric threshold) in
  match objectives_by_name !! metric_name with
  | None =>
      Raise (UserInputError
        [Lit "Objective threshold "; Repr threshold; Lit " is on metric '";
         Lit metric_name; Lit "', but that metric is not among the objectives."])
  | Some objective =>
      if bool_decide (metric_name ∈ obj_thresh_metrics) then
        Raise (UserInputError
          [Lit "More than one objective threshold specified for metric ";
           Lit metric_name; Lit "."])
      else
        let obj_thresh_metrics := {[ metric_name ]} ∪ obj_thresh_metrics in
        let minimize := Objective.minimize objective in
        let bounded_above := bool_decide (ObjectiveThreshold.op threshold = LEQ) in
        let is_aligned := Bool.eqb minimize bounded_above in
        if negb is_aligned then
          Raise (UserInputError
            [Lit "Objective threshold on "; Lit metric_name; Lit " bounds from ";
             Lit (if bounded_above then "above" else "below"); Lit " but ";
             Lit metric_name; Lit " is being ";
             Lit (if minimize then "minimized" else "maximized"); Lit "."])
        else Ok obj_thresh_metrics
  end.

Definition check_objective_thresholds_match_objectives
    (objectives_by_name : gmap string Objective.single)
    (objective_thresholds : list ObjectiveThreshold.t) : result unit :=
  _ ← for_acc (check_threshold objectives_by_name) ∅ objective_thresholds; Ok tt.

(** [{obj.metric.name: obj for obj in objective.objectives}]: a later
    objective replaces an earlier one on the same metric name. *)
Definition objectives_by_name (objectives : list Objective.single)
    : gmap string Objective.single :=
  foldl (fun d obj => <[ Metric.name (Objective.metric obj) := obj ]> d) ∅ objectives.

Module OptimizationConfig.

Record t := mk {
  _objective : Objective.t;
  _outcome_constraints : list Constraint;
  risk_measure : option RiskMeasure.t
}.

(** The check of one group of the [groupby] loop. *)
Definition validate_group (metric_name : string) (constraints : list OutcomeConstraint.t)
    : result unit :=
  match constraints with
  | [c0; c1] =>
      if bool_decide (OutcomeConstraint.op c0 = OutcomeConstraint.op c1) then
        Raise (ValueError [Lit "Duplicate outcome constraints "; Lit metric_name])
      else
        let lower_bound_idx := if bool_decide (OutcomeConstraint.op c0 = GEQ) then 0 else 1 in
        let upper_bound_idx := 1 - lower_bound_idx in
        let lower_bound := OutcomeConstraint.bound (nth lower_bound_idx constraints c0) in
        let upper_bound := OutcomeConstraint.bound (nth upper_bound_idx constraints c0) in
        if (upper_bound <=? lower_bound)%float then
          Raise (ValueError
            [Lit "Lower bound "; Num lower_bound; Lit " is >= upper bound ";
             Num upper_bound; Lit " for "; Lit metric_name])
        else Ok tt
  | _ :: _ :: _ :: _ =>
      Raise (ValueError [Lit "Duplicate outcome constraints "; Lit metric_name])
  | _ => Ok tt
  end.

Definition _validate_outcome_constraints (unconstrainable_metrics : list Metric.t)
    (outcome_constraints : list OutcomeConstraint.t) : result unit :=
  let constraint_metrics := map get_metric_name outcome_constraints in
  for_each unconstrainable_metrics (fun metric =>
    if bool_decide (Metric.name metric ∈ constraint_metrics) then
      Raise (ValueError [Lit "Cannot constrain on objective metric."])
    else Ok tt);;
  let sorted_constraints := sorted get_metric_name outcome_constraints in
  for_each (groupby get_metric_name sorted_constraints) (fun '(metric_name, constraints) =>
    validate_group metric_name constraints).

(** The comprehension that keeps the constraints that are not
    [ScalarizedOutcomeConstraint]s. *)
Fixpoint not_scalarized (outcome_constraints : list Constraint) : list OutcomeConstraint.t :=
  match outcome_constraints with
  | [] => []
  | Plain c :: l => c :: not_scalarized l
  | Scalarized _ :: l => not_scalarized l
  end.

Definition _validate_transformed_optimization_config (objective : Objective.t)
    (outcome_constraints : option (list Constraint))
    (risk_measure : option RiskMeasure.t) : result unit :=
  if Objective.is_exactly_MultiObjective objective then
    Raise (ValueError
      [Lit ("OptimizationConfig does not support MultiObjective. " ++
            "Use MultiObjectiveOptimizationConfig instead.")%string])
  else
    let outcome_constraints := default [] outcome_constraints in
    let outcome_constraints := not_scalarized outcome_constraints in
    let unconstrainable_metrics := Objective.get_unconstrainable_metrics objective in
    _validate_outcome_constraints unconstrainable_metrics outcome_constraints.

Definition __init__ (objective : Objective.t)
    (outcome_constraints : option (list Constraint))
    (risk_measure : option RiskMeasure.t) : result t :=
  let constraints := match outcome_constraints with None => [] | Some l => l end in
  _validate_transformed_optimization_config objective (Some constraints) risk_measure;;
  Ok {| _objective := objective;
        _outcome_constraints := constraints;
        risk_measure := risk_measure |}.

Definition objective (self : t) : Objective.t := _objective self.
Definition outcome_constraints (self : t) : list Constraint := _outcome_constraints self.

Definition set_objective (objective : Objective.t) : method t unit :=
  oc ← m_read outcome_constraints;
  rm ← m_read risk_measure;
  m_call (_validate_transformed_optimization_config objective (Some oc) rm);;
  m_assign (fun self => {| _objective := objective;
                           _outcome_constraints := _outcome_constraints self;
                           risk_measure := risk_measure self |}).

Definition set_outcome_constraints (outcome_constraints : list Constraint) : method t unit :=
  obj ← m_read objective;
  rm ← m_read risk_measure;
  m_call (_validate_transformed_optimization_config obj (Some outcome_constraints) rm);;
  m_assign (fun self => {| _objective := _objective self;
                           _outcome_constraints := outcome_constraints;
                           risk_measure := risk_measure self |}).

End OptimizationConfig.

Module MultiObjectiveOptimizationConfig.

(** The subtype's validator hands its outcome constraints to
    [_validate_outcome_constraints] unfiltered, which reads [metric.name] of
    each; the fields therefore hold constraints that have a single metric. *)
Record t := mk {
  _objective : Objective.t;
  _outcome_constraints : list OutcomeConstraint.t;
  _objective_thresholds : list ObjectiveThreshold.t;
  risk_measure : option RiskMeasure.t
}.

Definition _validate_transformed_optimization_config (objective : Objective.t)
    (outcome_constraints : option (list OutcomeConstraint.t))
    (objective_thresholds : option (list ObjectiveThreshold.t))
    (risk_measure : option RiskMeasure.t) : result unit :=
  if negb (Objective.is_multi_or_scalarized objective) then
    Raise (TypeError
      [Lit ("`MultiObjectiveOptimizationConfig` requires an objective " ++
            "of type `MultiObjective` or `ScalarizedObjective`. " ++
            "Use `OptimizationConfig` instead if using a " ++
            "single-metric objective.")%string])
  else
    let outcome_constraints := default [] outcome_constraints in
    let objective_thresholds := default [] objective_thresholds in
    match objective with
    | Objective.MultiObjective objectives =>
        check_objective_thresholds_match_objectives
          (objectives_by_name objectives) objective_thresholds
    | _ => Ok tt
    end;;
    let unconstrainable_metrics := Objective.get_unconstrainable_metrics objective in
    OptimizationConfig._validate_outcome_constraints
      unconstrainable_metrics outcome_constraints.

Definition __init__ (objective : Objective.t)
    (outcome_constraints : option (list OutcomeConstraint.t))
    (objective_thresholds : option (list ObjectiveThreshold.t))
    (risk_measure : option RiskMeasure.t) : result t :=
  let constraints := match outcome_constraints with None => [] | Some l => l end in
  let objective_thresholds := default [] objective_thresholds in
  _validate_transformed_optimization_config
    objective (Some constraints) (Some objective_thresholds) risk_measure;;
  Ok {| _objective := objective;
        _outcome_constraints := constraints;
        _objective_thresholds := objective_thresholds;
        risk_measure := risk_measure |}.

Definition objective (self : t) : Objective.t := _objective self.
Definition outcome_constraints (self : t) : list OutcomeConstraint.t :=
  _outcome_constraints self.
Definition objective_thresholds (self : t) : list ObjectiveThreshold.t :=
  _objective_thresholds self.

Definition set_objective (objective : Objective.t) : method t unit :=
  oc ← m_read outcome_constraints;
  ot ← m_read objective_thresholds;
  rm ← m_read risk_measure;
  m_call (_validate_transformed_optimization_config objective (Some oc) (Some ot) rm);;
  m_assign (fun self => {| _objective := objective;
                           _outcome_constraints := _outcome_constraints self;
                           _objective_thresholds := _objective_thresholds self;
                           risk_measure := risk_measure self |}).

(** Inherited from [OptimizationConfig]: [self._validate_...] resolves to the
    subtype's validator, called without [objective_thresholds]. *)
Definition set_outcome_constraints (outcome_constraints : list OutcomeConstraint.t)
    : method t unit :=
  obj ← m_read objective;
  rm ← m_read risk_measure;
  m_call (_validate_transformed_optimization_config obj (Some outcome_constraints) None rm);;
  m_assign (fun self => {| _objective := _objective self;
                           _outcome_constraints := outcome_constraints;
                           _objective_thresholds := _objective_thresholds self;
                           risk_measure := risk_measure self |}).

Definition set_objective_thresholds (objective_thresholds : list ObjectiveThreshold.t)
    : method t unit :=
  obj ← m_read objective;
  rm ← m_read risk_measure;
  m_call (_validate_transformed_optimization_config obj None (Some objective_thresholds) rm);;
  m_assign (fun self => {| _objective := _objective self;
                           _outcome_constraints := _outcome_constraints self;
                           _objective_thresholds := objective_thresholds;
                           risk_measure := risk_measure self |}).

End MultiObjectiveOptimizationConfig.

(** ** [parameter_constraint.py] *)

Module AxParameter.
(** Modelled from the spec: [ax.core.parameter] is not among the sources. A
    parameter has a "name (unique string), domain kind (range/choice/fixed)"
    and, for a range, "lower/upper bounds, log-scale flag". *)
Inductive t :=
| RangeParameter (name : string) (lower upper : float) (log_scale : bool)
| ChoiceParameter (name : string)
| FixedParameter (name : string).

Definition name (p : t) : string :=
  match p with
  | RangeParameter n _ _ _ | ChoiceParameter n | FixedParameter n => n
  end.

Definition clone (p : t) : t := p.
End AxParameter.

Definition validate_constraint_parameters (parameters : list AxParameter.t) : result unit :=
  let unique_parameter_names : gset string := list_to_set (map AxParameter.name parameters) in
  (if bool_decide (size unique_parameter_names ≠ length parameters) then
     Raise (ValueError [Lit "Duplicate parameter in constraint."])
   else Ok tt);;
  for_each parameters (fun parameter =>
    match parameter with
    | AxParameter.RangeParameter _ _ _ log_scale =>
        if log_scale then
          Raise (ValueError [Lit "Parameter constraints not allowed on log scale parameters."])
        else Ok tt
    | _ =>
        Raise (ValueError
          [Lit "All parameters in a parameter constraint must be RangeParameters."])
    end).

(** What [ParameterConstraint.check] and [bound] read of [self]: the
    [constraint_dict] property (overridden in the subclasses) and [_bound]. *)
Class ParameterConstraintLike (C : Type) := {
  constraint_dict : C -> pydict float;
  _bound : C -> float
}.

(** A parameter value: [int | float]. *)
Inductive number :=
| PyInt (z : Z)
| PyFloat (x : float).

(** [float(z)] of an int: the binary64 number nearest to it, ties to even;
    [None] where that is beyond the largest binary64 number and Python
    raises. *)
Definition int_to_float (z : Z) : option float :=
  match SpecFloat.binary_normalize prec emax z 0 false with
  | S754_infinity _ => None
  | x => Some (SF2Prim x)
  end.

(** [float(v)]. *)
Definition py_float (v : number) : result float :=
  match v with
  | PyFloat x => Ok x
  | PyInt z =>
      match int_to_float z with
      | Some x => Ok x
      | None => Raise (OverflowError [Lit "int too large to convert to float"])
      end
  end.

(** The built-in [sum] is not of this repository: on the floats it is given,
    [check] takes it as the parameter [py_sum]. [sum_left_to_right] is the
    sum of the language reference, "Sums start and the items of an iterable
    from left to right", from the start value 0; an interpreter may add the
    floats with more care. *)
Definition sum_left_to_right (terms : list float) : float :=
  foldl (fun acc term => acc + term)%float 0%float terms.

(** The generator inside [sum(...)]:
    [float(parameter_dict[param]) * weight for param, weight in items]. *)
Definition weighted_terms (parameter_dict : gmap string number) (items : pydict float)
    : result (list float) :=
  for_map (fun item =>
             v ← getitem parameter_dict (fst item);
             x ← py_float v;
             Ok (x * snd item)%float) items.

(** [ParameterConstraint.check]. *)
Definition check {C : Type} `{ParameterConstraintLike C} (py_sum : list float -> float)
    (self : C) (parameter_dict : gmap string number) : result bool :=
  for_each (map fst (constraint_dict self)) (fun parameter_name =>
    if bool_decide (parameter_name ∉ dom parameter_dict) then
      Raise (ValueError [Lit "`"; Lit parameter_name; Lit "` not present in param_dict."])
    else Ok tt);;
  terms ← weighted_terms parameter_dict (constraint_dict self);
  let weighted_sum := py_sum terms in
  Ok (weighted_sum <=? _bound self + 1e-8)%float.

(** The [bound] property, inherited by every subclass. *)
Definition bound {C : Type} `{ParameterConstraintLike C} (self : C) : float := _bound self.

Module ParameterConstraint.
Record t := mk { _constraint_dict : pydict float; _bound : float }.

Definition __init__ (constraint_dict : pydict float) (bound : float) : t :=
  {| _constraint_dict := constraint_dict; _bound := bound |}.

Definition clone (self : t) : t :=
  __init__ (_constraint_dict self) (_bound self).
End ParameterConstraint.

#[export] Instance ParameterConstraint_like : ParameterConstraintLike ParameterConstraint.t :=
  {| constraint_dict := ParameterConstraint._constraint_dict;
     _bound := ParameterConstraint._bound |}.

Module OrderConstraint.
Record t := mk {
  _lower_parameter : AxParameter.t;
  _upper_parameter : AxParameter.t;
  _bound : float
}.

Definition __init__ (lower_parameter upper_parameter : AxParameter.t) : result t :=
  validate_constraint_parameters [lower_parameter; upper_parameter];;
  Ok {| _lower_parameter := lower_parameter;
        _upper_parameter := upper_parameter;
        _bound := 0.0%float |}.

Definition lower_parameter (self : t) : AxParameter.t := _lower_parameter self.
Definition upper_parameter (self : t) : AxParameter.t := _upper_parameter self.

(** [{self.lower_parameter.name: 1.0, self.upper_parameter.name: -1.0}]. *)
Definition constraint_dict (self : t) : pydict float :=
  dict_set (AxParameter.name (upper_parameter self)) (-1.0)%float
    (dict_set (AxParameter.name (lower_parameter self)) 1.0%float []).

Definition clone (self : t) : result t :=
  __init__ (AxParameter.clone (lower_parameter self))
           (AxParameter.clone (_upper_parameter self)).
End OrderConstraint.

#[export] Instance OrderConstraint_like : ParameterConstraintLike OrderConstraint.t :=
  {| constraint_dict := OrderConstraint.constraint_dict;
     _bound := OrderConstraint._bound |}.

Module SumConstraint.
Record t := mk {
  _parameters : list AxParameter.t;
  _is_upper_bound : bool;
  _parameter_names : list string;
  _bound : float;
  _constraint_dict : pydict float
}.

(** The [_inequality_weight] property reads [self._is_upper_bound] only. *)
Definition inequality_weight_of (is_upper_bound : bool) : float :=
  if is_upper_bound then 1.0%float else (-1.0)%float.

Definition _inequality_weight (self : t) : float :=
  inequality_weight_of (_is_upper_bound self).

Definition __init__ (parameters : list AxParameter.t) (is_upper_bound : bool)
    (bound : float) : result t :=
  validate_constraint_parameters parameters;;
  let parameter_names := map AxParameter.name parameters in
  Ok {| _parameters := parameters;
        _is_upper_bound := is_upper_bound;
        _parameter_names := parameter_names;
        _bound := (inequality_weight_of is_upper_bound * bound)%float;
        _constraint_dict :=
          foldl (fun d name => dict_set name (inequality_weight_of is_upper_bound) d)
                [] parameter_names |}.

Definition constraint_dict (self : t) : pydict float := _constraint_dict self.

Definition op (self : t) : ComparisonOp :=
  if _is_upper_bound self then LEQ else GEQ.

Definition is_upper_bound (self : t) : bool := _is_upper_bound self.

Definition clone (self : t) : result t :=
  __init__ (map AxParameter.clone (_parameters self))
           (_is_upper_bound self)
           (_inequality_weight self * _bound self)%float.
End SumConstraint.

#[export] Instance SumConstraint_like : ParameterConstraintLike SumConstraint.t :=
  {| constraint_dict := SumConstraint.constraint_dict;
     _bound := SumConstraint._bound |}.

(** ** Quasi-random generation, resumed from a saved position *)

Module SobolGenerator.
Section Engine.

(** Modelled from the spec: [ax.generators.random.sobol] is not among the
    sources (only its test is), and the sequence itself is a "pluggable
    generator back-end": [sequence seed position] is the raw point of a
    seed's quasi-random sequence at a position. What the bounds and the fixed
    features make of a raw point, and which points a set of linear
    constraints admits, are parameters as well. *)
Context {point Bounds LinearConstraints FixedFeatures : Type} `{EqDecision point}.
Variable sequence : Z -> nat -> point.
Variable place : Bounds -> FixedFeatures -> point -> point.
Variable satisfies : LinearConstraints -> point -> bool.

(** Modelled from the spec: "explicit seed + position (offset) state passed
    into each generation call, never an ambient/global random source". The
    test builds generators with [seed], [init_position] and [deduplicate]. *)
Record t := mk { seed : Z; init_position : nat; deduplicate : bool }.

(** Modelled from the spec: [SobolGenerator(seed=..., init_position=...,
    deduplicate=...)], "a generator resumed from a saved position"; a fresh
    one starts at position 0. *)
Definition __init__ (seed : Z) (init_position : option nat) (deduplicate : bool) : t :=
  {| seed := seed; init_position := default 0 init_position; deduplicate := deduplicate |}.

(** [model_gen_options]: the test passes ["max_rs_draws"]. *)
Record options := mk_options { max_rs_draws : nat }.

(** Modelled from the spec: "rejection sampling" that, "running out of
    feasible points", "raises a distinguishable 'search space exhausted'
    condition rather than looping forever". Raw points are drawn one
    position after the other; a draw is kept when [feasible] admits it and,
    when deduplicating, it is not among the points that exist already (those
    handed in and those kept so far); at most [draws] raw points are drawn.
    The result is the kept points and the position after the last draw. *)
Fixpoint rejection_sample (seed : Z) (deduplicate : bool) (candidate : point -> point)
    (feasible : point -> bool) (draws position n : nat) (existing : list point)
    {struct draws} : result (list point * nat) :=
  match n with
  | 0 => Ok ([], position)
  | S n' =>
      match draws with
      | 0 => Raise SearchSpaceExhausted
      | S draws' =>
          let p := candidate (sequence seed position) in
          if feasible p && negb (deduplicate && bool_decide (p ∈ existing)) then
            kept ← rejection_sample seed deduplicate candidate feasible
                      draws' (S position) n' (existing ++ [p]);
            Ok (p :: fst kept, snd kept)
          else
            rejection_sample seed deduplicate candidate feasible
              draws' (S position) n existing
      end
  end.

(** Modelled from the spec: "gen(n, bounds, linear_constraints,
    fixed_features, rounding_func, generated_points, model_gen_options) ->
    (points, weights)"; the "generator may raise a search-space-exhausted
    condition". Every point has weight 1 (the test's [weights == 1.0]). The
    generator moves to the position after its last draw, "so that later
    re-instantiation from persisted state reproduces the same sequence of
    proposals"; a call that raises leaves it where it was. The optional
    fall-back to an exact polytope sampler is not modelled. *)
Definition gen (n : nat) (bounds : Bounds) (linear_constraints : LinearConstraints)
    (fixed_features : FixedFeatures) (rounding_func : point -> point)
    (generated_points : list point) (model_gen_options : options)
    : method t (list point * list float) :=
  fun self =>
    match rejection_sample (seed self) (deduplicate self)
            (fun raw => rounding_func (place bounds fixed_features raw))
            (satisfies linear_constraints)
            (max_rs_draws model_gen_options) (init_position self) n generated_points with
    | Ok kept =>
        (Ok (fst kept, repeat 1.0%float (length (fst kept))),
         {| seed := seed self; init_position := snd kept;
            deduplicate := deduplicate self |})
    | Raise e => (Raise e, self)
    end.

End Engine.
End SobolGenerator.

(** ** Properties of binary64 used below *)

(** A NaN is the one float that is not equal to itself. *)
Definition is_number (x : float) : bool := negb (PrimFloat.is_nan x).

(** ** Acceptance rules, in the words of the specification *)

(** The constraints of a list that are on one metric name, in their order. *)
Definition constraints_on (metric_name : string) (l : list OutcomeConstraint.t)
    : list OutcomeConstraint.t :=
  filter (fun c => get_metric_name c = metric_name) l.

(** "A group of exactly one constraint is always accepted; a group of exactly
    two constraints is accepted if and only if the two constraints have
    different operators and the GEQ constraint's bound is [below] the LEQ
    constraint's bound; a group of more than two constraints" is refused. *)
Definition group_accepted (below : float -> float -> Prop)
    (group : list OutcomeConstraint.t) : Prop :=
  match group with
  | [] | [_] => True
  | [c0; c1] =>
      OutcomeConstraint.op c0 <> OutcomeConstraint.op c1 /\
      forall lo hi, (lo = c0 /\ hi = c1) \/ (lo = c1 /\ hi = c0) ->
        OutcomeConstraint.op lo = GEQ -> OutcomeConstraint.op hi = LEQ ->
        below (OutcomeConstraint.bound lo) (OutcomeConstraint.bound hi)
  | _ => False
  end.

(** "Strictly less than", as the claim has it. *)
Definition strictly_below (lo hi : float) : Prop := (lo <? hi)%float = true.

(** What the code tests: [lower_bound >= upper_bound] is false. *)
Definition not_at_or_above (lo hi : float) : Prop := (hi <=? lo)%float = false.

(** No outcome constraint is on a metric that is also an objective metric. *)
Definition no_objective_metric (unconstrainable_metrics : list Metric.t)
    (l : list OutcomeConstraint.t) : Prop :=
  forall m c, m ∈ unconstrainable_metrics -> c ∈ l ->
    Metric.name m <> get_metric_name c.

(** The metric name a threshold is on. *)
Definition threshold_metric_name (t : ObjectiveThreshold.t) : string :=
  Metric.name (ObjectiveThreshold.metric t).

Definition objective_metric_name (o : Objective.single) : string :=
  Metric.name (Objective.metric o).

(** "Every threshold's metric is one of the objective's metrics, no two
    thresholds reference the same metric, and each threshold bounds from above
    (operator LEQ) exactly when the corresponding objective's minimize flag is
    true." The corresponding objective is the one [objectives_by_name] holds
    for the metric name. *)
Definition thresholds_accepted (objectives : list Objective.single)
    (thresholds : list ObjectiveThreshold.t) : Prop :=
  (forall t, t ∈ thresholds ->
     threshold_metric_name t ∈ map objective_metric_name objectives) /\
  NoDup (map threshold_metric_name thresholds) /\
  (forall t o, t ∈ thresholds ->
     objectives_by_name objectives !! threshold_metric_name t = Some o ->
     (ObjectiveThreshold.op t = LEQ <-> Objective.minimize o = true)).

(** The order [sorted] arranges by: the keys in code-point order. *)
Definition key_le {A : Type} (key : A -> string) (a b : A) : Prop :=
  String.leb (key a) (key b) = true.

(** The full validation of a stored state, as the constructors run it. *)
Definition config_validation (self : OptimizationConfig.t) : result unit :=
  OptimizationConfig._validate_transformed_optimization_config
    (OptimizationConfig._objective self)
    (Some (OptimizationConfig._outcome_constraints self))
    (OptimizationConfig.risk_measure self).

Definition moo_validation (self : MultiObjectiveOptimizationConfig.t) : result unit :=
  MultiObjectiveOptimizationConfig._validate_transformed_optimization_config
    (MultiObjectiveOptimizationConfig._objective self)
    (Some (MultiObjectiveOptimizationConfig._outcome_constraints self))
    (Some (MultiObjectiveOptimizationConfig._objective_thresholds self))
    (MultiObjectiveOptimizationConfig.risk_measure self).

(** An atomic update: if the validation passes the object becomes [updated],
    if it raises the error is passed on and the object stays [self]. *)
Definition validated_update {S : Type} (validation : result unit) (self updated : S)
    : result unit * S :=
  match validation with
  | Ok _ => (Ok tt, updated)
  | Raise e => (Raise e, self)
  end.

(** A constructor: the new object if it validates, the error otherwise. *)
Definition validated_new {S : Type} (validation : S -> result unit) (new : S) : result S :=
  match validation new with
  | Ok _ => Ok new
  | Raise e => Raise e
  end.

Definition config_valid (self : OptimizationConfig.t) : Prop :=
  config_validation self = Ok tt.

Definition moo_valid (self : MultiObjectiveOptimizationConfig.t) : Prop :=
  moo_validation self = Ok tt.

(** The objects a setter would leave on success. *)
Definition with_objective (objective : Objective.t) (self : OptimizationConfig.t)
    : OptimizationConfig.t :=
  {| OptimizationConfig._objective := objective;
     OptimizationConfig._outcome_constraints := OptimizationConfig._outcome_constraints self;
     OptimizationConfig.risk_measure := OptimizationConfig.risk_measure self |}.

Definition with_outcome_constraints (l : list Constraint) (self : OptimizationConfig.t)
    : OptimizationConfig.t :=
  {| OptimizationConfig._objective := OptimizationConfig._objective self;
     OptimizationConfig._outcome_constraints := l;
     OptimizationConfig.risk_measure := OptimizationConfig.risk_measure self |}.

Definition moo_with_objective (objective : Objective.t)
    (self : MultiObjectiveOptimizationConfig.t) : MultiObjectiveOptimizationConfig.t :=
  {| MultiObjectiveOptimizationConfig._objective := objective;
     MultiObjectiveOptimizationConfig._outcome_constraints :=
       MultiObjectiveOptimizationConfig._outcome_constraints self;
     MultiObjectiveOptimizationConfig._objective_thresholds :=
       MultiObjectiveOptimizationConfig._objective_thresholds self;
     MultiObjectiveOptimizationConfig.risk_measure :=
       MultiObjectiveOptimizationConfig.risk_measure self |}.

Definition moo_with_outcome_constraints (l : list OutcomeConstraint.t)
    (self : MultiObjectiveOptimizationConfig.t) : MultiObjectiveOptimizationConfig.t :=
  {| MultiObjectiveOptimizationConfig._objective :=
       MultiObjectiveOptimizationConfig._objective self;
     MultiObjectiveOptimizationConfig._outcome_constraints := l;
     MultiObjectiveOptimizationConfig._objective_thresholds :=
       MultiObjectiveOptimizationConfig._objective_thresholds self;
     MultiObjectiveOptimizationConfig.risk_measure :=
       MultiObjectiveOptimizationConfig.risk_measure self |}.

Definition moo_with_objective_thresholds (thresholds : list ObjectiveThreshold.t)
    (self : MultiObjectiveOptimizationConfig.t) : MultiObjectiveOptimizationConfig.t :=
  {| MultiObjectiveOptimizationConfig._objective :=
       MultiObjectiveOptimizationConfig._objective self;
     MultiObjectiveOptimizationConfig._outcome_constraints :=
       MultiObjectiveOptimizationConfig._outcome_constraints self;
     MultiObjectiveOptimizationConfig._objective_thresholds := thresholds;
     MultiObjectiveOptimizationConfig.risk_measure :=
       MultiObjectiveOptimizationConfig.risk_measure self |}.

(** A parameter a linear constraint may mention: a range that is not on a
    log scale. *)
Definition linear_parameter (p : AxParameter.t) : Prop :=
  match p with
  | AxParameter.RangeParameter _ _ _ log_scale => log_scale = false
  | _ => False
  end.

(** ** Data of the specification's scenarios *)

(** "x1 range [0.1,0.2], x2 range [1,2]". *)
Definition x1 : AxParameter.t := AxParameter.RangeParameter "x1" 0.1 0.2 false.
Definition x2 : AxParameter.t := AxParameter.RangeParameter "x2" 1.0 2.0 false.

(** [SumConstraint([x1, x2], is_upper_bound=False, bound=5.0)] as stored. *)
Definition sum_at_least_5 : SumConstraint.t :=
  {| SumConstraint._parameters := [x1; x2];
     SumConstraint._is_upper_bound := false;
     SumConstraint._parameter_names := ["x1"; "x2"];
     SumConstraint._bound := (-5.0)%float;
     SumConstraint._constraint_dict := [("x1", (-1.0)%float); ("x2", (-1.0)%float)] |}.

(** [OrderConstraint(lower_parameter=x1, upper_parameter=x2)] as stored. *)
Definition x1_below_x2 : OrderConstraint.t :=
  {| OrderConstraint._lower_parameter := x1;
     OrderConstraint._upper_parameter := x2;
     OrderConstraint._bound := 0.0%float |}.

(** What [check] finds when every name of [items] is supplied with a value
    that [float(...)] converts: the terms [float(value) * weight], in the
    order of [items]. *)
Definition terms_supplied (parameter_dict : gmap string number) (items : pydict float)
    (terms : list float) : Prop :=
  Forall2 (fun item term =>
             exists v x, parameter_dict !! fst item = Some v /\ py_float v = Ok x /\
                         term = (x * snd item)%float) items terms.

(** The values of the scenario, and an int that no binary64 number holds. *)
Definition passing_values : gmap string number :=
  {[ "x1" := PyFloat 0.15; "x2" := PyFloat 1.5 ]}.
Definition failing_values : gmap string number :=
  {[ "x1" := PyFloat 1.9; "x2" := PyFloat 1.5 ]}.
Definition beyond_binary64 : gmap string number :=
  {[ "x1" := PyInt 0; "x2" := PyInt (2 ^ 1024) ]}.

Definition foo : Metric.t := Metric.mk "foo" None.
Definition bar : Metric.t := Metric.mk "bar" None.

(** "Single-objective config with objective metric foo (minimize)". *)
Definition minimize_foo : Objective.t :=
  Objective.Objective (Objective.mk foo true).

Definition foo_at_most_1 : OutcomeConstraint.t :=
  OutcomeConstraint.mk foo LEQ 1.0%float false.

(** Two constraints on one metric, the lower one with a NaN bound. *)
Definition nan_band : list OutcomeConstraint.t :=
  [OutcomeConstraint.mk bar GEQ PrimFloat.nan false;
   OutcomeConstraint.mk bar LEQ 1.0%float false].

(** The messages of the plain configuration's first two checks. *)
Definition multi_objective_refused : exn :=
  ValueError
    [Lit ("OptimizationConfig does not support MultiObjective. " ++
          "Use MultiObjectiveOptimizationConfig instead.")%string].

Definition objective_metric_refused : exn :=
  ValueError [Lit "Cannot constrain on objective metric."].

(** Some outcome constraint is on the metric name of an objective metric. *)
Definition on_objective_metric (unconstrainable_metrics : list Metric.t)
    (l : list OutcomeConstraint.t) : Prop :=
  exists m c, m ∈ unconstrainable_metrics /\ c ∈ l /\
    Metric.name m = get_metric_name c.

Definition minimize_bar : Objective.single := Objective.mk bar true.

(** A [MultiObjective] over foo and bar, both minimized. *)
Definition minimize_foo_and_bar : Objective.t :=
  Objective.MultiObjective [Objective.mk foo true; minimize_bar].

Definition not_multi_objective : exn :=
  TypeError
    [Lit ("`MultiObjectiveOptimizationConfig` requires an objective " ++
          "of type `MultiObjective` or `ScalarizedObjective`. " ++
          "Use `OptimizationConfig` instead if using a " ++
          "single-metric objective.")%string].

(** A scalarized constraint over foo and bar. *)
Definition foo_plus_bar_at_most_1 : ScalarizedOutcomeConstraint.t :=
  ScalarizedOutcomeConstraint.mk [foo; bar] [1.0%float; 1.0%float] LEQ 1.0%float false.

Definition foo_at_most_2 : ObjectiveThreshold.t :=
  ObjectiveThreshold.mk foo 2.0%float LEQ false.

Definition bar_at_most_3 : ObjectiveThreshold.t :=
  ObjectiveThreshold.mk bar 3.0%float LEQ false.

(** [MultiObjectiveOptimizationConfig(minimize foo and bar,
    objective_thresholds=[foo <= 2])] as stored. *)
Definition two_objectives : MultiObjectiveOptimizationConfig.t :=
  {| MultiObjectiveOptimizationConfig._objective := minimize_foo_and_bar;
     MultiObjectiveOptimizationConfig._outcome_constraints := [];
     MultiObjectiveOptimizationConfig._objective_thresholds := [foo_at_most_2];
     MultiObjectiveOptimizationConfig.risk_measure := None |}.

(** Stand-ins for concrete runs: the raw point at a position is the pair of
    the seed and the position; rounding halves the second component, so that
    one raw point in two repeats the point before it; the constraint admits
    the points whose second component is not 1. *)
Definition counting_sequence (seed : Z) (position : nat) : Z * nat := (seed, position).
Definition halving (p : Z * nat) : Z * nat := (fst p, Nat.div2 (snd p)).
Definition as_drawn (bounds fixed_features : unit) (p : Z * nat) : Z * nat := p.
Definition not_one (linear_constraints : unit) (p : Z * nat) : bool :=
  negb (Nat.eqb (snd p) 1).

(** ** More of [parameter_constraint.py] *)

(** [OrderConstraint.clone_with_transformed_parameters]. *)
Definition OrderConstraint_clone_with_transformed_parameters (self : OrderConstraint.t)
    (transformed_parameters : gmap string AxParameter.t) : result OrderConstraint.t :=
  lower_parameter ←
    getitem transformed_parameters (AxParameter.name (OrderConstraint.lower_parameter self));
  upper_parameter ←
    getitem transformed_parameters (AxParameter.name (OrderConstraint._upper_parameter self));
  OrderConstraint.__init__ lower_parameter upper_parameter.

(** [SumConstraint.clone_with_transformed_parameters]. *)
Definition SumConstraint_clone_with_transformed_parameters (self : SumConstraint.t)
    (transformed_parameters : gmap string AxParameter.t) : result SumConstraint.t :=
  parameters ←
    for_map (fun p => getitem transformed_parameters (AxParameter.name p))
            (SumConstraint._parameters self);
  SumConstraint.__init__ parameters (SumConstraint._is_upper_bound self)
    (SumConstraint._inequality_weight self * SumConstraint._bound self)%float.

(** [SumConstraint.__repr__]: the pieces of
    ["SumConstraint(" + " + ".join(names) + " {} {})".format(symbol, number)]. *)
Definition SumConstraint_repr (self : SumConstraint.t) : message :=
  let symbol := if bool_decide (SumConstraint.op self = GEQ) then ">=" else "<=" in
  [Lit "SumConstraint(";
   Lit (String.concat " + " (SumConstraint._parameter_names self));
   Lit " "; Lit symbol; Lit " ";
   Num (if bool_decide (SumConstraint.op self = LEQ) then SumConstraint._bound self
        else - SumConstraint._bound self)%float;
   Lit ")"].

(** ** Decoding a stored parameter constraint

    [Decoder.parameter_constraint_from_sqa] of [storage/sqa_store/decoder.py].
    Of the stored row the decoder reads four attributes; of its type it asks
    only whether it is ORDER, SUM or anything else. *)

Module ParameterConstraintType.
Inductive t := ORDER | SUM | OTHER.
End ParameterConstraintType.

Module SQAParameterConstraint.
Record t := mk {
  type : ParameterConstraintType.t;
  constraint_dict : pydict float;
  bound : float;
  id : Z
}.
End SQAParameterConstraint.

(** What the decoder can raise: its own [SQADecodeError], the [StopIteration]
    of [next] on an exhausted generator, and whatever a lookup or a
    constructor raises. *)
Inductive decode_exn :=
| SQADecodeError (msg : message)
| StopIteration
| Raised (e : exn).

Inductive decoding (A : Type) :=
| Decoded (a : A)
| DecodeRaise (e : decode_exn).
Arguments Decoded {A} a.
Arguments DecodeRaise {A} e.

#[export] Instance decoding_ret : MRet decoding := fun A a => Decoded a.
#[export] Instance decoding_bind : MBind decoding := fun A B k m =>
  match m with
  | Decoded a => k a
  | DecodeRaise e => DecodeRaise e
  end.

Definition raised {A : Type} (r : result A) : decoding A :=
  match r with
  | Ok a => Decoded a
  | Raise e => DecodeRaise (Raised e)
  end.

Fixpoint decode_map {A B : Type} (f : A -> decoding B) (xs : list A) : decoding (list B) :=
  match xs with
  | [] => Decoded []
  | x :: xs' => y ← f x; ys ← decode_map f xs'; Decoded (y :: ys)
  end.

(** The decoder returns an instance of one of the three constraint classes. *)
Inductive DecodedConstraint :=
| AnOrderConstraint (c : OrderConstraint.t)
| ASumConstraint (c : SumConstraint.t)
| AParameterConstraint (c : ParameterConstraint.t).

(** [{p.name: p for p in parameters}]. *)
Definition parameter_map (parameters : list AxParameter.t) : gmap string AxParameter.t :=
  foldl (fun d p => <[ AxParameter.name p := p ]> d) ∅ parameters.

(** The loop of the ORDER branch: the last key of weight 1 and the last key
    of weight -1, [None] where there is none. *)
Definition order_names (constraint_dict : pydict float) : option string * option string :=
  foldl (fun names kv =>
           if (snd kv =? 1)%float then (Some (fst kv), snd names)
           else if (snd kv =? -1)%float then (fst names, Some (fst kv))
           else names)
        (None, None) constraint_dict.

(** [not name] for a name that is [None] or a string. *)
Definition not_name (name : option string) : bool :=
  match name with
  | None => true
  | Some s => bool_decide (s = "")
  end.

(** [next(p for p in parameters if p.name == c_p_name)]. *)
Definition next_named (parameters : list AxParameter.t) (c_p_name : string)
    : decoding AxParameter.t :=
  match List.find (fun p => bool_decide (AxParameter.name p = c_p_name)) parameters with
  | Some p => Decoded p
  | None => DecodeRaise StopIteration
  end.

(** The constraint and the [db_id] set on it. The stored weights and bound
    are floats, so [float(...)] leaves them as they are; past the test of
    [lower_name] and [upper_name] both are strings. *)
Definition parameter_constraint_from_sqa
    (parameter_constraint_sqa : SQAParameterConstraint.t)
    (parameters : list AxParameter.t) : decoding (DecodedConstraint * Z) :=
  let parameter_map := parameter_map parameters in
  constraint ←
    match SQAParameterConstraint.type parameter_constraint_sqa with
    | ParameterConstraintType.ORDER =>
        let names :=
          order_names (SQAParameterConstraint.constraint_dict parameter_constraint_sqa) in
        let lower_name := fst names in
        let upper_name := snd names in
        if not_name lower_name || not_name upper_name then
          DecodeRaise (SQADecodeError
            [Lit "Cannot decode SQAParameterConstraint because `lower_name` or ";
             Lit "`upper_name` was not found."])
        else
          lower_parameter ← raised (getitem parameter_map (default "" lower_name));
          upper_parameter ← raised (getitem parameter_map (default "" upper_name));
          c ← raised (OrderConstraint.__init__ lower_parameter upper_parameter);
          Decoded (AnOrderConstraint c)
    | ParameterConstraintType.SUM =>
        let parameter_names :=
          map fst (SQAParameterConstraint.constraint_dict parameter_constraint_sqa) in
        constraint_parameters ← decode_map (next_named parameters) parameter_names;
        let a_values :=
          map snd (SQAParameterConstraint.constraint_dict parameter_constraint_sqa) in
        match a_values with
        | [] =>
            DecodeRaise (SQADecodeError
              [Lit "Cannot decode SQAParameterConstraint because `constraint_dict` ";
               Lit "is empty."])
        | a :: _ =>
            let is_upper_bound := (a =? 1)%float in
            let bound := (SQAParameterConstraint.bound parameter_constraint_sqa * a)%float in
            c ← raised (SumConstraint.__init__ constraint_parameters is_upper_bound bound);
            Decoded (ASumConstraint c)
        end
    | ParameterConstraintType.OTHER =>
        Decoded (AParameterConstraint
          (ParameterConstraint.__init__
             (SQAParameterConstraint.constraint_dict parameter_constraint_sqa)
             (SQAParameterConstraint.bound parameter_constraint_sqa)))
    end;
  Decoded (constraint, SQAParameterConstraint.id parameter_constraint_sqa).

(** Rows that carry a constraint's own linear form and stored bound, under
    the type tag of its class. *)
Definition sum_constraint_row (c : SumConstraint.t) (db_id : Z) : SQAParameterConstraint.t :=
  {| SQAParameterConstraint.type := ParameterConstraintType.SUM;
     SQAParameterConstraint.constraint_dict := SumConstraint.constraint_dict c;
     SQAParameterConstraint.bound := SumConstraint._bound c;
     SQAParameterConstraint.id := db_id |}.

Definition order_constraint_row (c : OrderConstraint.t) (db_id : Z)
    : SQAParameterConstraint.t :=
  {| SQAParameterConstraint.type := ParameterConstraintType.ORDER;
     SQAParameterConstraint.constraint_dict := OrderConstraint.constraint_dict c;
     SQAParameterConstraint.bound := OrderConstraint._bound c;
     SQAParameterConstraint.id := db_id |}.

(** ** Views of a configuration, and the preference configuration *)

(** [OptimizationConfig.all_constraints]. *)
Definition OptimizationConfig_all_constraints (self : OptimizationConfig.t)
    : list Constraint :=
  OptimizationConfig.outcome_constraints self.

(** [{metric.name: metric for metric in ...}] as a map that is only looked
    up: a later metric replaces an earlier one of the same name. *)
Definition metrics_by_name (metrics : list Metric.t) : gmap string Metric.t :=
  foldl (fun d metric => <[ Metric.name metric := metric ]> d) ∅ metrics.

(** The metrics the nested comprehension of [metrics] runs over: those of
    every [ScalarizedOutcomeConstraint], in order. *)
Definition scalarized_metrics (all_constraints : list Constraint) : list Metric.t :=
  flat_map (fun oc => match oc with
                      | Scalarized c => ScalarizedOutcomeConstraint.metrics c
                      | Plain _ => []
                      end) all_constraints.

(** [OptimizationConfig.metrics]; in [{**a, **b, **c}] the later operand
    wins on a shared key, as the left operand of [∪] does. *)
Definition OptimizationConfig_metrics (self : OptimizationConfig.t) : gmap string Metric.t :=
  let all_constraints := OptimizationConfig_all_constraints self in
  let constraint_metrics :=
    metrics_by_name
      (map OutcomeConstraint.metric (OptimizationConfig.not_scalarized all_constraints)) in
  let scalarized_constraint_metrics :=
    metrics_by_name (scalarized_metrics all_constraints) in
  let objective_metrics :=
    metrics_by_name (Objective.metrics (OptimizationConfig.objective self)) in
  objective_metrics ∪ (scalarized_constraint_metrics ∪ constraint_metrics).

(** [is_moo_problem]: the objective of a configuration is never [None]. *)
Definition is_moo_problem (objective : Objective.t) : bool :=
  match objective with Objective.MultiObjective _ => true | _ => false end.

Definition OptimizationConfig_is_moo_problem (self : OptimizationConfig.t) : bool :=
  is_moo_problem (OptimizationConfig.objective self).

Definition MultiObjectiveOptimizationConfig_is_moo_problem
    (self : MultiObjectiveOptimizationConfig.t) : bool :=
  is_moo_problem (MultiObjectiveOptimizationConfig.objective self).

(** [MultiObjectiveOptimizationConfig.objective_thresholds_dict]. *)
Definition objective_thresholds_dict (self : MultiObjectiveOptimizationConfig.t)
    : pydict ObjectiveThreshold.t :=
  foldl (fun d ot => dict_set (Metric.name (ObjectiveThreshold.metric ot)) ot d) []
        (MultiObjectiveOptimizationConfig._objective_thresholds self).

Module PreferenceOptimizationConfig.

Record t := mk {
  base : MultiObjectiveOptimizationConfig.t;
  preference_profile_name : string
}.

(** The constructor raises its own [NotImplementedError] or what the parent's
    constructor raises. *)
Inductive init_exn :=
| NotImplementedError (msg : message)
| Inherited (e : exn).

Inductive init_result :=
| Built (self : t)
| InitRaise (e : init_exn).

Definition __init__ (objective : Objective.t) (preference_profile_name : string)
    (outcome_constraints : option (list OutcomeConstraint.t)) : init_result :=
  match outcome_constraints with
  | Some (_ :: _) =>
      InitRaise (NotImplementedError
        [Lit ("Outcome constraints are not yet supported in " ++
              "PreferenceOptimizationConfig")%string])
  | _ =>
      match MultiObjectiveOptimizationConfig.__init__
              objective outcome_constraints None None with
      | Ok parent =>
          Built {| base := parent; preference_profile_name := preference_profile_name |}
      | Raise e => InitRaise (Inherited e)
      end
  end.

End PreferenceOptimizationConfig.

(** A scalarized objective over foo and bar, and a configuration on it. *)
Definition foo_plus_bar : Objective.t :=
  Objective.ScalarizedObjective [foo; bar] [1.0%float; 1.0%float] true.

Definition scalarized_config : MultiObjectiveOptimizationConfig.t :=
  {| MultiObjectiveOptimizationConfig._objective := foo_plus_bar;
     MultiObjectiveOptimizationConfig._outcome_constraints := [];
     MultiObjectiveOptimizationConfig._objective_thresholds := [];
     MultiObjectiveOptimizationConfig.risk_measure := None |}.

(** A minimized foo with one constraint on bar. *)
Definition foo_with_bar_constrained : OptimizationConfig.t :=
  {| OptimizationConfig._objective := minimize_foo;
     OptimizationConfig._outcome_constraints :=
       [Plain (OutcomeConstraint.mk bar LEQ 1.0%float false)];
     OptimizationConfig.risk_measure := None |}.

(** x1 and x2 after a transform that rescales both to the unit interval. *)
Definition x1_unit : AxParameter.t := AxParameter.RangeParameter "x1" 0.0 1.0 false.
Definition x2_unit : AxParameter.t := AxParameter.RangeParameter "x2" 0.0 1.0 false.

(** * Binary64: products by a unit, and the order of numbers *)

Section Binary64.
Local Open Scope Z_scope.

(** Halving an exact multiple of [2^k] [k] times leaves no rounding bits. *)
Lemma shr_doubled (k p : positive) :
  SpecFloat.iter_pos shr_1 k
    {| shr_m := Zpos (Pos.iter xO p k); shr_r := false; shr_s := false |}
  = {| shr_m := Zpos p; shr_r := false; shr_s := false |}.
Proof.
  revert p; induction k as [k IH|k IH|]; intros p;
    cbn [SpecFloat.iter_pos Pos.iter shr_1 orb].
  - now rewrite !IH.
  - now rewrite !IH.
  - reflexivity.
Qed.

Lemma digits2_doubled (k p : positive) :
  Zpos (digits2_pos (Pos.iter xO p k)) = Zpos (digits2_pos p) + Zpos k.
Proof.
  induction k as [|k IH] using Pos.peano_ind.
  - cbn. lia.
  - rewrite Pos.iter_succ. cbn [digits2_pos]. lia.
Qed.

(** The product of [+-1] (mantissa [2^52], exponent [-52]) and a valid finite
    number is that number, with the signs combined: nothing is rounded. *)
Lemma SF64mul_unit (s s' : bool) (m : positive) (e : Z) :
  bounded prec emax m e = true ->
  SF64mul (S754_finite s 4503599627370496 (-52)) (S754_finite s' m e)
  = S754_finite (xorb s s') m e.
Proof.
  intros Hb. apply andb_true_iff in Hb as [Hc He].
  unfold canonical_mantissa in Hc. apply Z.eqb_eq in Hc.
  unfold SF64mul, SFmul, binary_round_aux.
  change (4503599627370496 * m)%positive with (Pos.iter xO m 52).
  unfold shr_fexp at 1. unfold Zdigits2. rewrite digits2_doubled.
  replace (Z.pos (digits2_pos m) + 52 + (-52 + e)) with (Z.pos (digits2_pos m) + e) by lia.
  rewrite Hc. replace (e - (-52 + e)) with 52 by lia.
  cbn [shr shr_record_of_loc]. rewrite shr_doubled.
  cbn [shr_m loc_of_shr_record round_nearest_even].
  unfold shr_fexp, Zdigits2.
  replace (-52 + e + 52) with e by lia.
  rewrite Hc, Z.sub_diag. cbn [shr shr_record_of_loc shr_m].
  now rewrite He.
Qed.

Lemma mul_unit_spec (w x : float) (s : bool) :
  Prim2SF w = S754_finite s 4503599627370496 (-52) ->
  Prim2SF (w * x)%float = if s then SFopp (Prim2SF x) else Prim2SF x.
Proof.
  intros Hw. rewrite mul_spec, Hw.
  pose proof (Prim2SF_valid x) as Hv.
  destruct (Prim2SF x) as [s'|s'| |s' m e].
  - now destruct s, s'.
  - now destruct s, s'.
  - now destruct s.
  - rewrite SF64mul_unit by exact Hv. now destruct s.
Qed.

Lemma float_mul_1_l (x : float) : (1.0 * x)%float = x.
Proof. apply Prim2SF_inj. now rewrite (mul_unit_spec _ x false). Qed.

Lemma float_mul_m1_l (x : float) : ((-1.0) * x)%float = (- x)%float.
Proof.
  apply Prim2SF_inj. rewrite opp_spec. now rewrite (mul_unit_spec _ x true).
Qed.

Lemma float_opp_involutive (x : float) : (- - x)%float = x.
Proof.
  apply Prim2SF_inj. rewrite !opp_spec.
  now destruct (Prim2SF x) as [[]|[]| |[] ? ?].
Qed.

(** Comparing in the other direction gives the opposite answer; a NaN
    compares with nothing. *)
Lemma SFcompare_swap (x y : spec_float) :
  SFcompare y x = option_map CompOpp (SFcompare x y).
Proof.
  destruct x as [sx|sx| |sx mx ex], y as [sy|sy| |sy my ey]; cbn;
    try reflexivity; try (now destruct sx); try (now destruct sy);
    try (now destruct sx, sy).
  destruct sx, sy; cbn; try reflexivity;
    rewrite (Z.compare_antisym ey ex); destruct (ey ?= ex); cbn; try reflexivity;
    rewrite (ZC4 my mx); now destruct (Pos.compare_cont Eq mx my).
Qed.

Lemma SFcompare_refl (x : spec_float) :
  x <> S754_nan -> SFcompare x x = Some Eq.
Proof.
  destruct x as [sx|sx| |sx mx ex]; cbn; try easy.
  - now destruct sx.
  - intros _. destruct sx; rewrite Z.compare_refl, Pos.compare_cont_refl; reflexivity.
Qed.

Lemma is_number_spec (x : float) :
  is_number x = true <-> Prim2SF x <> S754_nan.
Proof.
  unfold is_number, PrimFloat.is_nan.
  rewrite negb_involutive, FloatAxioms.eqb_spec. unfold SFeqb.
  split.
  - intros H Hn. now rewrite Hn in H.
  - intros H. now rewrite SFcompare_refl.
Qed.

(** For numbers, "not [lo >= hi]" is "[lo < hi]". *)
Lemma not_geb_ltb (lo hi : float) :
  is_number lo = true -> is_number hi = true ->
  (hi <=? lo)%float = negb (lo <? hi)%float.
Proof.
  rewrite !is_number_spec, FloatAxioms.leb_spec, FloatAxioms.ltb_spec.
  unfold SFleb, SFltb.
  intros Hlo Hhi. rewrite (SFcompare_swap (Prim2SF lo) (Prim2SF hi)).
  destruct (SFcompare (Prim2SF lo) (Prim2SF hi)) as [[]|] eqn:E; try reflexivity.
  now destruct (Prim2SF lo) as [s|s| |s m e], (Prim2SF hi) as [s'|s'| |s' m' e'].
Qed.

End Binary64.

(** * Loops that may raise *)

Lemma elem_of_map {A B : Type} (f : A -> B) (l : list A) (y : B) :
  y ∈ map f l <-> exists x, y = f x /\ x ∈ l.
Proof.
  rewrite list_elem_of_In, in_map_iff. split; intros (x & H1 & H2); exists x.
  - now rewrite list_elem_of_In.
  - now rewrite <- list_elem_of_In.
Qed.

Lemma for_each_cons {A : Type} (x : A) (xs : list A) (body : A -> result unit) :
  for_each (x :: xs) body = (body x;; for_each xs body).
Proof. unfold for_each; cbn. now destruct (body x) as [[]|]. Qed.

Lemma for_map_Ok {A B : Type} (f : A -> result B) (xs : list A) (ys : list B) :
  for_map f xs = Ok ys <-> Forall2 (fun x y => f x = Ok y) xs ys.
Proof.
  revert ys; induction xs as [|x xs IH]; intros ys; cbn.
  - split; [intros [= <-]; constructor | intros H; now inversion H].
  - destruct (f x) as [y|e] eqn:Hx; cbn.
    + destruct (for_map f xs) as [ys'|e] eqn:Hxs; cbn.
      * split.
        -- intros [= <-]. constructor; [exact Hx | now apply IH].
        -- intros H. inversion H as [|? y0 ? ys0 Hy Hys]; subst.
           apply IH in Hys. congruence.
      * split; [discriminate|]. intros H. inversion H as [|? y0 ? ys0 Hy Hys]; subst.
        apply IH in Hys. discriminate.
    + split; [discriminate|]. intros H. inversion H; subst. congruence.
Qed.

Lemma for_map_Raise {A B : Type} (f : A -> result B) (xs : list A) (e : exn) :
  for_map f xs = Raise e -> exists x, x ∈ xs /\ f x = Raise e.
Proof.
  induction xs as [|x xs IH]; cbn; [discriminate|].
  destruct (f x) as [y|e0] eqn:Hx; cbn.
  - destruct (for_map f xs) as [ys|e1]; cbn; [discriminate|].
    intros [= <-]. destruct (IH eq_refl) as (x0 & Hin & Hx0).
    exists x0. split; [now right | exact Hx0].
  - intros [= <-]. exists x. split; [left | exact Hx].
Qed.

Lemma for_map_ext {A B : Type} (f g : A -> result B) (xs : list A) :
  (forall x, x ∈ xs -> f x = g x) -> for_map f xs = for_map g xs.
Proof.
  induction xs as [|x xs IH]; intros Heq; cbn; [reflexivity|].
  rewrite (Heq x) by left. rewrite IH; [reflexivity|].
  intros y Hy. apply Heq. now right.
Qed.

Lemma for_each_Ok {A : Type} (xs : list A) (body : A -> result unit) :
  for_each xs body = Ok tt <-> forall x, x ∈ xs -> body x = Ok tt.
Proof.
  induction xs as [|x xs IH].
  - split; [intros _ x Hx; inversion Hx | reflexivity].
  - rewrite for_each_cons. split.
    + intros H y Hy. destruct (body x) as [[]|e] eqn:Hx; cbn in H; [|discriminate].
      apply elem_of_cons in Hy as [->|Hy]; [exact Hx | now apply IH].
    + intros H. rewrite (H x) by left. cbn. apply IH. intros y Hy. apply H. now right.
Qed.

Lemma for_each_Raise {A : Type} (xs : list A) (body : A -> result unit) (e : exn) :
  for_each xs body = Raise e -> exists x, x ∈ xs /\ body x = Raise e.
Proof.
  induction xs as [|x xs IH]; [discriminate|].
  rewrite for_each_cons. destruct (body x) as [[]|e'] eqn:Hx; cbn.
  - intros H. destruct (IH H) as (y & Hy & He). exists y. split; [now right | exact He].
  - intros [= ->]. exists x. split; [left | exact Hx].
Qed.

Lemma for_each_outcome {A : Type} (xs : list A) (body : A -> result unit) :
  for_each xs body = Ok tt \/ exists e, for_each xs body = Raise e.
Proof. destruct (for_each xs body) as [[]|e]; [now left | right; now exists e]. Qed.

(** * Parameter constraints *)

Lemma size_list_to_set_le (l : list string) :
  size (list_to_set l : gset string) <= length l.
Proof.
  induction l as [|x l IH]; cbn; [now rewrite size_empty|].
  destruct (decide (x ∈ (list_to_set l : gset string))) as [Hin|Hout].
  - assert (({[x]} ∪ list_to_set l : gset string) = list_to_set l) as ->
      by now apply subseteq_union_1_L, singleton_subseteq_l.
    lia.
  - rewrite size_union by set_solver. rewrite size_singleton. lia.
Qed.

Lemma size_list_to_set_NoDup (l : list string) :
  size (list_to_set l : gset string) = length l <-> NoDup l.
Proof.
  split; [|apply size_list_to_set].
  induction l as [|x l IH]; cbn; [constructor|].
  intros H. destruct (decide (x ∈ (list_to_set l : gset string))) as [Hin|Hout].
  - assert (({[x]} ∪ list_to_set l : gset string) = list_to_set l) as Heq
      by now apply subseteq_union_1_L, singleton_subseteq_l.
    rewrite Heq in H. pose proof (size_list_to_set_le l). lia.
  - rewrite size_union, size_singleton in H by set_solver.
    constructor; [set_solver | apply IH; lia].
Qed.

Lemma validate_constraint_parameters_Ok (parameters : list AxParameter.t) :
  validate_constraint_parameters parameters = Ok tt <->
  NoDup (map AxParameter.name parameters) /\
  forall p, p ∈ parameters -> linear_parameter p.
Proof.
  unfold validate_constraint_parameters. case_bool_decide as Hsz; cbn.
  - split; [discriminate|]. intros [Hnd _]. exfalso. apply Hsz.
    rewrite (proj2 (size_list_to_set_NoDup _) Hnd). apply length_map.
  - assert (NoDup (map AxParameter.name parameters)) as Hnd.
    { apply size_list_to_set_NoDup. rewrite length_map.
      destruct (decide (size (list_to_set (map AxParameter.name parameters) : gset string)
                        = length parameters)); [assumption | contradiction]. }
    rewrite for_each_Ok. split.
    + intros H. split; [exact Hnd|]. intros p Hp. specialize (H p Hp).
      destruct p as [n lo hi []| |]; cbn in *; done.
    + intros [_ H] p Hp. specialize (H p Hp).
      destruct p as [n lo hi []| |]; cbn in *; done.
Qed.

Lemma dict_set_fresh {V : Type} (k : string) (v : V) (d : pydict V) :
  k ∉ map fst d -> dict_set k v d = d ++ [(k, v)].
Proof.
  induction d as [|[k' v'] d IH]; cbn; [reflexivity|].
  intros Hk. apply not_elem_of_cons in Hk as [Hne Hk].
  destruct (String.eqb_spec k' k) as [->|_]; [contradiction|]. now rewrite IH.
Qed.

Lemma dict_comprehension {V : Type} (w : V) (names : list string) (d : pydict V) :
  NoDup (map fst d ++ names) ->
  foldl (fun d name => dict_set name w d) d names = d ++ map (fun name => (name, w)) names.
Proof.
  revert d; induction names as [|n names IH]; intros d Hnd; cbn.
  - now rewrite app_nil_r.
  - rewrite dict_set_fresh.
    + rewrite IH.
      * now rewrite <- app_assoc.
      * rewrite map_app; cbn. now rewrite <- app_assoc.
    + apply NoDup_app in Hnd as (_ & Hd & _). intros Hin. apply (Hd n Hin). left.
Qed.

Lemma sum_constraint_init_Ok (parameters : list AxParameter.t) (is_upper_bound : bool)
    (bound : float) (c : SumConstraint.t) :
  SumConstraint.__init__ parameters is_upper_bound bound = Ok c <->
  validate_constraint_parameters parameters = Ok tt /\
  c = {| SumConstraint._parameters := parameters;
         SumConstraint._is_upper_bound := is_upper_bound;
         SumConstraint._parameter_names := map AxParameter.name parameters;
         SumConstraint._bound :=
           (SumConstraint.inequality_weight_of is_upper_bound * bound)%float;
         SumConstraint._constraint_dict :=
           map (fun name => (name, SumConstraint.inequality_weight_of is_upper_bound))
               (map AxParameter.name parameters) |}.
Proof.
  unfold SumConstraint.__init__.
  destruct (validate_constraint_parameters parameters) as [[]|e] eqn:Hv; cbn.
  - apply validate_constraint_parameters_Ok in Hv as [Hnd _].
    rewrite (dict_comprehension _ _ []) by exact Hnd. cbn.
    split; [intros [= <-]; now split | intros [_ ->]; reflexivity].
  - split; [discriminate | intros [[=] _]].
Qed.

Lemma inequality_weight_twice (is_upper_bound : bool) (x : float) :
  (SumConstraint.inequality_weight_of is_upper_bound *
   (SumConstraint.inequality_weight_of is_upper_bound * x))%float = x.
Proof.
  destruct is_upper_bound; cbn.
  - now rewrite !float_mul_1_l.
  - now rewrite !float_mul_m1_l, float_opp_involutive.
Qed.

Lemma map_clone (parameters : list AxParameter.t) :
  map AxParameter.clone parameters = parameters.
Proof. induction parameters as [|p l IH]; cbn; [reflexivity | now rewrite IH]. Qed.

Lemma sum_constraint_clone_same (parameters : list AxParameter.t) (is_upper_bound : bool)
    (bound : float) (c : SumConstraint.t) :
  SumConstraint.__init__ parameters is_upper_bound bound = Ok c ->
  SumConstraint.clone c = Ok c.
Proof.
  intros H. pose proof H as H'. apply sum_constraint_init_Ok in H' as [Hv ->].
  unfold SumConstraint.clone, SumConstraint._inequality_weight; cbn.
  rewrite map_clone, inequality_weight_twice. exact H.
Qed.

(** C7. Cloning a sum constraint built from any parameters, direction and
    bound succeeds and gives a sum constraint with the same stored bound and
    the same direction flag. *)
Theorem sum_constraint_clone_round_trip (parameters : list AxParameter.t)
    (is_upper_bound : bool) (bound : float) (c : SumConstraint.t) :
  SumConstraint.__init__ parameters is_upper_bound bound = Ok c ->
  exists c', SumConstraint.clone c = Ok c' /\
    SumConstraint._bound c' = SumConstraint._bound c /\
    SumConstraint.is_upper_bound c' = SumConstraint.is_upper_bound c /\
    SumConstraint.is_upper_bound c' = is_upper_bound.
Proof.
  intros H. exists c. rewrite (sum_constraint_clone_same _ _ _ _ H).
  apply sum_constraint_init_Ok in H as [_ ->]. now cbn.
Qed.

Lemma sum_constraint_clone_round_trip_witness :
  exists c', SumConstraint.clone sum_at_least_5 = Ok c' /\
    SumConstraint._bound c' = SumConstraint._bound sum_at_least_5 /\
    SumConstraint.is_upper_bound c' = SumConstraint.is_upper_bound sum_at_least_5 /\
    SumConstraint.is_upper_bound c' = false.
Proof.
  apply (sum_constraint_clone_round_trip [x1; x2] false 5.0%float sum_at_least_5).
  vm_compute. reflexivity.
Defined.

(** C8, as stated, fails on a lower bound: [SumConstraint([x1, x2],
    is_upper_bound=False, bound=5.0).bound] is [-5.0], not the [5.0] that was
    supplied. *)
Lemma sum_constraint_bound_counterexample :
  SumConstraint.__init__ [x1; x2] false 5.0%float = Ok sum_at_least_5 /\
  bound sum_at_least_5 = (-5.0)%float /\
  bound sum_at_least_5 <> 5.0%float.
Proof.
  split; [vm_compute; reflexivity|]. split; [reflexivity|].
  intros H. apply (f_equal Prim2SF) in H. vm_compute in H. discriminate.
Qed.

(** C8, amended. A sum constraint is stored in "<=" form: the sign is +1 for
    an upper bound and -1 for a lower bound, every weight is the sign, the
    stored bound is the sign times the supplied bound; [op] is LEQ for an upper
    bound and GEQ for a lower bound; [bound] returns the stored bound, which is
    the supplied bound for an upper bound and its negation for a lower bound,
    and the sign times it is the supplied bound again. *)
Theorem sum_constraint_stored_form (parameters : list AxParameter.t)
    (is_upper_bound : bool) (supplied : float) (c : SumConstraint.t) :
  SumConstraint.__init__ parameters is_upper_bound supplied = Ok c ->
  let sign := SumConstraint._inequality_weight c in
  sign = (if is_upper_bound then 1.0 else -1.0)%float /\
  constraint_dict c = map (fun p => (AxParameter.name p, sign)) parameters /\
  SumConstraint._bound c = (sign * supplied)%float /\
  SumConstraint.op c = (if is_upper_bound then LEQ else GEQ) /\
  bound c = (if is_upper_bound then supplied else - supplied)%float /\
  (sign * bound c)%float = supplied.
Proof.
  intros H. apply sum_constraint_init_Ok in H as [_ ->].
  unfold SumConstraint._inequality_weight, SumConstraint.op, bound; cbn.
  repeat split.
  - now rewrite map_map.
  - destruct is_upper_bound; cbn; [apply float_mul_1_l | apply float_mul_m1_l].
  - apply inequality_weight_twice.
Qed.

Lemma sum_constraint_stored_form_witness :
  let sign := SumConstraint._inequality_weight sum_at_least_5 in
  sign = (-1.0)%float /\
  constraint_dict sum_at_least_5 = map (fun p => (AxParameter.name p, sign)) [x1; x2] /\
  SumConstraint._bound sum_at_least_5 = (sign * 5.0)%float /\
  SumConstraint.op sum_at_least_5 = GEQ /\
  bound sum_at_least_5 = (- 5.0)%float /\
  (sign * bound sum_at_least_5)%float = 5.0%float.
Proof.
  apply (sum_constraint_stored_form [x1; x2] false 5.0%float sum_at_least_5).
  vm_compute. reflexivity.
Defined.

(** * [check] *)

Lemma weighted_term_Ok (parameter_dict : gmap string number) (item : string * float)
    (term : float) :
  (v ← getitem parameter_dict (fst item); x ← py_float v; Ok (x * snd item)%float)
  = Ok term <->
  exists v x, parameter_dict !! fst item = Some v /\ py_float v = Ok x /\
              term = (x * snd item)%float.
Proof.
  unfold getitem. destruct (parameter_dict !! fst item) as [v|]; cbn.
  - destruct (py_float v) as [x|e] eqn:Hx; cbn.
    + split; [intros [= <-]; now exists v, x|].
      intros (v' & x' & [= <-] & Hx' & ->). rewrite Hx in Hx'. now injection Hx' as <-.
    + split; [discriminate|].
      intros (v' & x' & [= <-] & Hx' & _). rewrite Hx in Hx'. discriminate.
  - split; [discriminate | now intros (v' & x' & [=] & _)].
Qed.

Lemma weighted_terms_Ok (parameter_dict : gmap string number) (items : pydict float)
    (terms : list float) :
  weighted_terms parameter_dict items = Ok terms <->
  terms_supplied parameter_dict items terms.
Proof.
  unfold weighted_terms, terms_supplied. rewrite for_map_Ok.
  split; intros Hall; (eapply Forall2_impl; [exact Hall|]); intros item term;
    apply weighted_term_Ok.
Qed.

Lemma names_loop_Ok (parameter_dict : gmap string number) (names : list string) :
  for_each names (fun parameter_name =>
    if bool_decide (parameter_name ∉ dom parameter_dict) then
      Raise (ValueError [Lit "`"; Lit parameter_name; Lit "` not present in param_dict."])
    else Ok tt) = Ok tt <->
  forall k, k ∈ names -> k ∈ dom parameter_dict.
Proof.
  rewrite for_each_Ok. split; intros Hall k Hk; specialize (Hall k Hk); cbn in *.
  - case_bool_decide as Hd; [discriminate|].
    destruct (decide (k ∈ dom parameter_dict)); [assumption | contradiction].
  - now rewrite bool_decide_eq_false_2 by (intros Hn; contradiction).
Qed.

Lemma terms_supplied_present (parameter_dict : gmap string number) (items : pydict float)
    (terms : list float) :
  terms_supplied parameter_dict items terms ->
  forall k, k ∈ map fst items -> k ∈ dom parameter_dict.
Proof.
  induction 1 as [|item term items terms (v & x & Hv & _) _ IH]; intros k Hk; cbn in Hk.
  - now apply elem_of_nil in Hk.
  - apply elem_of_cons in Hk as [->|Hk]; [|now apply IH].
    apply elem_of_dom. now exists v.
Qed.

Lemma check_supplied {C : Type} `{ParameterConstraintLike C}
    (py_sum : list float -> float) (self : C) (parameter_dict : gmap string number)
    (terms : list float) :
  terms_supplied parameter_dict (constraint_dict self) terms ->
  check py_sum self parameter_dict = Ok (py_sum terms <=? _bound self + 1e-8)%float.
Proof.
  intros Hterms. unfold check.
  rewrite (proj2 (names_loop_Ok _ _) (terms_supplied_present _ _ _ Hterms)).
  cbn. now rewrite (proj2 (weighted_terms_Ok _ _ _) Hterms).
Qed.

Lemma check_missing {C : Type} `{ParameterConstraintLike C}
    (py_sum : list float -> float) (self : C) (parameter_dict : gmap string number) :
  (exists k, k ∈ map fst (constraint_dict self) /\ k ∉ dom parameter_dict) ->
  exists k, k ∈ map fst (constraint_dict self) /\ (k ∉ dom parameter_dict) /\
    check py_sum self parameter_dict
    = Raise (ValueError [Lit "`"; Lit k; Lit "` not present in param_dict."]).
Proof.
  intros (k & Hk & Hmiss). unfold check.
  destruct (for_each_outcome (map fst (constraint_dict self)) (fun parameter_name =>
    if bool_decide (parameter_name ∉ dom parameter_dict) then
      Raise (ValueError [Lit "`"; Lit parameter_name; Lit "` not present in param_dict."])
    else Ok tt)) as [Hok|[e He]].
  - exfalso. pose proof (proj1 (for_each_Ok _ _) Hok k Hk) as Hb. cbn in Hb.
    now rewrite bool_decide_eq_true_2 in Hb.
  - destruct (for_each_Raise _ _ _ He) as (k' & Hk' & Hb). cbn in Hb.
    case_bool_decide as Hd; [|discriminate]. injection Hb as <-.
    exists k'. now rewrite He.
Qed.

Lemma check_beyond_binary64 {C : Type} `{ParameterConstraintLike C}
    (py_sum : list float -> float) (self : C) (parameter_dict : gmap string number) :
  (forall k, k ∈ map fst (constraint_dict self) -> k ∈ dom parameter_dict) ->
  (exists k z, k ∈ map fst (constraint_dict self) /\
     parameter_dict !! k = Some (PyInt z) /\ int_to_float z = None) ->
  check py_sum self parameter_dict
  = Raise (OverflowError [Lit "int too large to convert to float"]).
Proof.
  intros Hall (k & z & Hk & Hz & Hover). unfold check.
  rewrite (proj2 (names_loop_Ok _ _) Hall). cbn.
  destruct (weighted_terms parameter_dict (constraint_dict self)) as [terms|e] eqn:Hterms.
  - exfalso. apply weighted_terms_Ok in Hterms.
    apply elem_of_map in Hk as (item & -> & Hitem).
    apply list_elem_of_lookup in Hitem as [i Hi].
    destruct (Forall2_lookup_l _ _ _ _ _ Hterms Hi) as (term & _ & v & x & Hv & Hx & _).
    rewrite Hz in Hv. injection Hv as <-. cbn in Hx. now rewrite Hover in Hx.
  - cbn. f_equal. apply for_map_Raise in Hterms as (item & Hitem & Hraise).
    unfold getitem in Hraise.
    assert (fst item ∈ dom parameter_dict) as Hdom.
    { apply Hall, elem_of_map. now exists item. }
    apply elem_of_dom in Hdom as [v Hv]. rewrite Hv in Hraise. cbn in Hraise.
    destruct v as [z'|x]; cbn in Hraise; [|discriminate].
    destruct (int_to_float z'); cbn in Hraise; [discriminate|]. now injection Hraise as <-.
Qed.

(** C6, as stated, fails where a supplied value is an int that no binary64
    number holds: for x1 <= x2 with x1 = 0 and x2 = 2^1024 every name is
    supplied and the weighted sum 0 - 2^1024 is below the bound 0, yet
    [check] raises OverflowError instead of returning true. *)
Lemma check_overflow_counterexample :
  (forall k, k ∈ map fst (constraint_dict x1_below_x2) -> k ∈ dom beyond_binary64) /\
  (0 * 1 + 2 ^ 1024 * -1 <= 0)%Z /\
  check sum_left_to_right x1_below_x2 beyond_binary64
  = Raise (OverflowError [Lit "int too large to convert to float"]).
Proof.
  split; [|split; [|vm_compute; reflexivity]].
  - intros k Hk. vm_compute in Hk. apply elem_of_dom.
    apply elem_of_cons in Hk as [->|Hk]; [eexists; vm_compute; reflexivity|].
    apply elem_of_cons in Hk as [->|Hk]; [eexists; vm_compute; reflexivity|].
    now apply elem_of_nil in Hk.
  - vm_compute. discriminate.
Qed.

(** C6, amended. Whatever the interpreter's [sum] is: when every referenced
    name is supplied with a value that [float(...)] converts, [check] returns
    whether the sum of the terms float(value) * weight is <= bound + 1e-8;
    when some referenced name is missing it raises a ValueError naming a
    missing one; when all are supplied and one is an int beyond binary64 it
    raises OverflowError. For the order constraint x1 <= x2, whose two terms
    [sum] adds as 0 + t1 + t2, x1=0.15, x2=1.5 pass and x1=1.9, x2=1.5
    fail. *)
Theorem check_weighted_sum_within_tolerance :
  (forall (py_sum : list float -> float) (C : Type) (H : ParameterConstraintLike C)
          (self : C) (parameter_dict : gmap string number),
     (forall terms,
        terms_supplied parameter_dict (constraint_dict self) terms ->
        check py_sum self parameter_dict
        = Ok (py_sum terms <=? _bound self + 1e-8)%float) /\
     ((exists k, k ∈ map fst (constraint_dict self) /\ k ∉ dom parameter_dict) ->
      exists k, k ∈ map fst (constraint_dict self) /\ (k ∉ dom parameter_dict) /\
        check py_sum self parameter_dict
        = Raise (ValueError [Lit "`"; Lit k; Lit "` not present in param_dict."])) /\
     ((forall k, k ∈ map fst (constraint_dict self) -> k ∈ dom parameter_dict) ->
      (exists k z, k ∈ map fst (constraint_dict self) /\
         parameter_dict !! k = Some (PyInt z) /\ int_to_float z = None) ->
      check py_sum self parameter_dict
      = Raise (OverflowError [Lit "int too large to convert to float"]))) /\
  OrderConstraint.__init__ x1 x2 = Ok x1_below_x2 /\
  constraint_dict x1_below_x2 = [("x1", 1.0%float); ("x2", (-1.0)%float)] /\
  (forall py_sum : list float -> float,
     (forall t1 t2, py_sum [t1; t2] = (0 + t1 + t2)%float) ->
     check py_sum x1_below_x2 passing_values = Ok true /\
     check py_sum x1_below_x2 failing_values = Ok false).
Proof.
  split; [intros py_sum C H self parameter_dict; split; [|split];
          [intros terms; apply check_supplied | apply check_missing
          | apply check_beyond_binary64]|].
  split; [vm_compute; reflexivity|]. split; [vm_compute; reflexivity|].
  intros py_sum Hsum. split.
  - rewrite (check_supplied py_sum x1_below_x2 passing_values
               [(0.15 * 1.0)%float; (1.5 * (-1.0))%float]).
    + rewrite Hsum. vm_compute. reflexivity.
    + repeat constructor; eexists _, _; (split; [vm_compute; reflexivity|]);
        split; reflexivity.
  - rewrite (check_supplied py_sum x1_below_x2 failing_values
               [(1.9 * 1.0)%float; (1.5 * (-1.0))%float]).
    + rewrite Hsum. vm_compute. reflexivity.
    + repeat constructor; eexists _, _; (split; [vm_compute; reflexivity|]);
        split; reflexivity.
Qed.

Lemma check_weighted_sum_within_tolerance_witness :
  check sum_left_to_right x1_below_x2 passing_values = Ok true /\
  check sum_left_to_right x1_below_x2 failing_values = Ok false.
Proof.
  apply (proj2 (proj2 (proj2 check_weighted_sum_within_tolerance)) sum_left_to_right).
  reflexivity.
Defined.

(** * [sorted] then [groupby]: one group per key, in the original order *)

Lemma string_leb_refl (a : string) : String.leb a a = true.
Proof. destruct (String.leb_total a a); assumption. Qed.

Lemma string_leb_trans (a b c : string) :
  String.leb a b = true -> String.leb b c = true -> String.leb a c = true.
Proof.
  unfold String.leb. intros Hab Hbc.
  destruct (String.compare a b) eqn:Eab; try discriminate;
    destruct (String.compare b c) eqn:Ebc; try discriminate.
  - apply String_as_OT.cmp_eq in Eab as ->. now rewrite Ebc.
  - apply String_as_OT.cmp_eq in Eab as ->. now rewrite Ebc.
  - apply String_as_OT.cmp_eq in Ebc as <-. now rewrite Eab.
  - apply String_as_OT.cmp_lt in Eab, Ebc.
    pose proof (String_as_OT.lt_trans _ _ _ Eab Ebc) as Hac.
    apply String_as_OT.cmp_lt in Hac. unfold String_as_OT.cmp in Hac. now rewrite Hac.
Qed.

Section Grouping.
Context {A : Type} (key : A -> string).

Lemma insert_by_Forall (P : A -> Prop) (x : A) (l : list A) :
  Forall P (insert_by key x l) <-> P x /\ Forall P l.
Proof.
  induction l as [|y l IH]; cbn.
  - rewrite Forall_singleton. rewrite Forall_nil. tauto.
  - destruct (String.leb (key x) (key y)).
    + now rewrite Forall_cons.
    + rewrite !Forall_cons, IH. tauto.
Qed.

Lemma insert_by_sorted (x : A) (l : list A) :
  StronglySorted (key_le key) l -> StronglySorted (key_le key) (insert_by key x l).
Proof.
  induction 1 as [|y l Hl IH Hy]; cbn.
  - repeat constructor.
  - destruct (String.leb (key x) (key y)) eqn:Hxy.
    + constructor; [now constructor|]. constructor; [exact Hxy|].
      eapply Forall_impl; [exact Hy|]. intros z Hyz.
      exact (string_leb_trans _ _ _ Hxy Hyz).
    + constructor; [exact IH|]. apply insert_by_Forall. split; [|exact Hy].
      destruct (String.leb_total (key x) (key y)) as [H|H]; [congruence | exact H].
Qed.

Lemma sorted_StronglySorted (l : list A) : StronglySorted (key_le key) (sorted key l).
Proof.
  induction l as [|x l IH]; [constructor|].
  change (sorted key (x :: l)) with (insert_by key x (sorted key l)).
  now apply insert_by_sorted.
Qed.

(** The sort is stable: the elements of one key keep their order. *)
Lemma filter_insert_by (k : string) (x : A) (l : list A) :
  filter (fun y => key y = k) (insert_by key x l) = filter (fun y => key y = k) (x :: l).
Proof.
  induction l as [|y l IH]; cbn; [reflexivity|].
  destruct (String.leb (key x) (key y)) eqn:Hxy; [reflexivity|].
  assert (key x <> key y) as Hne.
  { intros Heq. rewrite Heq, string_leb_refl in Hxy. discriminate. }
  rewrite (filter_cons _ y), IH, !filter_cons.
  repeat case_decide; first [reflexivity | exfalso; congruence].
Qed.

Lemma filter_sorted (k : string) (l : list A) :
  filter (fun y => key y = k) (sorted key l) = filter (fun y => key y = k) l.
Proof.
  induction l as [|x l IH]; [reflexivity|].
  change (sorted key (x :: l)) with (insert_by key x (sorted key l)).
  now rewrite filter_insert_by, !filter_cons, IH.
Qed.

Lemma groupby_head (x : A) (l : list A) :
  exists g gs, groupby key (x :: l) = (key x, g) :: gs.
Proof.
  cbn. destruct (groupby key l) as [|[k g] gs]; [now eexists _, _|].
  destruct (String.eqb_spec (key x) k) as [->|_]; now eexists _, _.
Qed.

Lemma filter_none (P : A -> Prop) `{forall x, Decision (P x)} (l : list A) :
  (forall x, x ∈ l -> ~ P x) -> filter P l = [].
Proof.
  induction l as [|x l IH]; intros Hall; [reflexivity|].
  rewrite filter_cons_False by (apply Hall; left).
  apply IH. intros y Hy. apply Hall. now right.
Qed.

(** In a list sorted by key, an element whose key differs from its
    successor's has a key that occurs nowhere further on. *)
Lemma sorted_key_gone (x h : A) (l : list A) :
  StronglySorted (key_le key) (x :: h :: l) -> key x <> key h ->
  filter (fun y => key y = key x) (h :: l) = [].
Proof.
  intros Hs Hne. apply StronglySorted_inv in Hs as [Hs Hx].
  apply StronglySorted_inv in Hs as [_ Hh].
  apply Forall_cons in Hx as [Hxh _].
  apply filter_none. intros y Hy Hk.
  assert (key_le key h y) as Hhy.
  { apply elem_of_cons in Hy as [->|Hy]; [apply string_leb_refl|].
    rewrite Forall_forall in Hh. now apply Hh. }
  unfold key_le in *. rewrite Hk in Hhy.
  apply Hne. now apply String.leb_antisym.
Qed.

Lemma groupby_invariant (l : list A) :
  StronglySorted (key_le key) l ->
  (forall k g, (k, g) ∈ groupby key l ->
     g = filter (fun y => key y = k) l /\ g <> []) /\
  NoDup (map fst (groupby key l)) /\
  (forall x, x ∈ l -> key x ∈ map fst (groupby key l)).
Proof.
  induction l as [|x l IH]; intros Hs.
  - split; [|split].
    + intros k g H. now apply elem_of_nil in H.
    + constructor.
    + intros x H. now apply elem_of_nil in H.
  - pose proof Hs as Hs'. apply StronglySorted_inv in Hs' as [Hl Hx].
    destruct (IH Hl) as (I1 & I2 & I3). clear IH.
    destruct l as [|h l'].
    { split; [|split].
      - intros k g H. cbn in H. apply list_elem_of_singleton in H.
        injection H as -> ->. split; [|discriminate].
        now rewrite filter_cons_True.
      - cbn. repeat constructor. apply not_elem_of_nil.
      - intros y Hy. apply list_elem_of_singleton in Hy as ->. cbn. left. }
    destruct (groupby_head h l') as (g & gs & Hg).
    change (groupby key (x :: h :: l')) with
      (match groupby key (h :: l') with
       | (k, g) :: gs => if String.eqb (key x) k then (k, x :: g) :: gs
                         else (key x, [x]) :: (k, g) :: gs
       | [] => [(key x, [x])]
       end).
    rewrite Hg in *. destruct (String.eqb_spec (key x) (key h)) as [Heq|Hne].
    + split; [|split].
      * intros k g0 H. apply elem_of_cons in H as [H|H].
        -- injection H as -> ->. split; [|discriminate].
           rewrite filter_cons_True by exact Heq.
           f_equal. apply I1. left.
        -- assert (k <> key x) as Hk.
           { cbn in I2. apply NoDup_cons in I2 as [Hnot _]. intros ->.
             apply Hnot. rewrite <- Heq. apply elem_of_map. now exists (key x, g0). }
           rewrite filter_cons_False by congruence.
           apply I1. now right.
      * exact I2.
      * intros y Hy. apply elem_of_cons in Hy as [->|Hy]; [rewrite Heq; left|].
        now apply I3.
    + pose proof (sorted_key_gone x h l' Hs Hne) as Hgone.
      assert (key x ∉ map fst ((key h, g) :: gs)) as Hfresh.
      { intros Hin. apply elem_of_map in Hin as ([k' g'] & Hk & Hin). cbn in Hk.
        subst k'. destruct (I1 _ _ Hin) as [Hg' Hnil]. congruence. }
      split; [|split].
      * intros k g0 H. apply elem_of_cons in H as [H|H].
        -- injection H as -> ->. split; [|discriminate].
           now rewrite filter_cons_True, Hgone.
        -- destruct (decide (key x = k)) as [<-|Hk].
           ++ exfalso. apply Hfresh. apply elem_of_map. now exists (key x, g0).
           ++ rewrite filter_cons_False by exact Hk. now apply I1.
      * cbn. apply NoDup_cons. split; [exact Hfresh | exact I2].
      * intros y Hy. cbn.
        apply elem_of_cons in Hy as [->|Hy]; [left | right; now apply I3].
Qed.

(** The groups of [groupby(sorted(l))] are exactly the non-empty
    restrictions of [l] to one key. *)
Lemma groupby_sorted_groups (l : list A) (k : string) (g : list A) :
  (k, g) ∈ groupby key (sorted key l) <->
  g = filter (fun y => key y = k) l /\ g <> [].
Proof.
  destruct (groupby_invariant _ (sorted_StronglySorted l)) as (I1 & I2 & I3).
  split.
  - intros H. destruct (I1 _ _ H) as [-> Hne]. now rewrite filter_sorted in Hne |- *.
  - intros [-> Hne]. rewrite <- filter_sorted in Hne |- *.
    destruct (filter (λ y : A, key y = k) (sorted key l)) as [|y f] eqn:Hf; [contradiction|].
    assert (y ∈ filter (λ y : A, key y = k) (sorted key l)) as Hy by (rewrite Hf; left).
    apply list_elem_of_filter in Hy as [Hky Hy].
    apply I3, elem_of_map in Hy as ([k' g'] & Hk' & Hin). cbn in Hk'.
    rewrite Hky in Hk'. subst k'. destruct (I1 _ _ Hin) as [Hg' _].
    rewrite Hf in Hg'. now subst g'.
Qed.

End Grouping.

(** * Outcome-constraint validation *)

Lemma validate_group_Ok (metric_name : string) (group : list OutcomeConstraint.t) :
  OptimizationConfig.validate_group metric_name group = Ok tt <->
  group_accepted not_at_or_above group.
Proof.
  destruct group as [|c0 [|c1 [|c2 rest]]]; cbn; try tauto.
  - case_bool_decide as Hop.
    + split; [discriminate | intros [Hne _]; contradiction].
    + case_bool_decide as Hgeq; cbn.
      * destruct (OutcomeConstraint.bound c1 <=? OutcomeConstraint.bound c0)%float eqn:Hb.
        -- split; [discriminate|]. intros [_ H].
           specialize (H c0 c1 (or_introl (conj eq_refl eq_refl)) Hgeq).
           unfold not_at_or_above in H. rewrite Hb in H.
           destruct (OutcomeConstraint.op c1); [congruence | now specialize (H eq_refl)].
        -- split; [intros _ | reflexivity]. split; [exact Hop|].
           intros lo hi [[-> ->]|[-> ->]] Hlo Hhi; [exact Hb | congruence].
      * destruct (OutcomeConstraint.bound c0 <=? OutcomeConstraint.bound c1)%float eqn:Hb.
        -- split; [discriminate|]. intros [_ H].
           assert (OutcomeConstraint.op c0 = LEQ) as H0
             by (destruct (OutcomeConstraint.op c0); congruence).
           assert (OutcomeConstraint.op c1 = GEQ) as H1
             by (destruct (OutcomeConstraint.op c1); congruence).
           specialize (H c1 c0 (or_intror (conj eq_refl eq_refl)) H1 H0).
           unfold not_at_or_above in H. congruence.
        -- split; [intros _ | reflexivity]. split; [exact Hop|].
           intros lo hi [[-> ->]|[-> ->]] Hlo Hhi; [congruence | exact Hb].
  - split; [discriminate | contradiction].
Qed.

Lemma objective_metric_loop (unconstrainable_metrics : list Metric.t)
    (l : list OutcomeConstraint.t) :
  let loop := for_each unconstrainable_metrics (fun metric =>
    if bool_decide (Metric.name metric ∈ map get_metric_name l) then
      Raise objective_metric_refused
    else Ok tt) in
  (loop = Ok tt /\ ~ on_objective_metric unconstrainable_metrics l) \/
  (loop = Raise objective_metric_refused /\ on_objective_metric unconstrainable_metrics l).
Proof.
  intros loop.
  pose proof (for_each_Ok unconstrainable_metrics (fun metric =>
    if bool_decide (Metric.name metric ∈ map get_metric_name l) then
      Raise objective_metric_refused
    else Ok tt)) as HOk.
  fold loop in HOk. destruct loop as [[]|e] eqn:Hloop.
  - left. split; [reflexivity|].
    intros (m & c & Hm & Hc & Heq). pose proof (proj1 HOk eq_refl m Hm) as Hb.
    cbn in Hb. rewrite bool_decide_eq_true_2 in Hb; [discriminate|].
    apply elem_of_map. now exists c.
  - right. destruct (for_each_Raise _ _ _ Hloop) as (m & Hm & Hb). cbn in Hb.
    case_bool_decide as Hin; [|discriminate]. injection Hb as <-.
    split; [reflexivity|].
    apply elem_of_map in Hin as (c & Heq & Hc). now exists m, c.
Qed.

Lemma no_objective_metric_iff (unconstrainable_metrics : list Metric.t)
    (l : list OutcomeConstraint.t) :
  no_objective_metric unconstrainable_metrics l <->
  ~ on_objective_metric unconstrainable_metrics l.
Proof.
  split.
  - intros H (m & c & Hm & Hc & Heq). exact (H m c Hm Hc Heq).
  - intros H m c Hm Hc Heq. apply H. now exists m, c.
Qed.

Lemma groups_loop_Ok (l : list OutcomeConstraint.t) :
  for_each (groupby get_metric_name (sorted get_metric_name l))
    (fun '(metric_name, constraints) =>
       OptimizationConfig.validate_group metric_name constraints) = Ok tt <->
  forall metric_name, group_accepted not_at_or_above (constraints_on metric_name l).
Proof.
  rewrite for_each_Ok. split.
  - intros H k. unfold constraints_on.
    destruct (filter (fun c => get_metric_name c = k) l) as [|c g] eqn:Hf; [exact I|].
    rewrite <- Hf. apply (validate_group_Ok k). apply (H (k, _)).
    apply groupby_sorted_groups. split; [reflexivity | now rewrite Hf].
  - intros H [k g] Hin. apply groupby_sorted_groups in Hin as [-> _].
    apply validate_group_Ok, H.
Qed.

Lemma validate_outcome_constraints_Ok (unconstrainable_metrics : list Metric.t)
    (l : list OutcomeConstraint.t) :
  OptimizationConfig._validate_outcome_constraints unconstrainable_metrics l = Ok tt <->
  no_objective_metric unconstrainable_metrics l /\
  forall metric_name, group_accepted not_at_or_above (constraints_on metric_name l).
Proof.
  unfold OptimizationConfig._validate_outcome_constraints.
  rewrite no_objective_metric_iff, <- groups_loop_Ok.
  pose proof (objective_metric_loop unconstrainable_metrics l) as H.
  cbv zeta in H. unfold objective_metric_refused in H.
  destruct H as [[H Hno]|[H Hyes]]; rewrite H; cbn.
  - tauto.
  - split; [discriminate | tauto].
Qed.

Lemma validate_outcome_constraints_clash (unconstrainable_metrics : list Metric.t)
    (l : list OutcomeConstraint.t) :
  on_objective_metric unconstrainable_metrics l ->
  OptimizationConfig._validate_outcome_constraints unconstrainable_metrics l
  = Raise objective_metric_refused.
Proof.
  intros Hyes. unfold OptimizationConfig._validate_outcome_constraints.
  pose proof (objective_metric_loop unconstrainable_metrics l) as H.
  cbv zeta in H. unfold objective_metric_refused in *.
  destruct H as [[_ Hno]|[H _]]; [contradiction | now rewrite H].
Qed.

Lemma validate_outcome_constraints_nil (unconstrainable_metrics : list Metric.t) :
  OptimizationConfig._validate_outcome_constraints unconstrainable_metrics [] = Ok tt.
Proof.
  apply validate_outcome_constraints_Ok. split.
  - intros m c _ Hc. now apply elem_of_nil in Hc.
  - intros k. exact I.
Qed.

Lemma result_unit_cases (r : result unit) : r = Ok tt \/ exists e, r = Raise e.
Proof. destruct r as [[]|e]; [now left | right; now exists e]. Qed.

Lemma group_accepted_numbers (group : list OutcomeConstraint.t) :
  (forall c, c ∈ group -> is_number (OutcomeConstraint.bound c) = true) ->
  group_accepted not_at_or_above group <-> group_accepted strictly_below group.
Proof.
  intros Hnum. destruct group as [|c0 [|c1 [|c2 rest]]]; cbn; try tauto.
  assert (forall lo hi, (lo = c0 /\ hi = c1) \/ (lo = c1 /\ hi = c0) ->
            (not_at_or_above (OutcomeConstraint.bound lo) (OutcomeConstraint.bound hi) <->
             strictly_below (OutcomeConstraint.bound lo) (OutcomeConstraint.bound hi))) as Heq.
  { intros lo hi Hcase. unfold not_at_or_above, strictly_below.
    rewrite not_geb_ltb.
    - now destruct (_ <? _)%float.
    - apply Hnum. destruct Hcase as [[-> _]|[-> _]]; [left | right; left].
    - apply Hnum. destruct Hcase as [[_ ->]|[_ ->]]; [right; left | left]. }
  split; intros [Hop H]; (split; [exact Hop|]); intros lo hi Hcase Hlo Hhi;
    apply (Heq lo hi Hcase), H; assumption.
Qed.

Lemma plain_validate_Ok (objective : Objective.t) (l : list Constraint)
    (risk_measure : option RiskMeasure.t) :
  OptimizationConfig._validate_transformed_optimization_config
    objective (Some l) risk_measure = Ok tt <->
  Objective.is_exactly_MultiObjective objective = false /\
  no_objective_metric (Objective.metrics objective) (OptimizationConfig.not_scalarized l) /\
  forall metric_name,
    group_accepted not_at_or_above
      (constraints_on metric_name (OptimizationConfig.not_scalarized l)).
Proof.
  unfold OptimizationConfig._validate_transformed_optimization_config.
  destruct (Objective.is_exactly_MultiObjective objective); cbn.
  - split; [discriminate | intros [[=] _]].
  - rewrite validate_outcome_constraints_Ok.
    unfold Objective.get_unconstrainable_metrics. tauto.
Qed.

Lemma plain_init_Ok (objective : Objective.t) (l : option (list Constraint))
    (risk_measure : option RiskMeasure.t) (cfg : OptimizationConfig.t) :
  OptimizationConfig.__init__ objective l risk_measure = Ok cfg <->
  OptimizationConfig._validate_transformed_optimization_config
    objective (Some (default [] l)) risk_measure = Ok tt /\
  cfg = {| OptimizationConfig._objective := objective;
           OptimizationConfig._outcome_constraints := default [] l;
           OptimizationConfig.risk_measure := risk_measure |}.
Proof.
  unfold OptimizationConfig.__init__.
  replace (match l with Some l0 => l0 | None => [] end) with (default [] l)
    by now destruct l.
  destruct (OptimizationConfig._validate_transformed_optimization_config _ _ _)
    as [[]|e]; cbn.
  - split; [intros [= <-]; now split | intros [_ ->]; reflexivity].
  - split; [discriminate | intros [[=] _]].
Qed.

(** C1. The code at the failing input: the pair "bar >= NaN", "bar <= 1" is on
    one metric and is accepted, although NaN is not strictly less than 1, as
    the claim and the validator's docstring ask of the GEQ bound. *)
Lemma nan_band_counterexample :
  OptimizationConfig._validate_outcome_constraints [foo] nan_band = Ok tt /\
  constraints_on "bar" nan_band = nan_band /\
  ~ group_accepted strictly_below nan_band.
Proof.
  split; [vm_compute; reflexivity|]. split; [vm_compute; reflexivity|].
  intros [_ H].
  specialize (H _ _ (or_introl (conj eq_refl eq_refl)) eq_refl eq_refl).
  vm_compute in H. discriminate.
Qed.

(** What the validator accepts. The outcome constraints are accepted exactly
    when none is on an objective metric and, of the constraints on each
    metric name, there is one, or there are two with different operators for
    which the code's test "GEQ bound >= LEQ bound" is false; more than two on
    one name always raise. For bounds that are numbers (not NaN) the test is
    "GEQ bound < LEQ bound". The plain constructor accepts a list exactly
    when, besides, the objective passes the type guard, the scalarized
    constraints left aside. *)
Theorem outcome_constraint_groups :
  (forall (unconstrainable_metrics : list Metric.t) (l : list OutcomeConstraint.t),
     OptimizationConfig._validate_outcome_constraints unconstrainable_metrics l = Ok tt <->
     no_objective_metric unconstrainable_metrics l /\
     forall metric_name,
       group_accepted not_at_or_above (constraints_on metric_name l)) /\
  (forall (unconstrainable_metrics : list Metric.t) (l : list OutcomeConstraint.t)
          (metric_name : string),
     2 < length (constraints_on metric_name l) ->
     exists e,
       OptimizationConfig._validate_outcome_constraints unconstrainable_metrics l
       = Raise e) /\
  (forall group : list OutcomeConstraint.t,
     (forall c, c ∈ group -> is_number (OutcomeConstraint.bound c) = true) ->
     group_accepted not_at_or_above group <-> group_accepted strictly_below group) /\
  (forall (objective : Objective.t) (l : list Constraint)
          (risk_measure : option RiskMeasure.t),
     (exists cfg, OptimizationConfig.__init__ objective (Some l) risk_measure = Ok cfg) <->
     Objective.is_exactly_MultiObjective objective = false /\
     no_objective_metric (Objective.metrics objective)
       (OptimizationConfig.not_scalarized l) /\
     forall metric_name,
       group_accepted not_at_or_above
         (constraints_on metric_name (OptimizationConfig.not_scalarized l))).
Proof.
  split; [exact validate_outcome_constraints_Ok|].
  split; [|split; [exact group_accepted_numbers|]].
  - intros um l k Hlen.
    destruct (result_unit_cases (OptimizationConfig._validate_outcome_constraints um l))
      as [HOk|He]; [|exact He].
    apply validate_outcome_constraints_Ok in HOk as [_ H]. specialize (H k).
    destruct (constraints_on k l) as [|c0 [|c1 [|c2 rest]]]; cbn in *;
      first [lia | contradiction].
  - intros objective l rm. rewrite <- plain_validate_Ok. split.
    + intros [cfg H]. now apply plain_init_Ok in H as [H _].
    + intros H. eexists. apply plain_init_Ok. split; [exact H | reflexivity].
Qed.

(** * The plain configuration: constructor and setters *)

Lemma plain_set_objective_run (objective : Objective.t) (self : OptimizationConfig.t) :
  OptimizationConfig.set_objective objective self =
  match OptimizationConfig._validate_transformed_optimization_config objective
          (Some (OptimizationConfig._outcome_constraints self))
          (OptimizationConfig.risk_measure self) with
  | Ok _ => (Ok tt,
             {| OptimizationConfig._objective := objective;
                OptimizationConfig._outcome_constraints :=
                  OptimizationConfig._outcome_constraints self;
                OptimizationConfig.risk_measure := OptimizationConfig.risk_measure self |})
  | Raise e => (Raise e, self)
  end.
Proof.
  unfold OptimizationConfig.set_objective, mbind, method_bind, m_bind, m_read, m_call,
    m_assign, OptimizationConfig.outcome_constraints.
  now destruct (OptimizationConfig._validate_transformed_optimization_config _ _ _).
Qed.

Lemma plain_set_outcome_constraints_run (l : list Constraint)
    (self : OptimizationConfig.t) :
  OptimizationConfig.set_outcome_constraints l self =
  match OptimizationConfig._validate_transformed_optimization_config
          (OptimizationConfig._objective self) (Some l)
          (OptimizationConfig.risk_measure self) with
  | Ok _ => (Ok tt,
             {| OptimizationConfig._objective := OptimizationConfig._objective self;
                OptimizationConfig._outcome_constraints := l;
                OptimizationConfig.risk_measure := OptimizationConfig.risk_measure self |})
  | Raise e => (Raise e, self)
  end.
Proof.
  unfold OptimizationConfig.set_outcome_constraints, mbind, method_bind, m_bind, m_read,
    m_call, m_assign, OptimizationConfig.objective.
  now destruct (OptimizationConfig._validate_transformed_optimization_config _ _ _).
Qed.

Lemma plain_init_run (objective : Objective.t) (l : option (list Constraint))
    (risk_measure : option RiskMeasure.t) :
  OptimizationConfig.__init__ objective l risk_measure =
  match OptimizationConfig._validate_transformed_optimization_config objective
          (Some (default [] l)) risk_measure with
  | Ok _ => Ok {| OptimizationConfig._objective := objective;
                  OptimizationConfig._outcome_constraints := default [] l;
                  OptimizationConfig.risk_measure := risk_measure |}
  | Raise e => Raise e
  end.
Proof.
  unfold OptimizationConfig.__init__.
  replace (match l with Some l0 => l0 | None => [] end) with (default [] l)
    by now destruct l.
  now destruct (OptimizationConfig._validate_transformed_optimization_config _ _ _).
Qed.

Lemma plain_validate_clash (objective : Objective.t) (l : list Constraint)
    (risk_measure : option RiskMeasure.t) :
  Objective.is_exactly_MultiObjective objective = false ->
  on_objective_metric (Objective.metrics objective) (OptimizationConfig.not_scalarized l) ->
  OptimizationConfig._validate_transformed_optimization_config
    objective (Some l) risk_measure = Raise objective_metric_refused.
Proof.
  intros Hty Hclash.
  unfold OptimizationConfig._validate_transformed_optimization_config. rewrite Hty.
  now apply validate_outcome_constraints_clash.
Qed.

Lemma plain_validate_multi (objectives : list Objective.single)
    (l : option (list Constraint)) (risk_measure : option RiskMeasure.t) :
  OptimizationConfig._validate_transformed_optimization_config
    (Objective.MultiObjective objectives) l risk_measure = Raise multi_objective_refused.
Proof. reflexivity. Qed.

(** C2, as stated, fails in two ways. A [MultiObjective] handed to the plain
    configuration with a constraint on its objective metric foo raises the
    type guard's error, which does not name the objective metric; and a
    scalarized constraint over the objective metric foo raises nothing. *)
Lemma multi_objective_counterexample :
  (on_objective_metric (Objective.metrics minimize_foo_and_bar) [foo_at_most_1] /\
   OptimizationConfig.__init__ minimize_foo_and_bar (Some [Plain foo_at_most_1]) None
   = Raise multi_objective_refused /\
   OptimizationConfig.__init__ minimize_foo_and_bar (Some [Plain foo_at_most_1]) None
   <> Raise objective_metric_refused) /\
  (foo ∈ Objective.metrics minimize_foo /\
   foo ∈ ScalarizedOutcomeConstraint.metrics foo_plus_bar_at_most_1 /\
   exists cfg,
     OptimizationConfig.__init__ minimize_foo
       (Some [Scalarized foo_plus_bar_at_most_1]) None = Ok cfg).
Proof.
  split.
  - split; [|split; [reflexivity | discriminate]].
    exists foo, foo_at_most_1. repeat split; left.
  - split; [left|]. split; [left|]. eexists. vm_compute. reflexivity.
Qed.

(** C2, amended. For an objective that the plain configuration's type guard
    lets through (any but a [MultiObjective]), the constructor and both
    setters raise "Cannot constrain on objective metric." whenever some
    non-scalarized outcome constraint is on the metric name of an objective
    metric, and a setter then leaves the object unchanged. *)
Theorem constraint_on_objective_metric_refused (objective : Objective.t)
    (l : list Constraint) (risk_measure : option RiskMeasure.t) :
  Objective.is_exactly_MultiObjective objective = false ->
  on_objective_metric (Objective.metrics objective) (OptimizationConfig.not_scalarized l) ->
  OptimizationConfig.__init__ objective (Some l) risk_measure
  = Raise objective_metric_refused /\
  (forall self, OptimizationConfig._objective self = objective ->
     OptimizationConfig.set_outcome_constraints l self
     = (Raise objective_metric_refused, self)) /\
  (forall self, OptimizationConfig._outcome_constraints self = l ->
     OptimizationConfig.set_objective objective self
     = (Raise objective_metric_refused, self)).
Proof.
  intros Hty Hclash. split; [|split].
  - rewrite plain_init_run. cbn [from_option id].
    now rewrite (plain_validate_clash _ _ _ Hty Hclash).
  - intros self <-. rewrite plain_set_outcome_constraints_run.
    now rewrite (plain_validate_clash _ _ _ Hty Hclash).
  - intros self <-. rewrite plain_set_objective_run.
    now rewrite (plain_validate_clash _ _ _ Hty Hclash).
Qed.

(** The scenario of the specification: objective metric foo (minimize) and an
    outcome constraint on foo. *)
Lemma constraint_on_objective_metric_refused_witness :
  OptimizationConfig.__init__ minimize_foo (Some [Plain foo_at_most_1]) None
  = Raise objective_metric_refused /\
  (forall self, OptimizationConfig._objective self = minimize_foo ->
     OptimizationConfig.set_outcome_constraints [Plain foo_at_most_1] self
     = (Raise objective_metric_refused, self)) /\
  (forall self, OptimizationConfig._outcome_constraints self = [Plain foo_at_most_1] ->
     OptimizationConfig.set_objective minimize_foo self
     = (Raise objective_metric_refused, self)).
Proof.
  apply (constraint_on_objective_metric_refused minimize_foo [Plain foo_at_most_1] None).
  - reflexivity.
  - exists foo, foo_at_most_1. repeat split; left.
Defined.

Lemma not_scalarized_Scalarized (l : list ScalarizedOutcomeConstraint.t) :
  OptimizationConfig.not_scalarized (map Scalarized l) = [].
Proof. induction l as [|c l IH]; [reflexivity | exact IH]. Qed.

Lemma not_scalarized_Plain (l : list OutcomeConstraint.t) :
  OptimizationConfig.not_scalarized (map Plain l) = l.
Proof. induction l as [|c l IH]; cbn; [reflexivity | now rewrite IH]. Qed.

Lemma plain_validate_scalarized_only (objective : Objective.t)
    (l : list ScalarizedOutcomeConstraint.t) (risk_measure : option RiskMeasure.t) :
  Objective.is_exactly_MultiObjective objective = false ->
  OptimizationConfig._validate_transformed_optimization_config
    objective (Some (map Scalarized l)) risk_measure = Ok tt.
Proof.
  intros Hty. unfold OptimizationConfig._validate_transformed_optimization_config.
  rewrite Hty. cbn [from_option id]. rewrite not_scalarized_Scalarized.
  apply validate_outcome_constraints_nil.
Qed.

(** C10. The plain configuration's validation is blind to scalarized outcome
    constraints: its outcome on a list is its outcome on the list without
    them; so a list of scalarized constraints only is accepted by the
    constructor and by the setter whatever metrics they are on and however
    many there are, for a single or a scalarized objective. *)
Theorem scalarized_constraints_skipped :
  (forall (objective : Objective.t) (l : list Constraint)
          (risk_measure : option RiskMeasure.t),
     OptimizationConfig._validate_transformed_optimization_config
       objective (Some l) risk_measure
     = OptimizationConfig._validate_transformed_optimization_config
         objective (Some (map Plain (OptimizationConfig.not_scalarized l))) risk_measure) /\
  (forall (objective : Objective.t) (l : list ScalarizedOutcomeConstraint.t)
          (risk_measure : option RiskMeasure.t),
     Objective.is_exactly_MultiObjective objective = false ->
     OptimizationConfig.__init__ objective (Some (map Scalarized l)) risk_measure
     = Ok {| OptimizationConfig._objective := objective;
             OptimizationConfig._outcome_constraints := map Scalarized l;
             OptimizationConfig.risk_measure := risk_measure |}) /\
  (forall (self : OptimizationConfig.t) (l : list ScalarizedOutcomeConstraint.t),
     Objective.is_exactly_MultiObjective (OptimizationConfig._objective self) = false ->
     OptimizationConfig.set_outcome_constraints (map Scalarized l) self
     = (Ok tt,
        {| OptimizationConfig._objective := OptimizationConfig._objective self;
           OptimizationConfig._outcome_constraints := map Scalarized l;
           OptimizationConfig.risk_measure := OptimizationConfig.risk_measure self |})).
Proof.
  split; [|split].
  - intros objective l rm.
    unfold OptimizationConfig._validate_transformed_optimization_config.
    cbn [from_option id]. now rewrite not_scalarized_Plain.
  - intros objective l rm Hty. rewrite plain_init_run. cbn [from_option id].
    now rewrite plain_validate_scalarized_only.
  - intros self l Hty. rewrite plain_set_outcome_constraints_run.
    now rewrite plain_validate_scalarized_only.
Qed.

(** Two scalarized constraints over the objective metric foo are accepted. *)
Lemma scalarized_constraints_skipped_witness :
  OptimizationConfig.__init__ minimize_foo
    (Some (map Scalarized [foo_plus_bar_at_most_1; foo_plus_bar_at_most_1])) None
  = Ok {| OptimizationConfig._objective := minimize_foo;
          OptimizationConfig._outcome_constraints :=
            map Scalarized [foo_plus_bar_at_most_1; foo_plus_bar_at_most_1];
          OptimizationConfig.risk_measure := None |}.
Proof.
  apply (proj1 (proj2 scalarized_constraints_skipped) minimize_foo
           [foo_plus_bar_at_most_1; foo_plus_bar_at_most_1] None).
  reflexivity.
Defined.

(** * The type guards *)

Lemma moo_init_run (objective : Objective.t) (l : option (list OutcomeConstraint.t))
    (thresholds : option (list ObjectiveThreshold.t))
    (risk_measure : option RiskMeasure.t) :
  MultiObjectiveOptimizationConfig.__init__ objective l thresholds risk_measure =
  match MultiObjectiveOptimizationConfig._validate_transformed_optimization_config
          objective (Some (default [] l)) (Some (default [] thresholds)) risk_measure with
  | Ok _ => Ok {| MultiObjectiveOptimizationConfig._objective := objective;
                  MultiObjectiveOptimizationConfig._outcome_constraints := default [] l;
                  MultiObjectiveOptimizationConfig._objective_thresholds :=
                    default [] thresholds;
                  MultiObjectiveOptimizationConfig.risk_measure := risk_measure |}
  | Raise e => Raise e
  end.
Proof.
  unfold MultiObjectiveOptimizationConfig.__init__.
  replace (match l with Some l0 => l0 | None => [] end) with (default [] l)
    by now destruct l.
  now destruct
    (MultiObjectiveOptimizationConfig._validate_transformed_optimization_config _ _ _ _).
Qed.

(** C5. The plain constructor raises the "use
    MultiObjectiveOptimizationConfig" error on every [MultiObjective]; a
    [ScalarizedObjective] passes its type guard (it is accepted with no
    outcome constraints, and otherwise exactly when its outcome constraints
    validate); the multi-objective constructor raises the TypeError on every
    objective that is neither a [MultiObjective] nor a [ScalarizedObjective]. *)
Theorem type_guards :
  (forall (objectives : list Objective.single) (l : option (list Constraint))
          (risk_measure : option RiskMeasure.t),
     OptimizationConfig.__init__ (Objective.MultiObjective objectives) l risk_measure
     = Raise multi_objective_refused) /\
  (forall (metrics : list Metric.t) (weights : list float) (minimize : bool)
          (risk_measure : option RiskMeasure.t),
     OptimizationConfig.__init__
       (Objective.ScalarizedObjective metrics weights minimize) None risk_measure
     = Ok {| OptimizationConfig._objective :=
               Objective.ScalarizedObjective metrics weights minimize;
             OptimizationConfig._outcome_constraints := [];
             OptimizationConfig.risk_measure := risk_measure |}) /\
  (forall (metrics : list Metric.t) (weights : list float) (minimize : bool)
          (l : list Constraint) (risk_measure : option RiskMeasure.t),
     (exists cfg,
        OptimizationConfig.__init__
          (Objective.ScalarizedObjective metrics weights minimize) (Some l) risk_measure
        = Ok cfg) <->
     OptimizationConfig._validate_outcome_constraints metrics
       (OptimizationConfig.not_scalarized l) = Ok tt) /\
  (forall (o : Objective.single) (l : option (list OutcomeConstraint.t))
          (thresholds : option (list ObjectiveThreshold.t))
          (risk_measure : option RiskMeasure.t),
     MultiObjectiveOptimizationConfig.__init__ (Objective.Objective o) l thresholds
       risk_measure
     = Raise not_multi_objective) /\
  (forall objective : Objective.t,
     Objective.is_multi_or_scalarized objective = false <->
     exists o, objective = Objective.Objective o).
Proof.
  split; [|split; [|split; [|split]]].
  - intros objectives l rm. rewrite plain_init_run. now rewrite plain_validate_multi.
  - intros metrics weights minimize rm. rewrite plain_init_run. cbn [from_option id].
    unfold OptimizationConfig._validate_transformed_optimization_config.
    cbn [Objective.is_exactly_MultiObjective from_option id
         OptimizationConfig.not_scalarized].
    now rewrite validate_outcome_constraints_nil.
  - intros metrics weights minimize l rm. rewrite plain_init_run. cbn [from_option id].
    unfold OptimizationConfig._validate_transformed_optimization_config.
    cbn [Objective.is_exactly_MultiObjective from_option id
         Objective.get_unconstrainable_metrics Objective.metrics].
    destruct (OptimizationConfig._validate_outcome_constraints _ _) as [[]|e].
    + split; [reflexivity | intros _; now eexists].
    + split; [intros [cfg [=]] | discriminate].
  - intros o l thresholds rm. now rewrite moo_init_run.
  - intros [o|objectives|metrics weights minimize]; cbn.
    + split; [intros _; now exists o | reflexivity].
    + split; [discriminate | intros [o [=]]].
    + split; [discriminate | intros [o [=]]].
Qed.

(** * Objective thresholds *)

Lemma objectives_by_name_from (objectives : list Objective.single)
    (d : gmap string Objective.single) (n : string) :
  is_Some (foldl (fun d obj => <[ Metric.name (Objective.metric obj) := obj ]> d)
             d objectives !! n) <->
  is_Some (d !! n) \/ n ∈ map objective_metric_name objectives.
Proof.
  revert d; induction objectives as [|o objectives IH]; intros d; cbn.
  - rewrite elem_of_nil. tauto.
  - rewrite IH, lookup_insert_is_Some, elem_of_cons. unfold objective_metric_name.
    destruct (decide (Metric.name (Objective.metric o) = n)); intuition congruence.
Qed.

Lemma objectives_by_name_dom (objectives : list Objective.single) (n : string) :
  is_Some (objectives_by_name objectives !! n) <->
  n ∈ map objective_metric_name objectives.
Proof.
  unfold objectives_by_name. rewrite objectives_by_name_from, lookup_empty.
  split; [intros [[x [=]]|H]; exact H | now right].
Qed.

Lemma check_threshold_Ok (by_name : gmap string Objective.single) (seen : gset string)
    (t : ObjectiveThreshold.t) (seen' : gset string) :
  check_threshold by_name seen t = Ok seen' <->
  exists o, by_name !! threshold_metric_name t = Some o /\
    (threshold_metric_name t ∉ seen) /\
    (ObjectiveThreshold.op t = LEQ <-> Objective.minimize o = true) /\
    seen' = {[ threshold_metric_name t ]} ∪ seen.
Proof.
  unfold check_threshold, threshold_metric_name.
  destruct (by_name !! Metric.name (ObjectiveThreshold.metric t)) as [o|] eqn:Ho.
  - case_bool_decide as Hseen.
    + split; [discriminate | intros (o' & _ & Hn & _); contradiction].
    + case_bool_decide as Hop;
        destruct (Objective.minimize o) eqn:Hmin; cbn;
        (split; [intros [= <-]; exists o; intuition congruence
                | intros (o' & [= <-] & _ & Hal & ->); intuition congruence]).
  - split; [discriminate | intros (o' & [=] & _)].
Qed.

Lemma check_threshold_Raise (by_name : gmap string Objective.single) (seen : gset string)
    (t : ObjectiveThreshold.t) (e : exn) :
  check_threshold by_name seen t = Raise e -> exists msg, e = UserInputError msg.
Proof.
  unfold check_threshold.
  destruct (by_name !! _) as [o|]; [|intros [= <-]; now eexists].
  case_bool_decide; [intros [= <-]; now eexists|].
  destruct (negb _); [intros [= <-]; now eexists | discriminate].
Qed.

Lemma thresholds_loop_Raise (by_name : gmap string Objective.single)
    (thresholds : list ObjectiveThreshold.t) (seen : gset string) (e : exn) :
  for_acc (check_threshold by_name) seen thresholds = Raise e ->
  exists msg, e = UserInputError msg.
Proof.
  revert seen; induction thresholds as [|t thresholds IH]; intros seen; cbn;
    [discriminate|].
  destruct (check_threshold by_name seen t) as [seen'|e'] eqn:Ht; cbn.
  - apply IH.
  - intros [= <-]. exact (check_threshold_Raise _ _ _ _ Ht).
Qed.

Lemma thresholds_loop_Ok (by_name : gmap string Objective.single)
    (thresholds : list ObjectiveThreshold.t) (seen : gset string) :
  (exists seen', for_acc (check_threshold by_name) seen thresholds = Ok seen') <->
  (forall t, t ∈ thresholds -> is_Some (by_name !! threshold_metric_name t)) /\
  NoDup (map threshold_metric_name thresholds) /\
  (forall t, t ∈ thresholds -> threshold_metric_name t ∉ seen) /\
  (forall t o, t ∈ thresholds -> by_name !! threshold_metric_name t = Some o ->
     (ObjectiveThreshold.op t = LEQ <-> Objective.minimize o = true)).
Proof.
  revert seen; induction thresholds as [|t thresholds IH]; intros seen; cbn.
  - split; [intros _ | intros _; now eexists].
    split; [|split; [|split]].
    + intros t Ht. now apply elem_of_nil in Ht.
    + constructor.
    + intros t Ht. now apply elem_of_nil in Ht.
    + intros t o Ht. now apply elem_of_nil in Ht.
  - destruct (check_threshold by_name seen t) as [seen1|e] eqn:Ht; cbn.
    + apply check_threshold_Ok in Ht as (o & Ho & Hfresh & Hal & ->).
      rewrite IH. rewrite NoDup_cons. split.
      * intros (Hdom & Hnd & Hseen & Halign). split; [|split; [|split]].
        -- intros t' [->|Ht']%elem_of_cons; [now rewrite Ho | now apply Hdom].
        -- split; [|exact Hnd].
           intros Hin. apply elem_of_map in Hin as (t' & Heq & Ht').
           apply (Hseen t' Ht'). rewrite <- Heq.
           apply elem_of_union. left. now apply elem_of_singleton.
        -- intros t' [->|Ht']%elem_of_cons; [exact Hfresh|].
           intros Hin. apply (Hseen t' Ht'). apply elem_of_union. now right.
        -- intros t' o' [->|Ht']%elem_of_cons Ho'; [|now apply (Halign t' o')].
           rewrite Ho in Ho'. injection Ho' as <-. exact Hal.
      * intros (Hdom & (Hnotin & Hnd) & Hseen & Halign). split; [|split; [|split]].
        -- intros t' Ht'. apply Hdom. now right.
        -- exact Hnd.
        -- intros t' Ht' [Hin|Hin]%elem_of_union.
           ++ apply elem_of_singleton in Hin. apply Hnotin. rewrite <- Hin.
              apply elem_of_map. now exists t'.
           ++ apply (Hseen t'); [now right | exact Hin].
        -- intros t' o' Ht' Ho'. apply (Halign t' o'); [now right | exact Ho'].
    + split; [intros [seen' [=]]|].
      intros (Hdom & _ & Hseen & Halign). exfalso.
      destruct (Hdom t) as [o Ho]; [left|].
      assert (check_threshold by_name seen t
              = Ok ({[ threshold_metric_name t ]} ∪ seen)) as HOk.
      { apply check_threshold_Ok. exists o. split; [exact Ho|]. split; [|split].
        - apply Hseen. left.
        - apply (Halign t o); [left | exact Ho].
        - reflexivity. }
      congruence.
Qed.

Lemma check_thresholds_Ok (objectives : list Objective.single)
    (thresholds : list ObjectiveThreshold.t) :
  check_objective_thresholds_match_objectives (objectives_by_name objectives) thresholds
  = Ok tt <-> thresholds_accepted objectives thresholds.
Proof.
  unfold check_objective_thresholds_match_objectives, thresholds_accepted.
  pose proof (thresholds_loop_Ok (objectives_by_name objectives) thresholds ∅) as H.
  destruct (for_acc _ _ _) as [seen'|e]; cbn.
  - split; [intros _ | reflexivity].
    destruct (proj1 H) as (Hdom & Hnd & _ & Hal); [now eexists|].
    split; [|split; [exact Hnd | exact Hal]].
    intros t Ht. now apply objectives_by_name_dom, Hdom.
  - split; [discriminate|]. intros (Hdom & Hnd & Hal). exfalso.
    destruct (proj2 H) as [seen' [=]].
    split; [|split; [exact Hnd | split; [|exact Hal]]].
    + intros t Ht. now apply objectives_by_name_dom, Hdom.
    + intros t _. apply not_elem_of_empty.
Qed.

Lemma check_thresholds_cases (objectives : list Objective.single)
    (thresholds : list ObjectiveThreshold.t) :
  let outcome :=
    check_objective_thresholds_match_objectives (objectives_by_name objectives) thresholds in
  (outcome = Ok tt /\ thresholds_accepted objectives thresholds) \/
  (exists msg, outcome = Raise (UserInputError msg)) /\
    ~ thresholds_accepted objectives thresholds.
Proof.
  intros outcome. pose proof (check_thresholds_Ok objectives thresholds) as H.
  fold outcome in H. destruct outcome as [[]|e] eqn:Hout.
  - left. split; [reflexivity | now apply H].
  - right. split; [|intros Hacc; apply H in Hacc; discriminate].
    unfold outcome, check_objective_thresholds_match_objectives in Hout.
    destruct (for_acc _ _ _) as [seen'|e'] eqn:Hloop; cbn in Hout; [discriminate|].
    injection Hout as <-.
    destruct (thresholds_loop_Raise _ _ _ _ Hloop) as [msg ->]. now exists msg.
Qed.

Lemma moo_validate_multi (objectives : list Objective.single)
    (l : option (list OutcomeConstraint.t))
    (thresholds : option (list ObjectiveThreshold.t))
    (risk_measure : option RiskMeasure.t) :
  MultiObjectiveOptimizationConfig._validate_transformed_optimization_config
    (Objective.MultiObjective objectives) l thresholds risk_measure
  = (check_objective_thresholds_match_objectives
       (objectives_by_name objectives) (default [] thresholds);;
     OptimizationConfig._validate_outcome_constraints
       (map Objective.metric objectives) (default [] l)).
Proof. reflexivity. Qed.

Lemma moo_set_objective_thresholds_run (thresholds : list ObjectiveThreshold.t)
    (self : MultiObjectiveOptimizationConfig.t) :
  MultiObjectiveOptimizationConfig.set_objective_thresholds thresholds self =
  validated_update
    (MultiObjectiveOptimizationConfig._validate_transformed_optimization_config
       (MultiObjectiveOptimizationConfig._objective self) None (Some thresholds)
       (MultiObjectiveOptimizationConfig.risk_measure self))
    self
    {| MultiObjectiveOptimizationConfig._objective :=
         MultiObjectiveOptimizationConfig._objective self;
       MultiObjectiveOptimizationConfig._outcome_constraints :=
         MultiObjectiveOptimizationConfig._outcome_constraints self;
       MultiObjectiveOptimizationConfig._objective_thresholds := thresholds;
       MultiObjectiveOptimizationConfig.risk_measure :=
         MultiObjectiveOptimizationConfig.risk_measure self |}.
Proof.
  unfold MultiObjectiveOptimizationConfig.set_objective_thresholds, mbind, method_bind,
    m_bind, m_read, m_call, m_assign, MultiObjectiveOptimizationConfig.objective,
    validated_update.
  now destruct
    (MultiObjectiveOptimizationConfig._validate_transformed_optimization_config _ _ _ _).
Qed.

Lemma moo_set_outcome_constraints_run (l : list OutcomeConstraint.t)
    (self : MultiObjectiveOptimizationConfig.t) :
  MultiObjectiveOptimizationConfig.set_outcome_constraints l self =
  validated_update
    (MultiObjectiveOptimizationConfig._validate_transformed_optimization_config
       (MultiObjectiveOptimizationConfig._objective self) (Some l) None
       (MultiObjectiveOptimizationConfig.risk_measure self))
    self
    {| MultiObjectiveOptimizationConfig._objective :=
         MultiObjectiveOptimizationConfig._objective self;
       MultiObjectiveOptimizationConfig._outcome_constraints := l;
       MultiObjectiveOptimizationConfig._objective_thresholds :=
         MultiObjectiveOptimizationConfig._objective_thresholds self;
       MultiObjectiveOptimizationConfig.risk_measure :=
         MultiObjectiveOptimizationConfig.risk_measure self |}.
Proof.
  unfold MultiObjectiveOptimizationConfig.set_outcome_constraints, mbind, method_bind,
    m_bind, m_read, m_call, m_assign, MultiObjectiveOptimizationConfig.objective,
    validated_update.
  now destruct
    (MultiObjectiveOptimizationConfig._validate_transformed_optimization_config _ _ _ _).
Qed.

Lemma moo_set_objective_run (objective : Objective.t)
    (self : MultiObjectiveOptimizationConfig.t) :
  MultiObjectiveOptimizationConfig.set_objective objective self =
  validated_update
    (MultiObjectiveOptimizationConfig._validate_transformed_optimization_config
       objective
       (Some (MultiObjectiveOptimizationConfig._outcome_constraints self))
       (Some (MultiObjectiveOptimizationConfig._objective_thresholds self))
       (MultiObjectiveOptimizationConfig.risk_measure self))
    self
    {| MultiObjectiveOptimizationConfig._objective := objective;
       MultiObjectiveOptimizationConfig._outcome_constraints :=
         MultiObjectiveOptimizationConfig._outcome_constraints self;
       MultiObjectiveOptimizationConfig._objective_thresholds :=
         MultiObjectiveOptimizationConfig._objective_thresholds self;
       MultiObjectiveOptimizationConfig.risk_measure :=
         MultiObjectiveOptimizationConfig.risk_measure self |}.
Proof.
  unfold MultiObjectiveOptimizationConfig.set_objective, mbind, method_bind,
    m_bind, m_read, m_call, m_assign, MultiObjectiveOptimizationConfig.outcome_constraints,
    MultiObjectiveOptimizationConfig.objective_thresholds, validated_update.
  now destruct
    (MultiObjectiveOptimizationConfig._validate_transformed_optimization_config _ _ _ _).
Qed.

(** With objectives on distinct metrics, the objective [objectives_by_name]
    holds for a name is the objective on that metric. *)
Lemma objectives_by_name_from_lookup (objectives : list Objective.single)
    (d : gmap string Objective.single) (n : string) (o : Objective.single) :
  NoDup (map objective_metric_name objectives) ->
  foldl (fun d obj => <[ Metric.name (Objective.metric obj) := obj ]> d) d objectives !! n
  = Some o <->
  (o ∈ objectives /\ objective_metric_name o = n) \/
  ((n ∉ map objective_metric_name objectives) /\ d !! n = Some o).
Proof.
  revert d; induction objectives as [|a objectives IH]; intros d Hnd; cbn.
  - split; [intros H; right; split; [apply not_elem_of_nil | exact H]|].
    intros [[H _]|[_ H]]; [now apply elem_of_nil in H | exact H].
  - apply NoDup_cons in Hnd as [Ha Hnd]. rewrite (IH _ Hnd).
    rewrite lookup_insert. fold (objective_metric_name a).
    rewrite elem_of_cons, not_elem_of_cons. split.
    + intros [[Ho Hn]|[Hn Hl]]; [left; split; [now right | exact Hn]|].
      case_decide as Heq.
      * injection Hl as <-. left. split; [now left | exact Heq].
      * right. split; [split; [congruence | exact Hn] | exact Hl].
    + intros [[[->|Ho] Hn]|[[Hne Hn] Hl]].
      * right. split; [now rewrite <- Hn|]. now rewrite decide_True.
      * left. now split.
      * right. split; [exact Hn|]. now rewrite decide_False by congruence.
Qed.

Lemma objectives_by_name_lookup (objectives : list Objective.single) (n : string)
    (o : Objective.single) :
  NoDup (map objective_metric_name objectives) ->
  objectives_by_name objectives !! n = Some o <->
  o ∈ objectives /\ objective_metric_name o = n.
Proof.
  intros Hnd. unfold objectives_by_name.
  rewrite (objectives_by_name_from_lookup _ _ _ _ Hnd), lookup_empty.
  split; [intros [H|[_ [=]]]; exact H | now left].
Qed.

(** C3. On a multi-objective configuration whose objective is a
    [MultiObjective], the thresholds setter accepts a list exactly when every
    threshold is on an objective metric, no two are on the same metric and
    each has operator LEQ exactly when the objective on its metric is
    minimized; the constructor accepts it exactly when, besides, the outcome
    constraints validate (always, when there are none); a list that breaks
    the rule raises a [UserInputError], and the setter then leaves the object
    as it was. *)
Theorem objective_thresholds_accepted_iff (objectives : list Objective.single)
    (thresholds : list ObjectiveThreshold.t) :
  (forall self,
     MultiObjectiveOptimizationConfig._objective self
     = Objective.MultiObjective objectives ->
     (fst (MultiObjectiveOptimizationConfig.set_objective_thresholds thresholds self)
      = Ok tt <-> thresholds_accepted objectives thresholds) /\
     (~ thresholds_accepted objectives thresholds ->
      exists msg,
        MultiObjectiveOptimizationConfig.set_objective_thresholds thresholds self
        = (Raise (UserInputError msg), self))) /\
  (forall l risk_measure,
     (exists cfg,
        MultiObjectiveOptimizationConfig.__init__ (Objective.MultiObjective objectives)
          l (Some thresholds) risk_measure = Ok cfg) <->
     thresholds_accepted objectives thresholds /\
     OptimizationConfig._validate_outcome_constraints
       (map Objective.metric objectives) (default [] l) = Ok tt) /\
  (forall risk_measure,
     (exists cfg,
        MultiObjectiveOptimizationConfig.__init__ (Objective.MultiObjective objectives)
          None (Some thresholds) risk_measure = Ok cfg) <->
     thresholds_accepted objectives thresholds) /\
  (forall l risk_measure,
     ~ thresholds_accepted objectives thresholds ->
     exists msg,
       MultiObjectiveOptimizationConfig.__init__ (Objective.MultiObjective objectives)
         l (Some thresholds) risk_measure = Raise (UserInputError msg)) /\
  (NoDup (map objective_metric_name objectives) ->
   forall n o, objectives_by_name objectives !! n = Some o <->
               o ∈ objectives /\ objective_metric_name o = n).
Proof.
  assert (forall l rm,
    MultiObjectiveOptimizationConfig._validate_transformed_optimization_config
      (Objective.MultiObjective objectives) l (Some thresholds) rm = Ok tt <->
    thresholds_accepted objectives thresholds /\
    OptimizationConfig._validate_outcome_constraints
      (map Objective.metric objectives) (default [] l) = Ok tt) as Hval.
  { intros l rm. rewrite moo_validate_multi. cbn [from_option id].
    pose proof (check_thresholds_cases objectives thresholds) as Hc. cbv zeta in Hc.
    destruct Hc as [[-> Hacc]|[[msg ->] Hrej]]; cbn.
    - tauto.
    - split; [discriminate | tauto]. }
  assert (forall l rm, ~ thresholds_accepted objectives thresholds -> exists msg,
    MultiObjectiveOptimizationConfig._validate_transformed_optimization_config
      (Objective.MultiObjective objectives) l (Some thresholds) rm
    = Raise (UserInputError msg)) as Hrej.
  { intros l rm Hno. rewrite moo_validate_multi. cbn [from_option id].
    pose proof (check_thresholds_cases objectives thresholds) as Hc. cbv zeta in Hc.
    destruct Hc as [[_ Hacc]|[[msg ->] _]]; [contradiction | now exists msg]. }
  split; [|split; [|split; [|split]]].
  - intros self Hobj. rewrite moo_set_objective_thresholds_run, Hobj. split.
    + pose proof (Hval None (MultiObjectiveOptimizationConfig.risk_measure self)) as H.
      cbn [from_option id] in H. rewrite validate_outcome_constraints_nil in H.
      unfold validated_update.
      destruct (MultiObjectiveOptimizationConfig._validate_transformed_optimization_config
                  _ _ _ _) as [[]|e]; cbn.
      * split; [intros _; now apply H | reflexivity].
      * split; [discriminate|]. intros Hacc.
        discriminate (proj2 H (conj Hacc eq_refl)).
    + intros Hno.
      destruct (Hrej None (MultiObjectiveOptimizationConfig.risk_measure self) Hno)
        as [msg ->]. now exists msg.
  - intros l rm. rewrite moo_init_run. cbn [from_option id].
    pose proof (Hval (Some (default [] l)) rm) as H. cbn [from_option id] in H.
    destruct (MultiObjectiveOptimizationConfig._validate_transformed_optimization_config
                _ _ _ _) as [[]|e]; cbn.
    + split; [intros _; now apply H | intros _; eexists; reflexivity].
    + split; [intros [cfg [=]]|]. intros Hacc. discriminate (proj2 H Hacc).
  - intros rm. rewrite moo_init_run. cbn [from_option id].
    pose proof (Hval (Some []) rm) as H. cbn [from_option id] in H.
    rewrite validate_outcome_constraints_nil in H.
    destruct (MultiObjectiveOptimizationConfig._validate_transformed_optimization_config
                _ _ _ _) as [[]|e]; cbn.
    + split; [intros _; now apply H | intros _; eexists; reflexivity].
    + split; [intros [cfg [=]]|]. intros Hacc.
      discriminate (proj2 H (conj Hacc eq_refl)).
  - intros l rm Hno. rewrite moo_init_run. cbn [from_option id].
    destruct (Hrej (Some (default [] l)) rm Hno) as [msg ->]. now exists msg.
  - intros Hnd n o. now apply objectives_by_name_lookup.
Qed.

Lemma objective_thresholds_accepted_iff_witness :
  fst (MultiObjectiveOptimizationConfig.set_objective_thresholds
         [foo_at_most_2; bar_at_most_3] two_objectives) = Ok tt <->
  thresholds_accepted [Objective.mk foo true; minimize_bar] [foo_at_most_2; bar_at_most_3].
Proof.
  apply (proj1 (objective_thresholds_accepted_iff
                  [Objective.mk foo true; minimize_bar] [foo_at_most_2; bar_at_most_3])
               two_objectives).
  reflexivity.
Defined.

(** * Validation before assignment *)

Lemma moo_valid_parts (self : MultiObjectiveOptimizationConfig.t) :
  moo_valid self ->
  OptimizationConfig._validate_outcome_constraints
    (Objective.get_unconstrainable_metrics
       (MultiObjectiveOptimizationConfig._objective self))
    (MultiObjectiveOptimizationConfig._outcome_constraints self) = Ok tt /\
  forall objectives,
    MultiObjectiveOptimizationConfig._objective self
    = Objective.MultiObjective objectives ->
    check_objective_thresholds_match_objectives (objectives_by_name objectives)
      (MultiObjectiveOptimizationConfig._objective_thresholds self) = Ok tt.
Proof.
  unfold moo_valid, moo_validation.
  destruct (MultiObjectiveOptimizationConfig._objective self)
    as [o|objectives|metrics weights minimize]; intros H.
  - discriminate.
  - rewrite moo_validate_multi in H. cbn [from_option id] in H.
    destruct (check_objective_thresholds_match_objectives
                (objectives_by_name objectives)
                (MultiObjectiveOptimizationConfig._objective_thresholds self))
      as [[]|e] eqn:Hc; cbn in H; [|discriminate].
    split; [exact H|]. intros ? [= <-]. exact Hc.
  - split; [exact H | discriminate].
Qed.

Lemma moo_partial_outcome_constraints (self : MultiObjectiveOptimizationConfig.t)
    (l : list OutcomeConstraint.t) :
  moo_valid self ->
  MultiObjectiveOptimizationConfig._validate_transformed_optimization_config
    (MultiObjectiveOptimizationConfig._objective self) (Some l) None
    (MultiObjectiveOptimizationConfig.risk_measure self)
  = MultiObjectiveOptimizationConfig._validate_transformed_optimization_config
      (MultiObjectiveOptimizationConfig._objective self) (Some l)
      (Some (MultiObjectiveOptimizationConfig._objective_thresholds self))
      (MultiObjectiveOptimizationConfig.risk_measure self).
Proof.
  intros Hv. destruct (moo_valid_parts self Hv) as [_ Hth].
  destruct (MultiObjectiveOptimizationConfig._objective self)
    as [o|objectives|metrics weights minimize]; try reflexivity.
  rewrite !moo_validate_multi. cbn [from_option id].
  now rewrite (Hth objectives eq_refl).
Qed.

Lemma moo_partial_thresholds (self : MultiObjectiveOptimizationConfig.t)
    (thresholds : list ObjectiveThreshold.t) :
  moo_valid self ->
  MultiObjectiveOptimizationConfig._validate_transformed_optimization_config
    (MultiObjectiveOptimizationConfig._objective self) None (Some thresholds)
    (MultiObjectiveOptimizationConfig.risk_measure self)
  = MultiObjectiveOptimizationConfig._validate_transformed_optimization_config
      (MultiObjectiveOptimizationConfig._objective self)
      (Some (MultiObjectiveOptimizationConfig._outcome_constraints self))
      (Some thresholds)
      (MultiObjectiveOptimizationConfig.risk_measure self).
Proof.
  intros Hv. destruct (moo_valid_parts self Hv) as [Hoc _].
  unfold MultiObjectiveOptimizationConfig._validate_transformed_optimization_config.
  destruct (negb _); [reflexivity|]. cbn [from_option id].
  now rewrite Hoc, validate_outcome_constraints_nil.
Qed.

Lemma validated_update_keeps {S : Type} (P : S -> Prop) (validation : result unit)
    (self updated : S) :
  P self -> (validation = Ok tt -> P updated) ->
  P (snd (validated_update validation self updated)).
Proof.
  intros Hself Hupd. destruct validation as [[]|e]; cbn; [now apply Hupd | exact Hself].
Qed.

Lemma validated_new_valid {S : Type} (validation : S -> result unit) (new cfg : S) :
  validated_new validation new = Ok cfg -> validation cfg = Ok tt.
Proof.
  unfold validated_new. destruct (validation new) as [[]|e] eqn:Hv; [|discriminate].
  now intros [= <-].
Qed.

Lemma plain_init_validated (objective : Objective.t) (l : option (list Constraint))
    (risk_measure : option RiskMeasure.t) :
  OptimizationConfig.__init__ objective l risk_measure
  = validated_new config_validation
      {| OptimizationConfig._objective := objective;
         OptimizationConfig._outcome_constraints := default [] l;
         OptimizationConfig.risk_measure := risk_measure |}.
Proof. apply plain_init_run. Qed.

Lemma moo_init_validated (objective : Objective.t)
    (l : option (list OutcomeConstraint.t))
    (thresholds : option (list ObjectiveThreshold.t))
    (risk_measure : option RiskMeasure.t) :
  MultiObjectiveOptimizationConfig.__init__ objective l thresholds risk_measure
  = validated_new moo_validation
      {| MultiObjectiveOptimizationConfig._objective := objective;
         MultiObjectiveOptimizationConfig._outcome_constraints := default [] l;
         MultiObjectiveOptimizationConfig._objective_thresholds := default [] thresholds;
         MultiObjectiveOptimizationConfig.risk_measure := risk_measure |}.
Proof. apply moo_init_run. Qed.

(** C4. Every constructor returns the new object if its full validation
    passes and raises otherwise; every setter of a plain configuration, and
    the objective setter of a multi-objective one, runs the full validation of
    the object with the new value, stores the value if it passes and otherwise
    raises with the object unchanged. The outcome-constraint and threshold
    setters of a multi-objective configuration validate with the other list
    left out; they too store or leave the object unchanged, and on a valid
    object their outcome is that of the full validation. Constructed objects
    are valid and every setter keeps an object valid. *)
Theorem validation_before_assignment :
  (forall objective l risk_measure,
     OptimizationConfig.__init__ objective l risk_measure
     = validated_new config_validation
         {| OptimizationConfig._objective := objective;
            OptimizationConfig._outcome_constraints := default [] l;
            OptimizationConfig.risk_measure := risk_measure |}) /\
  (forall objective self,
     OptimizationConfig.set_objective objective self
     = validated_update (config_validation (with_objective objective self))
         self (with_objective objective self)) /\
  (forall l self,
     OptimizationConfig.set_outcome_constraints l self
     = validated_update (config_validation (with_outcome_constraints l self))
         self (with_outcome_constraints l self)) /\
  (forall objective l thresholds risk_measure,
     MultiObjectiveOptimizationConfig.__init__ objective l thresholds risk_measure
     = validated_new moo_validation
         {| MultiObjectiveOptimizationConfig._objective := objective;
            MultiObjectiveOptimizationConfig._outcome_constraints := default [] l;
            MultiObjectiveOptimizationConfig._objective_thresholds :=
              default [] thresholds;
            MultiObjectiveOptimizationConfig.risk_measure := risk_measure |}) /\
  (forall objective self,
     MultiObjectiveOptimizationConfig.set_objective objective self
     = validated_update (moo_validation (moo_with_objective objective self))
         self (moo_with_objective objective self)) /\
  (forall l self,
     MultiObjectiveOptimizationConfig.set_outcome_constraints l self
     = validated_update
         (MultiObjectiveOptimizationConfig._validate_transformed_optimization_config
            (MultiObjectiveOptimizationConfig._objective self) (Some l) None
            (MultiObjectiveOptimizationConfig.risk_measure self))
         self (moo_with_outcome_constraints l self)) /\
  (forall thresholds self,
     MultiObjectiveOptimizationConfig.set_objective_thresholds thresholds self
     = validated_update
         (MultiObjectiveOptimizationConfig._validate_transformed_optimization_config
            (MultiObjectiveOptimizationConfig._objective self) None (Some thresholds)
            (MultiObjectiveOptimizationConfig.risk_measure self))
         self (moo_with_objective_thresholds thresholds self)) /\
  (forall l self, moo_valid self ->
     MultiObjectiveOptimizationConfig.set_outcome_constraints l self
     = validated_update (moo_validation (moo_with_outcome_constraints l self))
         self (moo_with_outcome_constraints l self)) /\
  (forall thresholds self, moo_valid self ->
     MultiObjectiveOptimizationConfig.set_objective_thresholds thresholds self
     = validated_update (moo_validation (moo_with_objective_thresholds thresholds self))
         self (moo_with_objective_thresholds thresholds self)) /\
  (forall objective l risk_measure cfg,
     OptimizationConfig.__init__ objective l risk_measure = Ok cfg -> config_valid cfg) /\
  (forall objective l thresholds risk_measure cfg,
     MultiObjectiveOptimizationConfig.__init__ objective l thresholds risk_measure = Ok cfg ->
     moo_valid cfg) /\
  (forall self, config_valid self ->
     (forall objective,
        config_valid (snd (OptimizationConfig.set_objective objective self))) /\
     (forall l,
        config_valid (snd (OptimizationConfig.set_outcome_constraints l self)))) /\
  (forall self, moo_valid self ->
     (forall objective,
        moo_valid (snd (MultiObjectiveOptimizationConfig.set_objective objective self))) /\
     (forall l,
        moo_valid (snd (MultiObjectiveOptimizationConfig.set_outcome_constraints l self))) /\
     (forall thresholds,
        moo_valid
          (snd (MultiObjectiveOptimizationConfig.set_objective_thresholds
                  thresholds self)))).
Proof.
  assert (forall l self, moo_valid self ->
     MultiObjectiveOptimizationConfig.set_outcome_constraints l self
     = validated_update (moo_validation (moo_with_outcome_constraints l self))
         self (moo_with_outcome_constraints l self)) as Hoc.
  { intros l self Hv. rewrite moo_set_outcome_constraints_run.
    now rewrite (moo_partial_outcome_constraints self l Hv). }
  assert (forall thresholds self, moo_valid self ->
     MultiObjectiveOptimizationConfig.set_objective_thresholds thresholds self
     = validated_update (moo_validation (moo_with_objective_thresholds thresholds self))
         self (moo_with_objective_thresholds thresholds self)) as Hth.
  { intros thresholds self Hv. rewrite moo_set_objective_thresholds_run.
    now rewrite (moo_partial_thresholds self thresholds Hv). }
  repeat match goal with |- _ /\ _ => split end.
  - exact plain_init_validated.
  - exact plain_set_objective_run.
  - exact plain_set_outcome_constraints_run.
  - exact moo_init_validated.
  - exact moo_set_objective_run.
  - exact moo_set_outcome_constraints_run.
  - exact moo_set_objective_thresholds_run.
  - exact Hoc.
  - exact Hth.
  - intros objective l rm cfg. rewrite plain_init_validated.
    apply validated_new_valid.
  - intros objective l thresholds rm cfg. rewrite moo_init_validated.
    apply validated_new_valid.
  - intros self Hv. split.
    + intros objective. rewrite plain_set_objective_run.
      now apply (validated_update_keeps config_valid).
    + intros l. rewrite plain_set_outcome_constraints_run.
      now apply (validated_update_keeps config_valid).
  - intros self Hv. split; [|split].
    + intros objective. rewrite moo_set_objective_run.
      now apply (validated_update_keeps moo_valid).
    + intros l. rewrite (Hoc l self Hv).
      now apply (validated_update_keeps moo_valid).
    + intros thresholds. rewrite (Hth thresholds self Hv).
      now apply (validated_update_keeps moo_valid).
Qed.

(** On the valid two-objective configuration: a second threshold on foo is
    refused and the object is unchanged. *)
Lemma validation_before_assignment_witness :
  moo_valid two_objectives /\
  MultiObjectiveOptimizationConfig.set_objective_thresholds
    [foo_at_most_2; foo_at_most_2] two_objectives
  = validated_update
      (moo_validation
         (moo_with_objective_thresholds [foo_at_most_2; foo_at_most_2] two_objectives))
      two_objectives
      (moo_with_objective_thresholds [foo_at_most_2; foo_at_most_2] two_objectives) /\
  snd (MultiObjectiveOptimizationConfig.set_objective_thresholds
         [foo_at_most_2; foo_at_most_2] two_objectives) = two_objectives.
Proof.
  assert (moo_valid two_objectives) as Hv by (vm_compute; reflexivity).
  split; [exact Hv|]. split.
  - apply (proj1 (proj2 (proj2 (proj2 (proj2 (proj2 (proj2 (proj2 (proj2
             validation_before_assignment))))))))
           [foo_at_most_2; foo_at_most_2] two_objectives Hv).
  - vm_compute. reflexivity.
Defined.

(** * Resuming a generator *)

Section Resumption.
Context {point Bounds LinearConstraints FixedFeatures : Type} `{EqDecision point}.
Variable sequence : Z -> nat -> point.
Variable place : Bounds -> FixedFeatures -> point -> point.
Variable satisfies : LinearConstraints -> point -> bool.

Section Sampling.
Variables (seed : Z) (dedup : bool) (candidate : point -> point) (feasible : point -> bool).

Local Notation "'sample'" :=
  (SobolGenerator.rejection_sample sequence seed dedup candidate feasible).

Lemma sample_none (draws position : nat) (existing : list point) :
  sample draws position 0 existing = Ok ([], position).
Proof. now destruct draws. Qed.

Lemma sample_step (draws position n : nat) (existing : list point) :
  sample (S draws) position (S n) existing
  = if feasible (candidate (sequence seed position))
       && negb (dedup && bool_decide (candidate (sequence seed position) ∈ existing))
    then kept ← sample draws (S position) n
                   (existing ++ [candidate (sequence seed position)]);
         Ok (candidate (sequence seed position) :: fst kept, snd kept)
    else sample draws (S position) (S n) existing.
Proof. reflexivity. Qed.

(** More draws allowed change nothing for a sampling that had enough. *)
Lemma rejection_sample_more_draws (draws draws' position n : nat)
    (existing : list point) (kept : list point * nat) :
  draws <= draws' ->
  sample draws position n existing = Ok kept ->
  sample draws' position n existing = Ok kept.
Proof.
  revert draws' position n existing kept.
  induction draws as [|draws IH]; intros draws' position n existing kept Hle.
  - destruct n; [now rewrite !sample_none | discriminate].
  - destruct n as [|n]; [now rewrite !sample_none|].
    destruct draws' as [|draws']; [lia|]. rewrite !sample_step.
    destruct (feasible _ && negb (dedup && bool_decide (_ ∈ existing))).
    + destruct (sample draws (S position) n _) as [k|e] eqn:Hk; [|discriminate].
      rewrite (IH draws' _ _ _ k) by (lia || exact Hk). trivial.
    + apply IH. lia.
Qed.

Lemma sample_length (draws position n : nat) (existing : list point)
    (kept : list point * nat) :
  sample draws position n existing = Ok kept -> length (fst kept) = n.
Proof.
  revert position n existing kept.
  induction draws as [|draws IH]; intros position n existing kept.
  - destruct n; [rewrite sample_none; now intros [= <-] | discriminate].
  - destruct n as [|n]; [rewrite sample_none; now intros [= <-]|].
    rewrite sample_step.
    destruct (feasible _ && negb (dedup && bool_decide (_ ∈ existing))); [|apply IH].
    destruct (sample draws (S position) n _) as [k|e] eqn:Hk; [|discriminate].
    intros [= <-]. cbn [fst length]. f_equal. exact (IH _ _ _ _ Hk).
Qed.

(** A sampling of [J + M] points is a sampling of [J] points followed by one
    of [M] points that starts where the first ended and is given its points. *)
Lemma rejection_sample_split (draws J M position : nat) (existing : list point)
    (kept : list point * nat) :
  sample draws position (J + M) existing = Ok kept ->
  exists first second,
    sample draws position J existing = Ok first /\
    sample draws (snd first) M (existing ++ fst first) = Ok second /\
    kept = (fst first ++ fst second, snd second).
Proof.
  revert J position existing kept.
  induction draws as [|draws IH]; intros J position existing kept.
  - destruct J as [|J]; [|discriminate].
    intros Hk. exists ([], position), kept. rewrite sample_none. cbn [fst snd app].
    rewrite app_nil_r. split; [reflexivity|]. split; [exact Hk | now destruct kept].
  - destruct J as [|J].
    + intros Hk. exists ([], position), kept. rewrite sample_none. cbn [fst snd app].
      rewrite app_nil_r. split; [reflexivity|]. split; [exact Hk | now destruct kept].
    + change (S J + M) with (S (J + M)). rewrite !sample_step.
      destruct (feasible _ && negb (dedup && bool_decide (_ ∈ existing))).
      * destruct (sample draws (S position) (J + M) _) as [k|e] eqn:Hk; [|discriminate].
        intros [= <-].
        destruct (IH _ _ _ _ Hk) as (first & second & H1 & H2 & ->).
        exists (candidate (sequence seed position) :: fst first, snd first), second.
        rewrite H1. cbn [fst snd mbind result_bind]. split; [reflexivity|].
        split; [|reflexivity].
        apply (rejection_sample_more_draws draws); [lia|].
        now rewrite <- app_assoc in H2.
      * intros Hk. destruct (IH (S J) _ _ _ Hk) as (first & second & H1 & H2 & ->).
        exists first, second. split; [exact H1|]. split; [|reflexivity].
        apply (rejection_sample_more_draws draws); [lia | exact H2].
Qed.

End Sampling.


End Resumption.


(** * Further properties of the sources *)

(** [validate_constraint_parameters] accepts a parameter list exactly when
    the names are pairwise distinct and every parameter is a range parameter
    that is not on a log scale. *)
Theorem constraint_parameters_accepted_iff (parameters : list AxParameter.t) :
  validate_constraint_parameters parameters = Ok tt <->
  NoDup (map AxParameter.name parameters) /\
  forall p, p ∈ parameters -> linear_parameter p.
Proof. apply validate_constraint_parameters_Ok. Qed.

(** The groups [groupby] finds in the [sorted] constraints are exactly the
    non-empty restrictions of the list to one metric name, each in the order
    the caller gave (the sort is stable). *)
Theorem sorted_groups_are_the_constraints_on_each_name
    (l : list OutcomeConstraint.t) (metric_name : string)
    (group : list OutcomeConstraint.t) :
  (metric_name, group) ∈ groupby get_metric_name (sorted get_metric_name l) <->
  group = constraints_on metric_name l /\ group <> [].
Proof. apply groupby_sorted_groups. Qed.

(** An order constraint clones to itself. *)
Theorem order_constraint_clone_same (lower upper : AxParameter.t)
    (c : OrderConstraint.t) :
  OrderConstraint.__init__ lower upper = Ok c -> OrderConstraint.clone c = Ok c.
Proof.
  unfold OrderConstraint.clone, OrderConstraint.__init__,
    OrderConstraint.lower_parameter, AxParameter.clone.
  destruct (validate_constraint_parameters [lower; upper]) as [[]|e] eqn:Hv; cbn;
    [|discriminate].
  intros [= <-]. cbn. now rewrite Hv.
Qed.

Lemma order_constraint_clone_same_witness :
  OrderConstraint.clone x1_below_x2 = Ok x1_below_x2.
Proof.
  apply (order_constraint_clone_same x1 x2 x1_below_x2). vm_compute. reflexivity.
Defined.

(** * Binary64: right units, subtraction, and the sign of zero *)

Section Binary64More.
Local Open Scope Z_scope.

Lemma SF64mul_unit_r (s s' : bool) (m : positive) (e : Z) :
  bounded prec emax m e = true ->
  SF64mul (S754_finite s' m e) (S754_finite s 4503599627370496 (-52))
  = S754_finite (xorb s' s) m e.
Proof.
  intros Hb. rewrite xorb_comm, <- (SF64mul_unit s s' m e Hb).
  unfold SF64mul, SFmul. now rewrite Pos.mul_comm, Z.add_comm, xorb_comm.
Qed.

Lemma mul_unit_r_spec (w x : float) (s : bool) :
  Prim2SF w = S754_finite s 4503599627370496 (-52) ->
  Prim2SF (x * w)%float = if s then SFopp (Prim2SF x) else Prim2SF x.
Proof.
  intros Hw. rewrite mul_spec, Hw.
  pose proof (Prim2SF_valid x) as Hv.
  destruct (Prim2SF x) as [s'|s'| |s' m e].
  - now destruct s, s'.
  - now destruct s, s'.
  - now destruct s.
  - rewrite SF64mul_unit_r by exact Hv. now destruct s, s'.
Qed.

Lemma float_mul_1_r (x : float) : (x * 1.0)%float = x.
Proof. apply Prim2SF_inj. now rewrite (mul_unit_r_spec _ x false). Qed.

Lemma float_mul_m1_r (x : float) : (x * (-1.0))%float = (- x)%float.
Proof.
  apply Prim2SF_inj. rewrite opp_spec. now rewrite (mul_unit_r_spec _ x true).
Qed.

Lemma SFadd_opp (x y : spec_float) : SF64add x (SFopp y) = SF64sub x y.
Proof.
  destruct x as [sx|sx| |sx mx ex], y as [sy|sy| |sy my ey]; cbn;
    try reflexivity; try (now destruct sx, sy).
Qed.

Lemma float_add_opp (x y : float) : (x + - y)%float = (x - y)%float.
Proof.
  apply Prim2SF_inj. now rewrite add_spec, opp_spec, sub_spec, SFadd_opp.
Qed.

(** Comparisons do not see the sign of a zero. *)
Lemma SFleb_zero (s s' : bool) (t : spec_float) :
  SFleb (S754_zero s) t = SFleb (S754_zero s') t.
Proof. now destruct t. Qed.

(** Starting a sum at 0 can only turn a first term -0 into +0, which a later
    subtraction and comparison do not see. *)
Lemma leb_zero_plus_minus (a b t : float) :
  (0 + a - b <=? t)%float = (a - b <=? t)%float.
Proof.
  rewrite !FloatAxioms.leb_spec, !sub_spec, add_spec.
  change (Prim2SF 0) with (S754_zero false).
  destruct (Prim2SF a) as [sa|sa| |sa ma ea]; try reflexivity.
  destruct (Prim2SF b) as [sb|sb| |sb mb eb]; try (now destruct sa).
  destruct sa, sb; cbn; apply SFleb_zero.
Qed.

End Binary64More.

(** * More on parameter constraints *)

Lemma for_acc_ext {A S : Type} (f g : S -> A -> result S) (acc : S) (xs : list A) :
  (forall acc x, x ∈ xs -> f acc x = g acc x) ->
  for_acc f acc xs = for_acc g acc xs.
Proof.
  revert acc; induction xs as [|x xs IH]; intros acc H; cbn; [reflexivity|].
  rewrite (H acc x) by left. destruct (g acc x) as [acc'|e]; cbn; [|reflexivity].
  apply IH. intros acc0 y Hy. apply H. now right.
Qed.

(** [check] looks at the values of the parameters the constraint names and
    at nothing else: two parameterizations that agree on those names get the
    same answer, or the same error, whatever the interpreter's [sum] is. *)
Theorem check_reads_only_its_parameters (py_sum : list float -> float) (C : Type)
    (H : ParameterConstraintLike C) (self : C)
    (parameter_dict parameter_dict' : gmap string number) :
  (forall name, name ∈ map fst (constraint_dict self) ->
     parameter_dict !! name = parameter_dict' !! name) ->
  check py_sum self parameter_dict = check py_sum self parameter_dict'.
Proof.
  intros Hagree. unfold check, for_each, weighted_terms.
  rewrite (for_acc_ext _ (fun _ parameter_name =>
    if bool_decide (parameter_name ∉ dom parameter_dict') then
      Raise (ValueError [Lit "`"; Lit parameter_name; Lit "` not present in param_dict."])
    else Ok tt)).
  - destruct (for_acc _ tt _) as [[]|e]; cbn; [|reflexivity].
    rewrite (for_map_ext _ (fun item =>
               v ← getitem parameter_dict' (fst item);
               x ← py_float v;
               Ok (x * snd item)%float)); [reflexivity|].
    intros item Hitem. unfold getitem. rewrite Hagree; [reflexivity|].
    apply elem_of_map. now exists item.
  - intros [] name Hname.
    assert (bool_decide (name ∉ dom parameter_dict)
            = bool_decide (name ∉ dom parameter_dict')) as ->; [|reflexivity].
    apply bool_decide_ext. now rewrite !not_elem_of_dom, (Hagree name Hname).
Qed.

Lemma check_reads_only_its_parameters_witness :
  check sum_left_to_right x1_below_x2 passing_values
  = check sum_left_to_right x1_below_x2 (<[ "x3" := PyInt 7 ]> passing_values).
Proof.
  apply (check_reads_only_its_parameters sum_left_to_right _ _ x1_below_x2).
  intros name Hname. vm_compute in Hname.
  apply elem_of_cons in Hname as [->|Hname]; [reflexivity|].
  apply elem_of_cons in Hname as [->|Hname]; [reflexivity|].
  now apply elem_of_nil in Hname.
Defined.

Lemma sum_terms_supplied (parameter_dict : gmap string number) (w : float)
    (adjust : float -> float) (parameters : list AxParameter.t) (values : list float) :
  (forall x, (x * w)%float = adjust x) ->
  Forall2 (fun p x => exists v, parameter_dict !! AxParameter.name p = Some v /\
                                py_float v = Ok x) parameters values ->
  terms_supplied parameter_dict
    (map (fun name => (name, w)) (map AxParameter.name parameters)) (map adjust values).
Proof.
  intros Hw. unfold terms_supplied. induction 1 as [|p x ps xs (v & Hv & Hx) _ IH]; cbn.
  - constructor.
  - constructor; [|exact IH]. exists v, x. cbn. now rewrite Hw.
Qed.

(** For a sum constraint built with bound [b] and values supplied for all its
    parameters, [check] returns whether the [sum] of the values is
    <= b + 1e-8 when it was built as an upper bound, and whether the [sum] of
    the negated values is <= -b + 1e-8 when built as a lower bound: the
    weights 1.0 and -1.0 and the stored bound round nothing. *)
Theorem sum_constraint_check (py_sum : list float -> float)
    (parameters : list AxParameter.t) (is_upper_bound : bool) (supplied : float)
    (c : SumConstraint.t) (parameter_dict : gmap string number) (values : list float) :
  SumConstraint.__init__ parameters is_upper_bound supplied = Ok c ->
  Forall2 (fun p x => exists v, parameter_dict !! AxParameter.name p = Some v /\
                                py_float v = Ok x) parameters values ->
  check py_sum c parameter_dict
  = Ok (if is_upper_bound
        then (py_sum values <=? supplied + 1e-8)%float
        else (py_sum (map (fun x => - x)%float values) <=? - supplied + 1e-8)%float).
Proof.
  intros Hinit Hvalues. apply sum_constraint_init_Ok in Hinit as [_ ->].
  destruct is_upper_bound.
  - rewrite (check_supplied py_sum _ parameter_dict (map (fun x => x) values)).
    + cbn [_bound SumConstraint_like SumConstraint._bound
           SumConstraint.inequality_weight_of].
      now rewrite map_id, float_mul_1_l.
    + apply sum_terms_supplied; [apply float_mul_1_r | exact Hvalues].
  - rewrite (check_supplied py_sum _ parameter_dict (map (fun x => - x)%float values)).
    + cbn [_bound SumConstraint_like SumConstraint._bound
           SumConstraint.inequality_weight_of].
      now rewrite float_mul_m1_l.
    + apply sum_terms_supplied; [apply float_mul_m1_r | exact Hvalues].
Qed.

Lemma sum_constraint_check_witness :
  check sum_left_to_right sum_at_least_5 {[ "x1" := PyInt 2; "x2" := PyFloat 4.0 ]}
  = Ok (sum_left_to_right (map (fun x => - x)%float [2.0; 4.0]) <=? - 5.0 + 1e-8)%float.
Proof.
  apply (sum_constraint_check sum_left_to_right [x1; x2] false 5.0%float sum_at_least_5).
  - vm_compute. reflexivity.
  - repeat constructor; eexists; (split; vm_compute; reflexivity).
Defined.

Lemma order_constraint_init_Ok (lower upper : AxParameter.t) (c : OrderConstraint.t) :
  OrderConstraint.__init__ lower upper = Ok c <->
  validate_constraint_parameters [lower; upper] = Ok tt /\
  c = {| OrderConstraint._lower_parameter := lower;
         OrderConstraint._upper_parameter := upper;
         OrderConstraint._bound := 0.0%float |}.
Proof.
  unfold OrderConstraint.__init__.
  destruct (validate_constraint_parameters [lower; upper]) as [[]|e]; cbn.
  - split; [intros [= <-]; now split | intros [_ ->]; reflexivity].
  - split; [discriminate | intros [[=] _]].
Qed.

Lemma order_constraint_dict (lower upper : AxParameter.t) (c : OrderConstraint.t) :
  OrderConstraint.__init__ lower upper = Ok c ->
  AxParameter.name lower <> AxParameter.name upper /\
  constraint_dict c
  = [(AxParameter.name lower, 1.0%float); (AxParameter.name upper, (-1.0)%float)].
Proof.
  intros H. apply order_constraint_init_Ok in H as [Hv ->].
  apply validate_constraint_parameters_Ok in Hv as [Hnd _]. cbn in Hnd.
  apply NoDup_cons in Hnd as [Hne _]. rewrite list_elem_of_singleton in Hne.
  split; [exact Hne|]. cbn.
  unfold OrderConstraint.constraint_dict, OrderConstraint.lower_parameter,
    OrderConstraint.upper_parameter; cbn.
  now destruct (String.eqb_spec (AxParameter.name lower) (AxParameter.name upper)).
Qed.

(** For an order constraint lower <= upper and a parameterization giving
    both values, the two terms that [check] hands to [sum] are lower and
    -upper, exactly; with the sum from left to right [check] returns whether
    lower - upper <= 1e-8 (binary64 subtraction and comparison). *)
Theorem order_constraint_check (py_sum : list float -> float)
    (lower upper : AxParameter.t) (c : OrderConstraint.t)
    (parameter_dict : gmap string number) (va vb : number) (a b : float) :
  OrderConstraint.__init__ lower upper = Ok c ->
  parameter_dict !! AxParameter.name lower = Some va ->
  parameter_dict !! AxParameter.name upper = Some vb ->
  py_float va = Ok a ->
  py_float vb = Ok b ->
  check py_sum c parameter_dict = Ok (py_sum [a; (- b)%float] <=? 1e-8)%float /\
  check sum_left_to_right c parameter_dict = Ok (a - b <=? 1e-8)%float.
Proof.
  intros Hinit Hva Hvb Ha Hb.
  destruct (order_constraint_dict _ _ _ Hinit) as [Hne Hd].
  assert (forall sum_ : list float -> float,
            check sum_ c parameter_dict = Ok (sum_ [a; (- b)%float] <=? 1e-8)%float)
    as Hcheck.
  { intros sum_.
    rewrite (check_supplied sum_ c parameter_dict [(a * 1.0)%float; (b * (-1.0))%float]).
    - apply order_constraint_init_Ok in Hinit as [_ ->].
      cbn [_bound OrderConstraint_like OrderConstraint._bound].
      now rewrite float_mul_1_r, float_mul_m1_r.
    - rewrite Hd. constructor; [now exists va, a|].
      constructor; [now exists vb, b | constructor]. }
  split; [apply Hcheck|]. rewrite Hcheck. unfold sum_left_to_right. cbn [foldl].
  rewrite float_add_opp. f_equal. apply leb_zero_plus_minus.
Qed.

Lemma order_constraint_check_witness :
  check sum_left_to_right x1_below_x2 failing_values
  = Ok (sum_left_to_right [1.9; (- 1.5)]%float <=? 1e-8)%float /\
  check sum_left_to_right x1_below_x2 failing_values = Ok (1.9 - 1.5 <=? 1e-8)%float.
Proof.
  apply (order_constraint_check sum_left_to_right x1 x2 x1_below_x2 failing_values
           (PyFloat 1.9) (PyFloat 1.5) 1.9%float 1.5%float);
    vm_compute; reflexivity.
Defined.

(** The text of a sum constraint shows the operator and the bound it was
    built with: "<=" and b for an upper bound, ">=" and b for a lower bound
    (the stored -b negated back). *)
Theorem sum_constraint_repr_shows_supplied_bound (parameters : list AxParameter.t)
    (is_upper_bound : bool) (supplied : float) (c : SumConstraint.t) :
  SumConstraint.__init__ parameters is_upper_bound supplied = Ok c ->
  SumConstraint_repr c
  = [Lit "SumConstraint(";
     Lit (String.concat " + " (map AxParameter.name parameters));
     Lit " "; Lit (if is_upper_bound then "<=" else ">="); Lit " ";
     Num supplied; Lit ")"].
Proof.
  intros H. apply sum_constraint_init_Ok in H as [_ ->].
  unfold SumConstraint_repr, SumConstraint.op; cbn.
  destruct is_upper_bound; cbn.
  - now rewrite float_mul_1_l.
  - now rewrite float_mul_m1_l, float_opp_involutive.
Qed.

Lemma sum_constraint_repr_shows_supplied_bound_witness :
  SumConstraint_repr sum_at_least_5
  = [Lit "SumConstraint("; Lit (String.concat " + " (map AxParameter.name [x1; x2]));
     Lit " "; Lit ">="; Lit " "; Num 5.0%float; Lit ")"].
Proof.
  apply (sum_constraint_repr_shows_supplied_bound [x1; x2] false 5.0%float sum_at_least_5).
  vm_compute. reflexivity.
Defined.

Lemma for_map_getitem_Raise (transformed_parameters : gmap string AxParameter.t)
    (parameters : list AxParameter.t) (e : exn) :
  for_map (fun p => getitem transformed_parameters (AxParameter.name p)) parameters
  = Raise e ->
  exists p, p ∈ parameters /\ e = KeyError (AxParameter.name p) /\
    transformed_parameters !! AxParameter.name p = None.
Proof.
  induction parameters as [|q parameters IH]; cbn; [discriminate|].
  destruct (getitem transformed_parameters (AxParameter.name q)) as [q'|e0] eqn:Hget;
    cbn.
  - destruct (for_map _ parameters) as [ys|e'] eqn:Hrest; cbn; [discriminate|].
    intros [= <-]. destruct (IH eq_refl) as (p0 & Hin & He & Hnone).
    exists p0. split; [now right | now split].
  - intros [= <-]. unfold getitem in Hget.
    destruct (transformed_parameters !! AxParameter.name q) eqn:Hq; [discriminate|].
    injection Hget as <-. exists q. split; [left | now split].
Qed.

(** Cloning a sum constraint onto transformed parameters is building it anew
    from the parameters found under the old names, with the direction and the
    bound it was first built with (the stored <=-form bound is converted
    back); the new constraint is validated like any other. *)
Theorem sum_constraint_onto_transformed_parameters (parameters : list AxParameter.t)
    (is_upper_bound : bool) (supplied : float) (c : SumConstraint.t)
    (transformed_parameters : gmap string AxParameter.t)
    (parameters' : list AxParameter.t) :
  SumConstraint.__init__ parameters is_upper_bound supplied = Ok c ->
  Forall2 (fun p p' => transformed_parameters !! AxParameter.name p = Some p')
          parameters parameters' ->
  SumConstraint_clone_with_transformed_parameters c transformed_parameters
  = SumConstraint.__init__ parameters' is_upper_bound supplied.
Proof.
  intros Hinit Hall. apply sum_constraint_init_Ok in Hinit as [_ ->].
  unfold SumConstraint_clone_with_transformed_parameters,
    SumConstraint._inequality_weight; cbn.
  rewrite (proj2 (for_map_Ok _ parameters parameters')).
  - cbn. now rewrite inequality_weight_twice.
  - eapply Forall2_impl; [exact Hall|]. intros q q' Hq. unfold getitem. now rewrite Hq.
Qed.

Lemma sum_constraint_onto_transformed_parameters_witness :
  SumConstraint_clone_with_transformed_parameters sum_at_least_5
    {[ "x1" := x1_unit; "x2" := x2_unit ]}
  = SumConstraint.__init__ [x1_unit; x2_unit] false 5.0%float.
Proof.
  apply (sum_constraint_onto_transformed_parameters [x1; x2] false 5.0%float
           sum_at_least_5 {[ "x1" := x1_unit; "x2" := x2_unit ]} [x1_unit; x2_unit]).
  - vm_compute. reflexivity.
  - repeat constructor.
Defined.

(** A parameter name with no entry among the transformed parameters makes
    the clone raise a KeyError for a missing name: for a sum constraint the
    first missing one, for an order constraint the lower parameter's before
    the upper's. No constraint is built. *)
Theorem transformed_parameter_missing :
  (forall (c : SumConstraint.t) (transformed_parameters : gmap string AxParameter.t),
     (exists p, p ∈ SumConstraint._parameters c /\
        transformed_parameters !! AxParameter.name p = None) ->
     exists p, p ∈ SumConstraint._parameters c /\
       transformed_parameters !! AxParameter.name p = None /\
       SumConstraint_clone_with_transformed_parameters c transformed_parameters
       = Raise (KeyError (AxParameter.name p))) /\
  (forall (c : OrderConstraint.t) (transformed_parameters : gmap string AxParameter.t),
     transformed_parameters !! AxParameter.name (OrderConstraint.lower_parameter c) = None ->
     OrderConstraint_clone_with_transformed_parameters c transformed_parameters
     = Raise (KeyError (AxParameter.name (OrderConstraint.lower_parameter c)))) /\
  (forall (c : OrderConstraint.t) (transformed_parameters : gmap string AxParameter.t),
     is_Some (transformed_parameters
                !! AxParameter.name (OrderConstraint.lower_parameter c)) ->
     transformed_parameters !! AxParameter.name (OrderConstraint.upper_parameter c) = None ->
     OrderConstraint_clone_with_transformed_parameters c transformed_parameters
     = Raise (KeyError (AxParameter.name (OrderConstraint.upper_parameter c)))).
Proof.
  split; [|split].
  - intros c tp (p & Hp & Hnone).
    unfold SumConstraint_clone_with_transformed_parameters.
    destruct (for_map _ (SumConstraint._parameters c)) as [ps'|e] eqn:Hmap.
    + exfalso. apply for_map_Ok in Hmap.
      apply list_elem_of_lookup in Hp as [i Hi].
      destruct (Forall2_lookup_l _ _ _ _ _ Hmap Hi) as (p' & _ & Hget).
      unfold getitem in Hget. now rewrite Hnone in Hget.
    + destruct (for_map_getitem_Raise _ _ _ Hmap) as (q & Hq & -> & Hqnone).
      exists q. now repeat split.
  - intros c tp Hnone. unfold OrderConstraint_clone_with_transformed_parameters, getitem.
    now rewrite Hnone.
  - intros c tp [l Hl] Hnone.
    unfold OrderConstraint_clone_with_transformed_parameters, getitem,
      OrderConstraint.upper_parameter in *.
    now rewrite Hl, Hnone.
Qed.

Lemma transformed_parameter_missing_witness :
  exists p, p ∈ SumConstraint._parameters sum_at_least_5 /\
    ({[ "x1" := x1_unit ]} : gmap string AxParameter.t) !! AxParameter.name p = None /\
    SumConstraint_clone_with_transformed_parameters sum_at_least_5 {[ "x1" := x1_unit ]}
    = Raise (KeyError (AxParameter.name p)).
Proof.
  apply (proj1 transformed_parameter_missing sum_at_least_5 {[ "x1" := x1_unit ]}).
  exists x2. split; [right; left | reflexivity].
Defined.

(** * Decoding stored parameter constraints *)

Lemma parameter_map_from_other (parameters : list AxParameter.t)
    (d : gmap string AxParameter.t) (n : string) :
  n ∉ map AxParameter.name parameters ->
  foldl (fun d p => <[ AxParameter.name p := p ]> d) d parameters !! n = d !! n.
Proof.
  revert d; induction parameters as [|a parameters IH]; intros d Hn; cbn; [reflexivity|].
  cbn in Hn. apply not_elem_of_cons in Hn as [Hne Hn].
  rewrite (IH _ Hn). now rewrite lookup_insert_ne by congruence.
Qed.

Lemma parameter_map_from_lookup (parameters : list AxParameter.t)
    (d : gmap string AxParameter.t) (p : AxParameter.t) :
  NoDup (map AxParameter.name parameters) -> p ∈ parameters ->
  foldl (fun d p => <[ AxParameter.name p := p ]> d) d parameters !! AxParameter.name p
  = Some p.
Proof.
  revert d; induction parameters as [|a parameters IH]; intros d Hnd Hp; cbn.
  - now apply elem_of_nil in Hp.
  - cbn in Hnd. apply NoDup_cons in Hnd as [Ha Hnd].
    apply elem_of_cons in Hp as [->|Hp].
    + rewrite (parameter_map_from_other _ _ _ Ha). apply lookup_insert_eq.
    + now apply IH.
Qed.

Lemma parameter_map_lookup (parameters : list AxParameter.t) (p : AxParameter.t) :
  NoDup (map AxParameter.name parameters) -> p ∈ parameters ->
  parameter_map parameters !! AxParameter.name p = Some p.
Proof. apply parameter_map_from_lookup. Qed.

Lemma next_named_found (parameters : list AxParameter.t) (p : AxParameter.t) :
  NoDup (map AxParameter.name parameters) -> p ∈ parameters ->
  next_named parameters (AxParameter.name p) = Decoded p.
Proof.
  unfold next_named. induction parameters as [|a parameters IH]; intros Hnd Hp.
  - now apply elem_of_nil in Hp.
  - cbn in Hnd. apply NoDup_cons in Hnd as [Ha Hnd]. cbn.
    apply elem_of_cons in Hp as [->|Hp].
    + now rewrite bool_decide_eq_true_2.
    + rewrite bool_decide_eq_false_2; [now apply IH|].
      intros Heq. apply Ha. rewrite Heq. apply elem_of_map. now exists p.
Qed.

Lemma next_named_missing (parameters : list AxParameter.t) (n : string) :
  n ∉ map AxParameter.name parameters ->
  next_named parameters n = DecodeRaise StopIteration.
Proof.
  unfold next_named. induction parameters as [|a parameters IH]; intros Hn; cbn.
  - reflexivity.
  - cbn in Hn. apply not_elem_of_cons in Hn as [Hne Hn].
    rewrite bool_decide_eq_false_2 by congruence. now apply IH.
Qed.

Lemma next_named_cases (parameters : list AxParameter.t) (n : string) :
  (exists p, next_named parameters n = Decoded p) \/
  next_named parameters n = DecodeRaise StopIteration.
Proof.
  unfold next_named. destruct (List.find _ parameters); [left; eexists; reflexivity | now right].
Qed.

Lemma decode_map_found (parameters ps : list AxParameter.t) :
  NoDup (map AxParameter.name parameters) -> ps ⊆ parameters ->
  decode_map (next_named parameters) (map AxParameter.name ps) = Decoded ps.
Proof.
  intros Hnd. induction ps as [|p ps IH]; intros Hsub; cbn; [reflexivity|].
  rewrite (next_named_found _ _ Hnd) by (apply Hsub; left). cbn.
  rewrite IH; [reflexivity|]. intros q Hq. apply Hsub. now right.
Qed.

Lemma decode_map_missing (parameters : list AxParameter.t) (names : list string) :
  (exists n, n ∈ names /\ (n ∉ map AxParameter.name parameters)) ->
  decode_map (next_named parameters) names = DecodeRaise StopIteration.
Proof.
  induction names as [|m names IH]; intros (n & Hn & Hmiss).
  - now apply elem_of_nil in Hn.
  - cbn. destruct (next_named_cases parameters m) as [[p Hm]|Hm]; rewrite Hm; cbn;
      [|reflexivity].
    apply elem_of_cons in Hn as [->|Hn].
    + rewrite (next_named_missing _ _ Hmiss) in Hm. discriminate.
    + rewrite IH; [reflexivity|]. exists n. now split.
Qed.

Lemma order_names_lower_unset (constraint_dict : pydict float)
    (names : option string * option string) :
  Forall (fun kv => (snd kv =? 1)%float = false) constraint_dict ->
  fst (foldl (fun names kv =>
                if (snd kv =? 1)%float then (Some (fst kv), snd names)
                else if (snd kv =? -1)%float then (fst names, Some (fst kv))
                else names) names constraint_dict) = fst names.
Proof.
  revert names; induction constraint_dict as [|kv d IH]; intros names Hall; cbn;
    [reflexivity|].
  apply Forall_cons in Hall as [Hkv Hall]. rewrite (IH _ Hall), Hkv.
  now destruct (snd kv =? -1)%float.
Qed.

Lemma order_names_upper_unset (constraint_dict : pydict float)
    (names : option string * option string) :
  Forall (fun kv => (snd kv =? -1)%float = false) constraint_dict ->
  snd (foldl (fun names kv =>
                if (snd kv =? 1)%float then (Some (fst kv), snd names)
                else if (snd kv =? -1)%float then (fst names, Some (fst kv))
                else names) names constraint_dict) = snd names.
Proof.
  revert names; induction constraint_dict as [|kv d IH]; intros names Hall; cbn;
    [reflexivity|].
  apply Forall_cons in Hall as [Hkv Hall]. rewrite (IH _ Hall), Hkv.
  now destruct (snd kv =? 1)%float.
Qed.

Lemma constant_dict_keys {V : Type} (w : V) (names : list string) :
  map fst (map (fun name => (name, w)) names) = names.
Proof. induction names as [|n names IH]; cbn; [reflexivity | now rewrite IH]. Qed.

Lemma constant_dict_values {V : Type} (w : V) (names : list string) :
  map snd (map (fun name => (name, w)) names) = map (fun _ => w) names.
Proof. induction names as [|n names IH]; cbn; [reflexivity | now rewrite IH]. Qed.

(** A stored sum constraint decodes to itself: from the row that holds the
    linear form and the stored bound of a sum constraint over at least one
    parameter, and a search space with distinct parameter names that has the
    constraint's parameters, the decoder rebuilds exactly that constraint,
    direction and bound included, and gives it the row's id. *)
Theorem stored_sum_constraint_decodes_to_itself (constrained : list AxParameter.t)
    (is_upper_bound : bool) (supplied : float) (c : SumConstraint.t)
    (parameters : list AxParameter.t) (db_id : Z) :
  SumConstraint.__init__ constrained is_upper_bound supplied = Ok c ->
  constrained <> [] ->
  NoDup (map AxParameter.name parameters) ->
  constrained ⊆ parameters ->
  parameter_constraint_from_sqa (sum_constraint_row c db_id) parameters
  = Decoded (ASumConstraint c, db_id).
Proof.
  intros Hinit Hne Hnd Hsub.
  apply sum_constraint_init_Ok in Hinit as [Hv ->].
  unfold parameter_constraint_from_sqa, sum_constraint_row, SumConstraint.constraint_dict.
  cbn [SQAParameterConstraint.type SQAParameterConstraint.constraint_dict
       SQAParameterConstraint.bound SQAParameterConstraint.id
       SumConstraint._constraint_dict SumConstraint._bound].
  rewrite constant_dict_keys, constant_dict_values.
  rewrite (decode_map_found _ _ Hnd Hsub).
  destruct constrained as [|p constrained]; [contradiction|].
  cbn [map mbind decoding_bind].
  assert ((SumConstraint.inequality_weight_of is_upper_bound =? 1)%float = is_upper_bound)
    as -> by now destruct is_upper_bound.
  rewrite (proj2 (sum_constraint_init_Ok (p :: constrained) is_upper_bound _ _)
             (conj Hv eq_refl)).
  cbn. do 3 f_equal.
  destruct is_upper_bound; cbn.
  - now rewrite float_mul_1_r, !float_mul_1_l.
  - now rewrite float_mul_m1_r, !float_mul_m1_l, float_opp_involutive.
Qed.

Lemma stored_sum_constraint_decodes_to_itself_witness :
  parameter_constraint_from_sqa (sum_constraint_row sum_at_least_5 7) [x2; x1]
  = Decoded (ASumConstraint sum_at_least_5, 7%Z).
Proof.
  apply (stored_sum_constraint_decodes_to_itself [x1; x2] false 5.0%float).
  - vm_compute. reflexivity.
  - discriminate.
  - now apply (bool_decide_unpack _); vm_compute.
  - intros q Hq. apply elem_of_cons in Hq as [->|Hq]; [right; left|].
    apply list_elem_of_singleton in Hq as ->. left.
Defined.

(** A stored order constraint decodes to itself: from the row that holds the
    linear form of an order constraint between two parameters with non-empty
    names, and a search space with distinct parameter names that has both,
    the decoder rebuilds exactly that constraint and gives it the row's id. *)
Theorem stored_order_constraint_decodes_to_itself (lower upper : AxParameter.t)
    (c : OrderConstraint.t) (parameters : list AxParameter.t) (db_id : Z) :
  OrderConstraint.__init__ lower upper = Ok c ->
  AxParameter.name lower <> "" ->
  AxParameter.name upper <> "" ->
  NoDup (map AxParameter.name parameters) ->
  lower ∈ parameters ->
  upper ∈ parameters ->
  parameter_constraint_from_sqa (order_constraint_row c db_id) parameters
  = Decoded (AnOrderConstraint c, db_id).
Proof.
  intros Hinit Hl Hu Hnd Hlin Huin.
  destruct (order_constraint_dict _ _ _ Hinit) as [_ Hdict].
  change (constraint_dict c) with (OrderConstraint.constraint_dict c) in Hdict.
  unfold parameter_constraint_from_sqa, order_constraint_row.
  cbn [SQAParameterConstraint.type SQAParameterConstraint.constraint_dict
       SQAParameterConstraint.bound SQAParameterConstraint.id].
  rewrite Hdict. unfold order_names. cbn [foldl fst snd].
  change (1 =? 1)%float with true. change (-1 =? 1)%float with false.
  change (-1 =? -1)%float with true. cbn [fst snd not_name from_option id].
  rewrite !bool_decide_eq_false_2 by assumption. cbn [orb].
  unfold getitem. rewrite !parameter_map_lookup by assumption.
  cbn [raised mbind decoding_bind]. rewrite Hinit. reflexivity.
Qed.

Lemma stored_order_constraint_decodes_to_itself_witness :
  parameter_constraint_from_sqa (order_constraint_row x1_below_x2 3) [x2; x1]
  = Decoded (AnOrderConstraint x1_below_x2, 3%Z).
Proof.
  apply (stored_order_constraint_decodes_to_itself x1 x2).
  - vm_compute. reflexivity.
  - discriminate.
  - discriminate.
  - now apply (bool_decide_unpack _); vm_compute.
  - right; left.
  - left.
Defined.

(** A SUM row that names a parameter the search space does not have makes
    the decoder raise [StopIteration], whatever else the row holds; and a sum
    constraint over no parameters, which the constructor accepts, is stored
    as a row that the decoder refuses with an [SQADecodeError]. *)
Theorem sum_row_decode_errors :
  (forall (d : pydict float) (b : float) (i : Z) (parameters : list AxParameter.t),
     (exists k, k ∈ map fst d /\ (k ∉ map AxParameter.name parameters)) ->
     parameter_constraint_from_sqa
       (SQAParameterConstraint.mk ParameterConstraintType.SUM d b i) parameters
     = DecodeRaise StopIteration) /\
  (forall (is_upper_bound : bool) (supplied : float),
     exists c, SumConstraint.__init__ [] is_upper_bound supplied = Ok c /\
       forall (i : Z) (parameters : list AxParameter.t),
         parameter_constraint_from_sqa (sum_constraint_row c i) parameters
         = DecodeRaise (SQADecodeError
             [Lit "Cannot decode SQAParameterConstraint because `constraint_dict` ";
              Lit "is empty."])).
Proof.
  split.
  - intros d b i parameters Hmiss. unfold parameter_constraint_from_sqa.
    cbn [SQAParameterConstraint.type SQAParameterConstraint.constraint_dict].
    now rewrite (decode_map_missing _ _ Hmiss).
  - intros is_upper_bound supplied.
    destruct (SumConstraint.__init__ [] is_upper_bound supplied) as [c|e] eqn:Hinit.
    + exists c. split; [reflexivity|]. intros i parameters.
      apply sum_constraint_init_Ok in Hinit as [_ ->]. reflexivity.
    + exfalso.
      assert (validate_constraint_parameters [] = Ok tt) as Hv.
      { apply validate_constraint_parameters_Ok. split; [constructor|].
        intros p Hp. now apply elem_of_nil in Hp. }
      unfold SumConstraint.__init__ in Hinit. rewrite Hv in Hinit. discriminate.
Qed.

Lemma sum_row_decode_errors_witness :
  parameter_constraint_from_sqa
    (SQAParameterConstraint.mk ParameterConstraintType.SUM
       [("x1", 1.0%float); ("x3", 1.0%float)] 5.0%float 7) [x1; x2]
  = DecodeRaise StopIteration.
Proof.
  apply (proj1 sum_row_decode_errors).
  exists "x3". split; [right; left|].
  now apply (bool_decide_unpack _); vm_compute.
Defined.

(** An ORDER row in which no weight equals 1, or none equals -1, is refused
    with an [SQADecodeError], whatever the search space: no parameter is
    looked up and no constraint is built. *)
Theorem order_row_without_both_weights_refused (d : pydict float) (b : float) (i : Z)
    (parameters : list AxParameter.t) :
  Forall (fun kv => (snd kv =? 1)%float = false) d \/
  Forall (fun kv => (snd kv =? -1)%float = false) d ->
  parameter_constraint_from_sqa
    (SQAParameterConstraint.mk ParameterConstraintType.ORDER d b i) parameters
  = DecodeRaise (SQADecodeError
      [Lit "Cannot decode SQAParameterConstraint because `lower_name` or ";
       Lit "`upper_name` was not found."]).
Proof.
  intros Hno. unfold parameter_constraint_from_sqa, order_names.
  cbn [SQAParameterConstraint.type SQAParameterConstraint.constraint_dict].
  destruct Hno as [Hno|Hno].
  - rewrite (order_names_lower_unset _ _ Hno). reflexivity.
  - rewrite (order_names_upper_unset _ _ Hno). cbn [snd not_name].
    now rewrite orb_true_r.
Qed.

Lemma order_row_without_both_weights_refused_witness :
  parameter_constraint_from_sqa
    (SQAParameterConstraint.mk ParameterConstraintType.ORDER
       [("x1", 1.0%float); ("x2", 1.0%float)] 0.0%float 3) [x1; x2]
  = DecodeRaise (SQADecodeError
      [Lit "Cannot decode SQAParameterConstraint because `lower_name` or ";
       Lit "`upper_name` was not found."]).
Proof.
  apply order_row_without_both_weights_refused.
  right. repeat constructor.
Defined.

(** * Acceptance of outcome constraints: order and removal *)

Lemma group_accepted_Permutation (below : float -> float -> Prop)
    (g g' : list OutcomeConstraint.t) :
  g ≡ₚ g' -> group_accepted below g -> group_accepted below g'.
Proof.
  intros Hperm Hacc. destruct g as [|c0 [|c1 [|c2 g]]]; [| | |contradiction].
  - now apply Permutation_nil_l in Hperm as <-.
  - now apply Permutation_singleton_l in Hperm as <-.
  - apply Permutation.Permutation_length_2_inv in Hperm as [->| ->]; [exact Hacc|].
    destruct Hacc as [Hop Hbelow]. split; [congruence|].
    intros lo hi Hsel. apply Hbelow. tauto.
Qed.

Lemma group_accepted_sublist (below : float -> float -> Prop)
    (g g' : list OutcomeConstraint.t) :
  g' `sublist_of` g -> group_accepted below g -> group_accepted below g'.
Proof.
  intros Hsub Hacc. destruct g as [|c0 [|c1 [|c2 g]]]; [| | |contradiction].
  - now apply sublist_nil_r in Hsub as ->.
  - apply sublist_cons_r in Hsub as [Hsub|(g1 & -> & Hsub)];
      now apply sublist_nil_r in Hsub as ->.
  - apply sublist_cons_r in Hsub as [Hsub|(g1 & -> & Hsub)];
      apply sublist_cons_r in Hsub as [Hsub|(g2 & -> & Hsub)];
      apply sublist_nil_r in Hsub as ->; first [exact I | exact Hacc].
Qed.

Lemma filter_sublist_mono {A : Type} (P : A -> Prop) `{!forall x, Decision (P x)}
    (l l' : list A) :
  l' `sublist_of` l -> filter P l' `sublist_of` filter P l.
Proof.
  induction 1 as [|x l1 l2 _ IH|x l1 l2 _ IH].
  - constructor.
  - rewrite !filter_cons. destruct (decide (P x)); [now constructor | exact IH].
  - rewrite filter_cons. destruct (decide (P x)); [now constructor | exact IH].
Qed.

Lemma validate_outcome_constraints_Permutation (unconstrainable_metrics : list Metric.t)
    (l l' : list OutcomeConstraint.t) :
  l ≡ₚ l' ->
  OptimizationConfig._validate_outcome_constraints unconstrainable_metrics l = Ok tt ->
  OptimizationConfig._validate_outcome_constraints unconstrainable_metrics l' = Ok tt.
Proof.
  intros Hperm. rewrite !validate_outcome_constraints_Ok. intros [Hobj Hgroups]. split.
  - intros m c Hm Hc. apply (Hobj m c Hm). now rewrite Hperm.
  - intros metric_name.
    apply (group_accepted_Permutation _ (constraints_on metric_name l)); [|apply Hgroups].
    unfold constraints_on. now rewrite Hperm.
Qed.

(** Whether a list of outcome constraints is accepted does not depend on the
    order in which the constraints are listed, although the validator sorts
    the list and tells the lower from the upper bound of a metric by their
    positions. *)
Theorem outcome_constraints_order_irrelevant (unconstrainable_metrics : list Metric.t)
    (l l' : list OutcomeConstraint.t) :
  l ≡ₚ l' ->
  (OptimizationConfig._validate_outcome_constraints unconstrainable_metrics l = Ok tt <->
   OptimizationConfig._validate_outcome_constraints unconstrainable_metrics l' = Ok tt).
Proof.
  intros Hperm. split; apply validate_outcome_constraints_Permutation;
    [exact Hperm | now symmetry].
Qed.

Lemma outcome_constraints_order_irrelevant_witness :
  OptimizationConfig._validate_outcome_constraints [foo]
    [OutcomeConstraint.mk bar LEQ 1.0%float false;
     OutcomeConstraint.mk bar GEQ 0.0%float false] = Ok tt <->
  OptimizationConfig._validate_outcome_constraints [foo]
    [OutcomeConstraint.mk bar GEQ 0.0%float false;
     OutcomeConstraint.mk bar LEQ 1.0%float false] = Ok tt.
Proof.
  apply (outcome_constraints_order_irrelevant [foo]). apply perm_swap.
Defined.

(** Taking outcome constraints away from an accepted list, or metrics away
    from the objective, never makes the validator raise. *)
Theorem outcome_constraints_removal_accepted (unconstrainable_metrics kept : list Metric.t)
    (l l' : list OutcomeConstraint.t) :
  l' `sublist_of` l ->
  kept ⊆ unconstrainable_metrics ->
  OptimizationConfig._validate_outcome_constraints unconstrainable_metrics l = Ok tt ->
  OptimizationConfig._validate_outcome_constraints kept l' = Ok tt.
Proof.
  intros Hsub Hkept. rewrite !validate_outcome_constraints_Ok. intros [Hobj Hgroups]. split.
  - intros m c Hm Hc. apply Hobj; [now apply Hkept|].
    now apply (sublist_subseteq _ _ Hsub).
  - intros metric_name.
    apply (group_accepted_sublist _ (constraints_on metric_name l)); [|apply Hgroups].
    now apply filter_sublist_mono.
Qed.

Lemma outcome_constraints_removal_accepted_witness :
  OptimizationConfig._validate_outcome_constraints []
    [OutcomeConstraint.mk bar LEQ 1.0%float false] = Ok tt.
Proof.
  apply (outcome_constraints_removal_accepted [foo] []
           [OutcomeConstraint.mk bar GEQ 0.0%float false;
            OutcomeConstraint.mk bar LEQ 1.0%float false]).
  - apply sublist_cons, sublist_skip, sublist_nil.
  - intros m Hm. now apply elem_of_nil in Hm.
  - vm_compute. reflexivity.
Defined.

Lemma thresholds_accepted_among (objectives : list Objective.single)
    (thresholds kept : list ObjectiveThreshold.t) :
  (forall t, t ∈ kept -> t ∈ thresholds) ->
  NoDup (map threshold_metric_name kept) ->
  thresholds_accepted objectives thresholds ->
  thresholds_accepted objectives kept.
Proof.
  intros Hsub Hnd (Hon & _ & Hop). split; [|split].
  - intros t Ht. now apply Hon, Hsub.
  - exact Hnd.
  - intros t o Ht. now apply Hop, Hsub.
Qed.

Lemma sublist_map {A B : Type} (f : A -> B) (l l' : list A) :
  l' `sublist_of` l -> map f l' `sublist_of` map f l.
Proof. induction 1; cbn; now constructor. Qed.

(** Whether a list of objective thresholds matches the objectives does not
    depend on the order of the thresholds, and taking thresholds away from a
    matching list never makes the check raise. *)
Theorem objective_thresholds_order_and_removal (objectives : list Objective.single)
    (thresholds thresholds' : list ObjectiveThreshold.t) :
  (thresholds ≡ₚ thresholds' ->
   (check_objective_thresholds_match_objectives (objectives_by_name objectives) thresholds
    = Ok tt <->
    check_objective_thresholds_match_objectives (objectives_by_name objectives) thresholds'
    = Ok tt)) /\
  (thresholds' `sublist_of` thresholds ->
   check_objective_thresholds_match_objectives (objectives_by_name objectives) thresholds
   = Ok tt ->
   check_objective_thresholds_match_objectives (objectives_by_name objectives) thresholds'
   = Ok tt).
Proof.
  rewrite !check_thresholds_Ok. split.
  - intros Hperm. split; intros Hacc.
    + apply (thresholds_accepted_among _ thresholds); [| |exact Hacc].
      * intros t Ht. now rewrite Hperm.
      * destruct Hacc as (_ & Hnd & _).
        now rewrite <- (Permutation_map threshold_metric_name Hperm).
    + apply (thresholds_accepted_among _ thresholds'); [| |exact Hacc].
      * intros t Ht. now rewrite <- Hperm.
      * destruct Hacc as (_ & Hnd & _).
        now rewrite (Permutation_map threshold_metric_name Hperm).
  - intros Hsub Hacc. apply (thresholds_accepted_among _ thresholds); [| |exact Hacc].
    + intros t Ht. now apply (sublist_subseteq _ _ Hsub).
    + destruct Hacc as (_ & Hnd & _).
      exact (sublist_NoDup _ _ Hnd (sublist_map threshold_metric_name _ _ Hsub)).
Qed.

Lemma objective_thresholds_order_and_removal_witness :
  check_objective_thresholds_match_objectives
    (objectives_by_name [Objective.mk foo true; Objective.mk bar true])
    [foo_at_most_2; bar_at_most_3] = Ok tt <->
  check_objective_thresholds_match_objectives
    (objectives_by_name [Objective.mk foo true; Objective.mk bar true])
    [bar_at_most_3; foo_at_most_2] = Ok tt.
Proof.
  apply (proj1 (objective_thresholds_order_and_removal
                  [Objective.mk foo true; Objective.mk bar true]
                  [foo_at_most_2; bar_at_most_3] [bar_at_most_3; foo_at_most_2])).
  apply perm_swap.
Defined.

(** * Views of a configuration *)

Lemma moo_init_Ok (objective : Objective.t) (l : option (list OutcomeConstraint.t))
    (thresholds : option (list ObjectiveThreshold.t))
    (risk_measure : option RiskMeasure.t) (cfg : MultiObjectiveOptimizationConfig.t) :
  MultiObjectiveOptimizationConfig.__init__ objective l thresholds risk_measure = Ok cfg <->
  MultiObjectiveOptimizationConfig._validate_transformed_optimization_config
    objective (Some (default [] l)) (Some (default [] thresholds)) risk_measure = Ok tt /\
  cfg = {| MultiObjectiveOptimizationConfig._objective := objective;
           MultiObjectiveOptimizationConfig._outcome_constraints := default [] l;
           MultiObjectiveOptimizationConfig._objective_thresholds := default [] thresholds;
           MultiObjectiveOptimizationConfig.risk_measure := risk_measure |}.
Proof.
  rewrite moo_init_run.
  destruct (MultiObjectiveOptimizationConfig._validate_transformed_optimization_config
              _ _ _ _) as [[]|e].
  - split; [intros [= <-]; now split | now intros [_ ->]].
  - split; [discriminate | intros [[=] _]].
Qed.

Lemma dict_of_keys {V : Type} (key : V -> string) (l : list V) (d : pydict V) :
  NoDup (map fst d ++ map key l) ->
  foldl (fun d x => dict_set (key x) x d) d l = d ++ map (fun x => (key x, x)) l.
Proof.
  revert d; induction l as [|x l IH]; intros d Hnd; cbn.
  - now rewrite app_nil_r.
  - cbn in Hnd. apply NoDup_app in Hnd as (Hd & Hdl & Hl).
    apply NoDup_cons in Hl as [Hx Hl].
    rewrite dict_set_fresh.
    + rewrite IH.
      * now rewrite <- app_assoc.
      * rewrite map_app. cbn. apply NoDup_app. split; [|split; [|exact Hl]].
        -- apply NoDup_app. split; [exact Hd|]. split; [|apply NoDup_singleton].
           intros k Hk Hk'. apply list_elem_of_singleton in Hk' as ->.
           apply (Hdl _ Hk). left.
        -- intros k Hk Hk'. apply elem_of_app in Hk as [Hk|Hk].
           ++ apply (Hdl _ Hk). now right.
           ++ apply list_elem_of_singleton in Hk as ->. contradiction.
    + intros Hk. apply (Hdl _ Hk). left.
Qed.

(** On a multi-objective configuration built over a [MultiObjective],
    [objective_thresholds_dict] has one entry for each threshold, in the
    order of the thresholds and none replaced by another, and every key is
    the name of an objective metric. *)
Theorem objective_thresholds_dict_entries (objectives : list Objective.single)
    (l : option (list OutcomeConstraint.t))
    (thresholds : option (list ObjectiveThreshold.t))
    (risk_measure : option RiskMeasure.t) (cfg : MultiObjectiveOptimizationConfig.t) :
  MultiObjectiveOptimizationConfig.__init__
    (Objective.MultiObjective objectives) l thresholds risk_measure = Ok cfg ->
  objective_thresholds_dict cfg
  = map (fun t => (threshold_metric_name t, t)) (default [] thresholds) /\
  forall k t, (k, t) ∈ objective_thresholds_dict cfg ->
    k ∈ map objective_metric_name objectives.
Proof.
  intros Hinit. apply moo_init_Ok in Hinit as [Hv ->].
  rewrite moo_validate_multi in Hv. cbn [from_option id] in Hv.
  destruct (check_objective_thresholds_match_objectives _ _) as [[]|e] eqn:Hcheck;
    [|discriminate].
  apply check_thresholds_Ok in Hcheck as (Hon & Hnd & _).
  assert (objective_thresholds_dict
            {| MultiObjectiveOptimizationConfig._objective :=
                 Objective.MultiObjective objectives;
               MultiObjectiveOptimizationConfig._outcome_constraints := default [] l;
               MultiObjectiveOptimizationConfig._objective_thresholds :=
                 default [] thresholds;
               MultiObjectiveOptimizationConfig.risk_measure := risk_measure |}
          = map (fun t => (threshold_metric_name t, t)) (default [] thresholds)) as ->.
  { unfold objective_thresholds_dict. cbn [MultiObjectiveOptimizationConfig._objective_thresholds].
    now rewrite (dict_of_keys threshold_metric_name _ []). }
  split; [reflexivity|].
  intros k t Hkt. apply elem_of_map in Hkt as (t' & [= -> ->] & Ht'). now apply Hon.
Qed.

Lemma objective_thresholds_dict_entries_witness :
  objective_thresholds_dict two_objectives = [("foo", foo_at_most_2)] /\
  forall k t, (k, t) ∈ objective_thresholds_dict two_objectives ->
    k ∈ map objective_metric_name [Objective.mk foo true; minimize_bar].
Proof.
  apply (objective_thresholds_dict_entries [Objective.mk foo true; minimize_bar]
           None (Some [foo_at_most_2]) None two_objectives).
  vm_compute. reflexivity.
Defined.

(** A configuration of the base class never reports a multi-objective
    problem: the constructor builds none that does, and the objective setter
    cannot turn one that does not into one that does. A multi-objective
    configuration reports one unless its objective is a
    [ScalarizedObjective]. *)
Theorem moo_problem_flag :
  (forall objective l risk_measure cfg,
     OptimizationConfig.__init__ objective l risk_measure = Ok cfg ->
     OptimizationConfig_is_moo_problem cfg = false) /\
  (forall objective self,
     OptimizationConfig_is_moo_problem self = false ->
     OptimizationConfig_is_moo_problem (snd (OptimizationConfig.set_objective objective self))
     = false) /\
  (forall objective l thresholds risk_measure cfg,
     MultiObjectiveOptimizationConfig.__init__ objective l thresholds risk_measure = Ok cfg ->
     MultiObjectiveOptimizationConfig_is_moo_problem cfg = false ->
     exists metrics weights minimize,
       objective = Objective.ScalarizedObjective metrics weights minimize).
Proof.
  split; [|split].
  - intros objective l risk_measure cfg Hinit.
    apply plain_init_Ok in Hinit as [Hv ->].
    apply plain_validate_Ok in Hv as [Hmulti _].
    unfold OptimizationConfig_is_moo_problem; cbn. now destruct objective.
  - intros objective self Hself. rewrite plain_set_objective_run.
    destruct (OptimizationConfig._validate_transformed_optimization_config _ _ _)
      as [[]|e] eqn:Hv; cbn [snd]; [|exact Hself].
    apply plain_validate_Ok in Hv as [Hmulti _].
    unfold OptimizationConfig_is_moo_problem; cbn. now destruct objective.
  - intros objective l thresholds risk_measure cfg Hinit Hflag.
    apply moo_init_Ok in Hinit as [Hv ->].
    unfold MultiObjectiveOptimizationConfig_is_moo_problem in Hflag; cbn in Hflag.
    destruct objective as [o|objectives|metrics weights minimize];
      [discriminate Hv | discriminate Hflag | now exists metrics, weights, minimize].
Qed.

Lemma moo_problem_flag_witness :
  OptimizationConfig_is_moo_problem
    {| OptimizationConfig._objective := minimize_foo;
       OptimizationConfig._outcome_constraints := [];
       OptimizationConfig.risk_measure := None |} = false.
Proof.
  apply (proj1 moo_problem_flag minimize_foo None None).
  vm_compute. reflexivity.
Defined.

(** A preference configuration is built exactly when no outcome constraint
    is passed ([None] or an empty list) and the objective is a
    [MultiObjective] or a [ScalarizedObjective]; it then holds that
    objective, no outcome constraints, no thresholds and no risk measure. A
    non-empty list of outcome constraints raises [NotImplementedError]
    whatever the objective is. *)
Theorem preference_config_built_iff (objective : Objective.t)
    (preference_profile_name : string) :
  (forall l cfg,
     PreferenceOptimizationConfig.__init__ objective preference_profile_name l
     = PreferenceOptimizationConfig.Built cfg <->
     (l = None \/ l = Some []) /\
     Objective.is_multi_or_scalarized objective = true /\
     cfg = {| PreferenceOptimizationConfig.base :=
                {| MultiObjectiveOptimizationConfig._objective := objective;
                   MultiObjectiveOptimizationConfig._outcome_constraints := [];
                   MultiObjectiveOptimizationConfig._objective_thresholds := [];
                   MultiObjectiveOptimizationConfig.risk_measure := None |};
              PreferenceOptimizationConfig.preference_profile_name :=
                preference_profile_name |}) /\
  (forall c l,
     PreferenceOptimizationConfig.__init__ objective preference_profile_name (Some (c :: l))
     = PreferenceOptimizationConfig.InitRaise
         (PreferenceOptimizationConfig.NotImplementedError
            [Lit ("Outcome constraints are not yet supported in " ++
                  "PreferenceOptimizationConfig")%string])).
Proof.
  assert (forall l, l = None \/ l = Some [] ->
            MultiObjectiveOptimizationConfig.__init__ objective l None None
            = if Objective.is_multi_or_scalarized objective
              then Ok {| MultiObjectiveOptimizationConfig._objective := objective;
                         MultiObjectiveOptimizationConfig._outcome_constraints := [];
                         MultiObjectiveOptimizationConfig._objective_thresholds := [];
                         MultiObjectiveOptimizationConfig.risk_measure := None |}
              else Raise not_multi_objective) as Hparent.
  { intros l Hl. rewrite moo_init_run.
    assert (default [] l = []) as -> by now destruct Hl as [-> | ->].
    unfold MultiObjectiveOptimizationConfig._validate_transformed_optimization_config.
    rewrite validate_outcome_constraints_nil.
    now destruct objective as [o|objectives|metrics weights minimize]. }
  split; [|reflexivity].
  intros l cfg. destruct l as [[|c l]|].
  - unfold PreferenceOptimizationConfig.__init__. rewrite Hparent by now right.
    destruct (Objective.is_multi_or_scalarized objective).
    + split; [intros [= <-]; split; [now right | now split] | now intros (_ & _ & ->)].
    + split; [discriminate | now intros (_ & [=] & _)].
  - split; [discriminate | intros ([[=]|[=]] & _)].
  - unfold PreferenceOptimizationConfig.__init__. rewrite Hparent by now left.
    destruct (Objective.is_multi_or_scalarized objective).
    + split; [intros [= <-]; split; [now left | now split] | now intros (_ & _ & ->)].
    + split; [discriminate | now intros (_ & [=] & _)].
Qed.

Lemma metrics_by_name_from_dom (metrics : list Metric.t) (d : gmap string Metric.t)
    (n : string) :
  is_Some (foldl (fun d metric => <[ Metric.name metric := metric ]> d) d metrics !! n) <->
  n ∈ map Metric.name metrics \/ is_Some (d !! n).
Proof.
  revert d; induction metrics as [|m metrics IH]; intros d; cbn.
  - split; [now right | intros [H|H]; [now apply elem_of_nil in H | exact H]].
  - rewrite IH, lookup_insert_is_Some, elem_of_cons.
    destruct (decide (Metric.name m = n)) as [Heq|Hne]; [now intuition|].
    split; [intros [H|[H|[_ H]]]; auto; contradiction | intros [[H|H]|H]; auto].
Qed.

Lemma metrics_by_name_from_Some (metrics : list Metric.t) (d : gmap string Metric.t)
    (n : string) (m : Metric.t) :
  foldl (fun d metric => <[ Metric.name metric := metric ]> d) d metrics !! n = Some m ->
  (m ∈ metrics /\ Metric.name m = n) \/ d !! n = Some m.
Proof.
  revert d; induction metrics as [|m0 metrics IH]; intros d; cbn; [now right|].
  intros H. apply IH in H as [[Hin Hn]|H]; [left; split; [now right | exact Hn]|].
  rewrite lookup_insert in H. case_decide as Heq.
  - injection H as <-. left. split; [left | exact Heq].
  - now right.
Qed.

Lemma metrics_by_name_dom (metrics : list Metric.t) (n : string) :
  is_Some (metrics_by_name metrics !! n) <-> n ∈ map Metric.name metrics.
Proof.
  unfold metrics_by_name. rewrite metrics_by_name_from_dom, lookup_empty.
  split; [intros [H|[x [=]]]; exact H | now left].
Qed.

Lemma metrics_by_name_Some (metrics : list Metric.t) (n : string) (m : Metric.t) :
  metrics_by_name metrics !! n = Some m -> m ∈ metrics /\ Metric.name m = n.
Proof.
  intros H. apply metrics_by_name_from_Some in H as [H|H]; [exact H|].
  now rewrite lookup_empty in H.
Qed.

Lemma elem_of_not_scalarized (l : list Constraint) (c : OutcomeConstraint.t) :
  c ∈ OptimizationConfig.not_scalarized l <-> Plain c ∈ l.
Proof.
  induction l as [|[c0|c0] l IH]; cbn.
  - split; intros H; now apply elem_of_nil in H.
  - rewrite !elem_of_cons, IH. split; (intros [H|H]; [left; congruence | now right]).
  - rewrite elem_of_cons, IH. split; [now right | now intros [[=]|H]].
Qed.

Lemma elem_of_scalarized_metrics (l : list Constraint) (m : Metric.t) :
  m ∈ scalarized_metrics l <->
  exists c, Scalarized c ∈ l /\ m ∈ ScalarizedOutcomeConstraint.metrics c.
Proof.
  unfold scalarized_metrics. induction l as [|[c0|c0] l IH]; cbn.
  - split; [intros H; now apply elem_of_nil in H|].
    intros (c & H & _). now apply elem_of_nil in H.
  - rewrite IH. split; intros (c & Hc & Hm); exists c; (split; [|exact Hm]).
    + now right.
    + now apply elem_of_cons in Hc as [[=]|Hc].
  - rewrite elem_of_app, IH. split.
    + intros [Hm|(c & Hc & Hm)]; [exists c0; split; [left | exact Hm]|].
      exists c. split; [now right | exact Hm].
    + intros (c & Hc & Hm). apply elem_of_cons in Hc as [[= ->]|Hc]; [now left|].
      right. now exists c.
Qed.

(** The [metrics] of a configuration: its keys are the names of the
    objective's metrics, of the metrics of its plain outcome constraints and
    of the metrics inside its scalarized outcome constraints, and no others;
    every metric is filed under its own name; and under the name of an
    objective metric lies a metric of the objective, whatever constraint
    metric has the same name. *)
Theorem config_metrics (self : OptimizationConfig.t) :
  (forall n, is_Some (OptimizationConfig_metrics self !! n) <->
     (exists m, m ∈ Objective.metrics (OptimizationConfig._objective self) /\
        Metric.name m = n) \/
     (exists c, Plain c ∈ OptimizationConfig._outcome_constraints self /\
        get_metric_name c = n) \/
     (exists c m, Scalarized c ∈ OptimizationConfig._outcome_constraints self /\
        m ∈ ScalarizedOutcomeConstraint.metrics c /\ Metric.name m = n)) /\
  (forall n m, OptimizationConfig_metrics self !! n = Some m -> Metric.name m = n) /\
  (forall m, m ∈ Objective.metrics (OptimizationConfig._objective self) ->
     exists m', OptimizationConfig_metrics self !! Metric.name m = Some m' /\
       m' ∈ Objective.metrics (OptimizationConfig._objective self)).
Proof.
  unfold OptimizationConfig_metrics, OptimizationConfig_all_constraints,
    OptimizationConfig.objective, OptimizationConfig.outcome_constraints.
  cbv zeta. split; [|split].
  - intros n. rewrite !lookup_union_is_Some, !metrics_by_name_dom.
    rewrite !elem_of_map.
    split.
    + intros [(m & -> & Hm)|[(m & -> & Hm)|(m & -> & Hm)]].
      * left. now exists m.
      * right; right. apply elem_of_scalarized_metrics in Hm as (c & Hc & Hm).
        now exists c, m.
      * right; left. apply elem_of_map in Hm as (c & -> & Hc).
        exists c. split; [now apply elem_of_not_scalarized | reflexivity].
    + intros [(m & Hm & <-)|[(c & Hc & <-)|(c & m & Hc & Hm & <-)]].
      * left. now exists m.
      * right; right. exists (OutcomeConstraint.metric c). split; [reflexivity|].
        apply elem_of_map. exists c. split; [reflexivity|].
        now apply elem_of_not_scalarized.
      * right; left. exists m. split; [reflexivity|].
        apply elem_of_scalarized_metrics. now exists c.
  - intros n m H.
    apply lookup_union_Some_raw in H as [H|[_ H]];
      [now apply metrics_by_name_Some in H|].
    apply lookup_union_Some_raw in H as [H|[_ H]]; now apply metrics_by_name_Some in H.
  - intros m Hm.
    destruct (proj2 (metrics_by_name_dom
                       (Objective.metrics (OptimizationConfig._objective self))
                       (Metric.name m))) as [m' Hm'].
    { apply elem_of_map. now exists m. }
    exists m'. split.
    + apply lookup_union_Some_raw. now left.
    + now apply metrics_by_name_Some in Hm'.
Qed.

Lemma config_metrics_witness :
  exists m', OptimizationConfig_metrics foo_with_bar_constrained !! "foo" = Some m' /\
    m' ∈ Objective.metrics minimize_foo.
Proof.
  apply (proj2 (proj2 (config_metrics foo_with_bar_constrained)) foo). left.
Defined.

(** With a [ScalarizedObjective] the objective thresholds are not checked at
    all: the thresholds setter accepts and stores any list, and the
    constructor accepts any thresholds whenever the outcome constraints
    validate. *)
Theorem scalarized_objective_thresholds_unchecked (metrics : list Metric.t)
    (weights : list float) (minimize : bool) :
  (forall self thresholds,
     MultiObjectiveOptimizationConfig._objective self
     = Objective.ScalarizedObjective metrics weights minimize ->
     MultiObjectiveOptimizationConfig.set_objective_thresholds thresholds self
     = (Ok tt, moo_with_objective_thresholds thresholds self)) /\
  (forall l thresholds risk_measure,
     OptimizationConfig._validate_outcome_constraints metrics (default [] l) = Ok tt ->
     MultiObjectiveOptimizationConfig.__init__
       (Objective.ScalarizedObjective metrics weights minimize) l thresholds risk_measure
     = Ok {| MultiObjectiveOptimizationConfig._objective :=
               Objective.ScalarizedObjective metrics weights minimize;
             MultiObjectiveOptimizationConfig._outcome_constraints := default [] l;
             MultiObjectiveOptimizationConfig._objective_thresholds :=
               default [] thresholds;
             MultiObjectiveOptimizationConfig.risk_measure := risk_measure |}).
Proof.
  split.
  - intros self thresholds Hobj. rewrite moo_set_objective_thresholds_run, Hobj.
    unfold MultiObjectiveOptimizationConfig._validate_transformed_optimization_config.
    cbn [Objective.is_multi_or_scalarized negb from_option id
         Objective.get_unconstrainable_metrics Objective.metrics].
    rewrite validate_outcome_constraints_nil. cbn.
    unfold moo_with_objective_thresholds. now rewrite Hobj.
  - intros l thresholds risk_measure Hv. rewrite moo_init_run.
    unfold MultiObjectiveOptimizationConfig._validate_transformed_optimization_config.
    cbn [Objective.is_multi_or_scalarized negb from_option id
         Objective.get_unconstrainable_metrics Objective.metrics].
    rewrite Hv. reflexivity.
Qed.

Lemma scalarized_objective_thresholds_unchecked_witness :
  MultiObjectiveOptimizationConfig.set_objective_thresholds
    [foo_at_most_2; foo_at_most_2] scalarized_config
  = (Ok tt, moo_with_objective_thresholds [foo_at_most_2; foo_at_most_2] scalarized_config).
Proof.
  apply (proj1 (scalarized_objective_thresholds_unchecked
                  [foo; bar] [1.0%float; 1.0%float] true)).
  reflexivity.
Defined.
